(** * The compilation state of the WebAssembly module compiler

    A shallow embedding of [CompilationStateImpl] and [CompilationUnitBuilder]
    from [src/wasm/module-compiler.cc], and the properties of its counters,
    queues, error latch and event notification.

    Every method of [CompilationStateImpl] either runs under [mutex_], is a
    single atomic compare-exchange followed by a post, or runs on the
    foreground thread only.  A concurrent schedule is therefore an
    interleaving of whole method calls, and is modelled as a list of
    operations ([Op]) applied one after the other to the state. *)

From Stdlib Require Import ZArith List String Ascii Bool Lia DecimalString.
Import ListNotations.
Open Scope Z_scope.

(** ** [size_t] and [uint32_t]

    Counters and sizes are [size_t]; the model fixes the 64-bit targets.
    Values are integers, arithmetic wraps. *)
Module SizeT.

Definition bits : Z := 64.
Definition modulus : Z := 2 ^ bits.

(** [std::numeric_limits<size_t>::max()] *)
Definition max : Z := modulus - 1.

Definition wrap (z : Z) : Z := z mod modulus.
Definition add (a b : Z) : Z := wrap (a + b).
Definition sub (a b : Z) : Z := wrap (a - b).

(** prefix [--x] *)
Definition decr (a : Z) : Z := wrap (a - 1).

Definition in_range (z : Z) : Prop := 0 <= z < modulus.

(** [std::vector::size()] *)
Definition size {A : Type} (v : list A) : Z := Z.of_nat (List.length v).

End SizeT.

(** ** Enumerations *)

(** [enum class CompileMode : uint8_t { kRegular, kTiering }] *)
Inductive CompileMode : Type := kRegular | kTiering.

Definition CompileMode_eqb (a b : CompileMode) : bool :=
  match a, b with
  | kRegular, kRegular | kTiering, kTiering => true
  | _, _ => false
  end.

(** Modelled from the spec: [ExecutionTier] is declared outside
    module-compiler.cc; the spec gives it as the enum {Baseline, Optimized}. *)
Inductive ExecutionTier : Type := kBaseline | kOptimized.

Definition ExecutionTier_eqb (a b : ExecutionTier) : bool :=
  match a, b with
  | kBaseline, kBaseline | kOptimized, kOptimized => true
  | _, _ => false
  end.

(** Modelled from the spec: [CompilationEvent] and its marker
    [kFirstFinalEvent] are declared outside module-compiler.cc; the spec
    lists the three events in this order and calls the last two final. *)
Inductive CompilationEvent : Type :=
| kFinishedBaselineCompilation
| kFinishedTopTierCompilation
| kFailedCompilation.

(** The enumerator's underlying value. *)
Definition CompilationEvent_value (e : CompilationEvent) : Z :=
  match e with
  | kFinishedBaselineCompilation => 0
  | kFinishedTopTierCompilation => 1
  | kFailedCompilation => 2
  end.

Definition kFirstFinalEvent : CompilationEvent := kFinishedTopTierCompilation.

(** [event >= CompilationEvent::kFirstFinalEvent] *)
Definition is_final_event (e : CompilationEvent) : bool :=
  CompilationEvent_value kFirstFinalEvent <=? CompilationEvent_value e.

Definition CompilationEvent_eq_dec (a b : CompilationEvent) : {a = b} + {a <> b}.
Proof. decide equality. Defined.

(** ** Data *)

(** A compilation unit: one function at one tier. *)
Record WasmCompilationUnit : Type := mkUnit {
  unit_func_index : Z;
  unit_tier : ExecutionTier
}.

(** The error part of a [ResultBase] / [VoidResult]: [error_offset()] and
    [error_msg()]. *)
Record VoidResult : Type := mkError {
  error_offset : Z;
  error_msg : string
}.

(** [struct CompilationError { uint32_t const func_index;
                               VoidResult const result; }] *)
Record CompilationError : Type := mkCompilationError {
  func_index : Z;
  result : VoidResult
}.

(** A registered callback ([CompilationState::callback_t]) is identified by
    a number; what it does with an event is outside this file. *)
Definition callback_t : Type := nat.

(** One invocation [callback(event, error_result)]. *)
Record Delivery : Type := mkDelivery {
  delivered_to : callback_t;
  delivered_event : CompilationEvent;
  delivered_error : option VoidResult
}.

(** Tasks handed to the platform. *)
Inductive Task : Type :=
| FinishCompileTask
| BackgroundCompileTask
| NotifyFailedTask                          (* the lambda posted by SetError *)
| FreeCallbacksTask (callbacks : list callback_t).

Definition is_BackgroundCompileTask (t : Task) : bool :=
  match t with BackgroundCompileTask => true | _ => false end.

Definition is_NotifyFailedTask (t : Task) : bool :=
  match t with NotifyFailedTask => true | _ => false end.

(** ** The state

    The fields of [CompilationStateImpl] that its operations read or branch
    on, under the names of the source.  Left out: [isolate_],
    [should_log_code_], [detected_features_], [log_codes_task_] and
    [wire_bytes_storage_], which no operation below reads.  Added: what the
    class sees of its surroundings (the flag, the wire bytes of
    [native_module_], the two task queues of the platform) and two logs, of
    the calls to [NotifyOnEvent] and of the callback invocations. *)
Record CompilationStateImpl : Type := mkState {
  compile_mode_ : CompileMode;
  compile_error_ : option CompilationError;
  baseline_compilation_units_ : list WasmCompilationUnit;
  tiering_compilation_units_ : list WasmCompilationUnit;
  finisher_is_running_ : bool;
  num_background_tasks_ : Z;
  baseline_finish_units_ : list WasmCompilationUnit;
  tiering_finish_units_ : list WasmCompilationUnit;
  callbacks_ : list callback_t;
  max_background_tasks_ : Z;
  outstanding_baseline_units_ : Z;
  outstanding_tiering_units_ : Z;
  (* surroundings *)
  FLAG_wasm_num_compilation_tasks : Z;
  wire_bytes : string;
  foreground_tasks : list Task;
  worker_tasks : list Task;
  (* logs *)
  fired : list CompilationEvent;
  delivered : list Delivery
}.

Definition set_compile_error (v : option CompilationError) (s : CompilationStateImpl) :=
  mkState (compile_mode_ s) v (baseline_compilation_units_ s)
    (tiering_compilation_units_ s) (finisher_is_running_ s)
    (num_background_tasks_ s) (baseline_finish_units_ s)
    (tiering_finish_units_ s) (callbacks_ s) (max_background_tasks_ s)
    (outstanding_baseline_units_ s) (outstanding_tiering_units_ s)
    (FLAG_wasm_num_compilation_tasks s) (wire_bytes s) (foreground_tasks s)
    (worker_tasks s) (fired s) (delivered s).

Definition set_baseline_compilation_units (v : list WasmCompilationUnit) (s : CompilationStateImpl) :=
  mkState (compile_mode_ s) (compile_error_ s) v
    (tiering_compilation_units_ s) (finisher_is_running_ s)
    (num_background_tasks_ s) (baseline_finish_units_ s)
    (tiering_finish_units_ s) (callbacks_ s) (max_background_tasks_ s)
    (outstanding_baseline_units_ s) (outstanding_tiering_units_ s)
    (FLAG_wasm_num_compilation_tasks s) (wire_bytes s) (foreground_tasks s)
    (worker_tasks s) (fired s) (delivered s).

Definition set_tiering_compilation_units (v : list WasmCompilationUnit) (s : CompilationStateImpl) :=
  mkState (compile_mode_ s) (compile_error_ s) (baseline_compilation_units_ s)
    v (finisher_is_running_ s)
    (num_background_tasks_ s) (baseline_finish_units_ s)
    (tiering_finish_units_ s) (callbacks_ s) (max_background_tasks_ s)
    (outstanding_baseline_units_ s) (outstanding_tiering_units_ s)
    (FLAG_wasm_num_compilation_tasks s) (wire_bytes s) (foreground_tasks s)
    (worker_tasks s) (fired s) (delivered s).

Definition set_finisher_is_running (v : bool) (s : CompilationStateImpl) :=
  mkState (compile_mode_ s) (compile_error_ s) (baseline_compilation_units_ s)
    (tiering_compilation_units_ s) v
    (num_background_tasks_ s) (baseline_finish_units_ s)
    (tiering_finish_units_ s) (callbacks_ s) (max_background_tasks_ s)
    (outstanding_baseline_units_ s) (outstanding_tiering_units_ s)
    (FLAG_wasm_num_compilation_tasks s) (wire_bytes s) (foreground_tasks s)
    (worker_tasks s) (fired s) (delivered s).

Definition set_num_background_tasks (v : Z) (s : CompilationStateImpl) :=
  mkState (compile_mode_ s) (compile_error_ s) (baseline_compilation_units_ s)
    (tiering_compilation_units_ s) (finisher_is_running_ s)
    v (baseline_finish_units_ s)
    (tiering_finish_units_ s) (callbacks_ s) (max_background_tasks_ s)
    (outstanding_baseline_units_ s) (outstanding_tiering_units_ s)
    (FLAG_wasm_num_compilation_tasks s) (wire_bytes s) (foreground_tasks s)
    (worker_tasks s) (fired s) (delivered s).

Definition set_baseline_finish_units (v : list WasmCompilationUnit) (s : CompilationStateImpl) :=
  mkState (compile_mode_ s) (compile_error_ s) (baseline_compilation_units_ s)
    (tiering_compilation_units_ s) (finisher_is_running_ s)
    (num_background_tasks_ s) v
    (tiering_finish_units_ s) (callbacks_ s) (max_background_tasks_ s)
    (outstanding_baseline_units_ s) (outstanding_tiering_units_ s)
    (FLAG_wasm_num_compilation_tasks s) (wire_bytes s) (foreground_tasks s)
    (worker_tasks s) (fired s) (delivered s).

Definition set_tiering_finish_units (v : list WasmCompilationUnit) (s : CompilationStateImpl) :=
  mkState (compile_mode_ s) (compile_error_ s) (baseline_compilation_units_ s)
    (tiering_compilation_units_ s) (finisher_is_running_ s)
    (num_background_tasks_ s) (baseline_finish_units_ s)
    v (callbacks_ s) (max_background_tasks_ s)
    (outstanding_baseline_units_ s) (outstanding_tiering_units_ s)
    (FLAG_wasm_num_compilation_tasks s) (wire_bytes s) (foreground_tasks s)
    (worker_tasks s) (fired s) (delivered s).

Definition set_callbacks (v : list callback_t) (s : CompilationStateImpl) :=
  mkState (compile_mode_ s) (compile_error_ s) (baseline_compilation_units_ s)
    (tiering_compilation_units_ s) (finisher_is_running_ s)
    (num_background_tasks_ s) (baseline_finish_units_ s)
    (tiering_finish_units_ s) v (max_background_tasks_ s)
    (outstanding_baseline_units_ s) (outstanding_tiering_units_ s)
    (FLAG_wasm_num_compilation_tasks s) (wire_bytes s) (foreground_tasks s)
    (worker_tasks s) (fired s) (delivered s).

Definition set_outstanding_baseline_units (v : Z) (s : CompilationStateImpl) :=
  mkState (compile_mode_ s) (compile_error_ s) (baseline_compilation_units_ s)
    (tiering_compilation_units_ s) (finisher_is_running_ s)
    (num_background_tasks_ s) (baseline_finish_units_ s)
    (tiering_finish_units_ s) (callbacks_ s) (max_background_tasks_ s)
    v (outstanding_tiering_units_ s)
    (FLAG_wasm_num_compilation_tasks s) (wire_bytes s) (foreground_tasks s)
    (worker_tasks s) (fired s) (delivered s).

Definition set_outstanding_tiering_units (v : Z) (s : CompilationStateImpl) :=
  mkState (compile_mode_ s) (compile_error_ s) (baseline_compilation_units_ s)
    (tiering_compilation_units_ s) (finisher_is_running_ s)
    (num_background_tasks_ s) (baseline_finish_units_ s)
    (tiering_finish_units_ s) (callbacks_ s) (max_background_tasks_ s)
    (outstanding_baseline_units_ s) v
    (FLAG_wasm_num_compilation_tasks s) (wire_bytes s) (foreground_tasks s)
    (worker_tasks s) (fired s) (delivered s).

Definition set_foreground_tasks (v : list Task) (s : CompilationStateImpl) :=
  mkState (compile_mode_ s) (compile_error_ s) (baseline_compilation_units_ s)
    (tiering_compilation_units_ s) (finisher_is_running_ s)
    (num_background_tasks_ s) (baseline_finish_units_ s)
    (tiering_finish_units_ s) (callbacks_ s) (max_background_tasks_ s)
    (outstanding_baseline_units_ s) (outstanding_tiering_units_ s)
    (FLAG_wasm_num_compilation_tasks s) (wire_bytes s) v
    (worker_tasks s) (fired s) (delivered s).

Definition set_worker_tasks (v : list Task) (s : CompilationStateImpl) :=
  mkState (compile_mode_ s) (compile_error_ s) (baseline_compilation_units_ s)
    (tiering_compilation_units_ s) (finisher_is_running_ s)
    (num_background_tasks_ s) (baseline_finish_units_ s)
    (tiering_finish_units_ s) (callbacks_ s) (max_background_tasks_ s)
    (outstanding_baseline_units_ s) (outstanding_tiering_units_ s)
    (FLAG_wasm_num_compilation_tasks s) (wire_bytes s) (foreground_tasks s)
    v (fired s) (delivered s).

Definition set_fired (v : list CompilationEvent) (s : CompilationStateImpl) :=
  mkState (compile_mode_ s) (compile_error_ s) (baseline_compilation_units_ s)
    (tiering_compilation_units_ s) (finisher_is_running_ s)
    (num_background_tasks_ s) (baseline_finish_units_ s)
    (tiering_finish_units_ s) (callbacks_ s) (max_background_tasks_ s)
    (outstanding_baseline_units_ s) (outstanding_tiering_units_ s)
    (FLAG_wasm_num_compilation_tasks s) (wire_bytes s) (foreground_tasks s)
    (worker_tasks s) v (delivered s).

Definition set_delivered (v : list Delivery) (s : CompilationStateImpl) :=
  mkState (compile_mode_ s) (compile_error_ s) (baseline_compilation_units_ s)
    (tiering_compilation_units_ s) (finisher_is_running_ s)
    (num_background_tasks_ s) (baseline_finish_units_ s)
    (tiering_finish_units_ s) (callbacks_ s) (max_background_tasks_ s)
    (outstanding_baseline_units_ s) (outstanding_tiering_units_ s)
    (FLAG_wasm_num_compilation_tasks s) (wire_bytes s) (foreground_tasks s)
    (worker_tasks s) (fired s) v.

(** ** [std::vector] as a list in index order *)

(** [v.back()], when [v] is not empty. *)
Fixpoint back {A : Type} (v : list A) : option A :=
  match v with
  | [] => None
  | [x] => Some x
  | _ :: v' => back v'
  end.

(** [v.pop_back()] *)
Definition pop_back {A : Type} (v : list A) : list A := removelast v.

(** [v.push_back(x)] *)
Definition push_back {A : Type} (v : list A) (x : A) : list A := v ++ [x].

(** [v.empty()] *)
Definition empty {A : Type} (v : list A) : bool :=
  match v with [] => true | _ :: _ => false end.

(** ** Operations of [CompilationStateImpl] *)

(** The constructor: the mode and [max_background_tasks_] are computed from
    the flags, the module's origin and the platform's number of worker
    threads; the queues are empty and the counters zero. *)
Definition new_CompilationStateImpl (FLAG_wasm_tier_up origin_is_wasm : bool)
    (FLAG_wasm_num_compilation_tasks NumberOfWorkerThreads : Z)
    (bytes : string) : CompilationStateImpl :=
  mkState
    (if FLAG_wasm_tier_up && origin_is_wasm then kTiering else kRegular)
    None [] [] false 0 [] [] []
    (Z.max 1 (Z.min FLAG_wasm_num_compilation_tasks NumberOfWorkerThreads))
    0 0 FLAG_wasm_num_compilation_tasks bytes [] [] [] [].

Definition failed (s : CompilationStateImpl) : bool :=
  match compile_error_ s with
  | Some _ => true
  | None => false
  end.

Definition baseline_compilation_finished (s : CompilationStateImpl) : bool :=
  (outstanding_baseline_units_ s =? 0) ||
  (CompileMode_eqb (compile_mode_ s) kTiering &&
   (outstanding_tiering_units_ s =? 0)).

Definition has_outstanding_units (s : CompilationStateImpl) : bool :=
  (0 <? outstanding_tiering_units_ s) || (0 <? outstanding_baseline_units_ s).

(** [finish_units()] returns a reference to one of the two vectors: a read
    and a write through that reference. *)
Definition finish_units (s : CompilationStateImpl) : list WasmCompilationUnit :=
  if baseline_compilation_finished s
  then tiering_finish_units_ s
  else baseline_finish_units_ s.

Definition set_finish_units (v : list WasmCompilationUnit)
    (s : CompilationStateImpl) : CompilationStateImpl :=
  if baseline_compilation_finished s
  then set_tiering_finish_units v s
  else set_baseline_finish_units v s.

(** [DCHECK(!failed())] *)
Definition SetNumberOfFunctionsToCompile_DCHECK (s : CompilationStateImpl) : bool :=
  negb (failed s).

Definition SetNumberOfFunctionsToCompile (num_functions : Z)
    (s : CompilationStateImpl) : CompilationStateImpl :=
  let s := set_outstanding_baseline_units num_functions s in
  if CompileMode_eqb (compile_mode_ s) kTiering
  then set_outstanding_tiering_units num_functions s
  else s.

(** The debug build: a failed [DCHECK] aborts the process ([None]). *)
Definition SetNumberOfFunctionsToCompile_debug (num_functions : Z)
    (s : CompilationStateImpl) : option CompilationStateImpl :=
  if SetNumberOfFunctionsToCompile_DCHECK s
  then Some (SetNumberOfFunctionsToCompile num_functions s)
  else None.

Definition AddCallback (callback : callback_t)
    (s : CompilationStateImpl) : CompilationStateImpl :=
  set_callbacks (push_back (callbacks_ s) callback) s.

(** The loop at the end of [RestartBackgroundTasks]: one task per round,
    to the worker threads, or to the foreground runner when
    [--wasm-num-compilation-tasks=0]. *)
Fixpoint spawn_background_tasks (num_restart : nat)
    (s : CompilationStateImpl) : CompilationStateImpl :=
  match num_restart with
  | O => s
  | S n =>
      let s :=
        if 0 <? FLAG_wasm_num_compilation_tasks s
        then set_worker_tasks (push_back (worker_tasks s) BackgroundCompileTask) s
        else set_foreground_tasks
               (push_back (foreground_tasks s) BackgroundCompileTask) s in
      spawn_background_tasks n s
  end.

(** The value of [num_restart] when the locked block does not return. *)
Definition num_restart (max : Z) (s : CompilationStateImpl) : Z :=
  let num_compilation_units :=
    SizeT.add (SizeT.size (baseline_compilation_units_ s))
              (SizeT.size (tiering_compilation_units_ s)) in
  let stopped_tasks :=
    SizeT.sub (max_background_tasks_ s) (num_background_tasks_ s) in
  Z.min max (Z.min num_compilation_units stopped_tasks).

(** [DCHECK_LE(num_background_tasks_, max_background_tasks_)], reached when
    no error is latched. *)
Definition RestartBackgroundTasks_DCHECK (s : CompilationStateImpl) : bool :=
  failed s || (num_background_tasks_ s <=? max_background_tasks_ s).

Definition RestartBackgroundTasks (max : Z)
    (s : CompilationStateImpl) : CompilationStateImpl :=
  if failed s then s
  else if num_background_tasks_ s =? max_background_tasks_ s then s
  else
    let n := num_restart max s in
    let s := set_num_background_tasks
               (SizeT.add (num_background_tasks_ s) n) s in
    spawn_background_tasks (Z.to_nat n) s.

Definition AddCompilationUnits (baseline_units tiering_units : list WasmCompilationUnit)
    (s : CompilationStateImpl) : CompilationStateImpl :=
  let s :=
    if CompileMode_eqb (compile_mode_ s) kTiering
    then set_tiering_compilation_units
           (tiering_compilation_units_ s ++ tiering_units) s
    else s in
  let s := set_baseline_compilation_units
             (baseline_compilation_units_ s ++ baseline_units) s in
  RestartBackgroundTasks SizeT.max s.

Definition GetNextCompilationUnit (s : CompilationStateImpl)
    : option WasmCompilationUnit * CompilationStateImpl :=
  if empty (baseline_compilation_units_ s)
  then match back (tiering_compilation_units_ s) with
       | Some unit =>
           (Some unit,
            set_tiering_compilation_units
              (pop_back (tiering_compilation_units_ s)) s)
       | None => (None, s)
       end
  else match back (baseline_compilation_units_ s) with
       | Some unit =>
           (Some unit,
            set_baseline_compilation_units
              (pop_back (baseline_compilation_units_ s)) s)
       | None => (None, s)
       end.

Definition GetNextExecutedUnit (s : CompilationStateImpl)
    : option WasmCompilationUnit * CompilationStateImpl :=
  match back (finish_units s) with
  | None => (None, s)
  | Some ret => (Some ret, set_finish_units (pop_back (finish_units s)) s)
  end.

Definition HasCompilationUnitToFinish (s : CompilationStateImpl) : bool :=
  negb (empty (finish_units s)).

(** [NotifyOnEvent]: every registered callback is called with the event;
    after a final event the callbacks are cleared. *)
Definition NotifyOnEvent (event : CompilationEvent)
    (error_result : option VoidResult)
    (s : CompilationStateImpl) : CompilationStateImpl :=
  let s := set_fired (fired s ++ [event]) s in
  let s := set_delivered
             (delivered s ++
              map (fun callback => mkDelivery callback event error_result)
                  (callbacks_ s)) s in
  if is_final_event event then set_callbacks [] s else s.

Definition is_tiering_mode (s : CompilationStateImpl) : bool :=
  CompileMode_eqb (compile_mode_ s) kTiering.

Definition is_tiering_unit (s : CompilationStateImpl) : bool :=
  is_tiering_mode s && (outstanding_baseline_units_ s =? 0).

(** The assertions of [OnFinishedUnit]: [DCHECK_IMPLIES(!is_tiering_mode,
    outstanding_tiering_units_ == 0)], and in the branch taken
    [DCHECK_LT(0, counter)] for the counter it decrements. *)
Definition OnFinishedUnit_DCHECK (s : CompilationStateImpl) : bool :=
  (is_tiering_mode s || (outstanding_tiering_units_ s =? 0)) &&
  (if is_tiering_unit s
   then 0 <? outstanding_tiering_units_ s
   else 0 <? outstanding_baseline_units_ s).

Definition OnFinishedUnit (s : CompilationStateImpl) : CompilationStateImpl :=
  if is_tiering_unit s then
    let s' := set_outstanding_tiering_units
                (SizeT.decr (outstanding_tiering_units_ s)) s in
    if outstanding_tiering_units_ s' =? 0
    then NotifyOnEvent kFinishedTopTierCompilation None s'
    else s'
  else
    let s' := set_outstanding_baseline_units
                (SizeT.decr (outstanding_baseline_units_ s)) s in
    if outstanding_baseline_units_ s' =? 0 then
      let s'' := NotifyOnEvent kFinishedBaselineCompilation None s' in
      if negb (is_tiering_mode s)
      then NotifyOnEvent kFinishedTopTierCompilation None s''
      else s''
    else s'.

Definition ScheduleFinisherTask (s : CompilationStateImpl) : CompilationStateImpl :=
  set_foreground_tasks (push_back (foreground_tasks s) FinishCompileTask) s.

Definition ScheduleUnitForFinishing (unit : WasmCompilationUnit)
    (tier : ExecutionTier) (s : CompilationStateImpl) : CompilationStateImpl :=
  let s :=
    if CompileMode_eqb (compile_mode_ s) kTiering &&
       ExecutionTier_eqb tier kOptimized
    then set_tiering_finish_units (push_back (tiering_finish_units_ s) unit) s
    else set_baseline_finish_units (push_back (baseline_finish_units_ s) unit) s in
  if negb (finisher_is_running_ s) && negb (failed s)
  then set_finisher_is_running true (ScheduleFinisherTask s)
  else s.

(** [DCHECK_LE(1, num_background_tasks_)] *)
Definition OnBackgroundTaskStopped_DCHECK (s : CompilationStateImpl) : bool :=
  1 <=? num_background_tasks_ s.

Definition OnBackgroundTaskStopped (s : CompilationStateImpl) : CompilationStateImpl :=
  set_num_background_tasks (SizeT.decr (num_background_tasks_ s)) s.

Definition SetFinisherIsRunning (value : bool) (s : CompilationStateImpl)
    : bool * CompilationStateImpl :=
  if Bool.eqb (finisher_is_running_ s) value
  then (false, s)
  else (true, set_finisher_is_running value s).

(** [SetError]: the compare-exchange succeeds only on an empty latch; only
    then is the notification posted. *)
Definition SetError (func_index : Z) (error_result : VoidResult)
    (s : CompilationStateImpl) : CompilationStateImpl :=
  match compile_error_ s with
  | Some _ => s
  | None =>
      let s := set_compile_error
                 (Some (mkCompilationError func_index error_result)) s in
      set_foreground_tasks (push_back (foreground_tasks s) NotifyFailedTask) s
  end.

(** Modelled from the spec: [CancelableTaskManager] is declared outside
    module-compiler.cc.  "Cancel all background tasks and wait": a background
    task that has not started never runs. *)
Definition background_task_manager_CancelAndWait
    (s : CompilationStateImpl) : CompilationStateImpl :=
  let keep := fun t => negb (is_BackgroundCompileTask t) in
  set_worker_tasks (filter keep (worker_tasks s))
    (set_foreground_tasks (filter keep (foreground_tasks s)) s).

Definition Abort (s : CompilationStateImpl) : CompilationStateImpl :=
  let s := SetError 0 (mkError 0 "Compilation aborted") s in
  let s := background_task_manager_CancelAndWait s in
  if negb (empty (callbacks_ s))
  then set_callbacks []
         (set_foreground_tasks
            (push_back (foreground_tasks s) (FreeCallbacksTask (callbacks_ s))) s)
  else s.

(** ** [CompilationUnitBuilder] *)

Record CompilationUnitBuilder : Type := mkBuilder {
  baseline_units_ : list WasmCompilationUnit;
  tiering_units_ : list WasmCompilationUnit
}.

(** [AddUnit]; [default_tier] is what
    [WasmCompilationUnit::GetDefaultExecutionTier()] returns. *)
Definition AddUnit (default_tier : ExecutionTier) (func_index : Z)
    (b : CompilationUnitBuilder) (s : CompilationStateImpl)
    : CompilationUnitBuilder :=
  match compile_mode_ s with
  | kTiering =>
      let b := mkBuilder (baseline_units_ b)
                 (push_back (tiering_units_ b) (mkUnit func_index kOptimized)) in
      mkBuilder (push_back (baseline_units_ b) (mkUnit func_index kBaseline))
        (tiering_units_ b)
  | kRegular =>
      mkBuilder (push_back (baseline_units_ b) (mkUnit func_index default_tier))
        (tiering_units_ b)
  end.

Definition Clear (b : CompilationUnitBuilder) : CompilationUnitBuilder :=
  mkBuilder [] [].

(** [Commit] returns its result, the builder and the compilation state. *)
Definition Commit (b : CompilationUnitBuilder) (s : CompilationStateImpl)
    : bool * CompilationUnitBuilder * CompilationStateImpl :=
  if empty (baseline_units_ b) && empty (tiering_units_ b)
  then (false, b, s)
  else
    let s := AddCompilationUnits (baseline_units_ b) (tiering_units_ b) s in
    (true, Clear b, s).

(** ** Operations as data

    One constructor per operation a thread can perform on the state.  The
    bodies of [FinishCompileTask] and [BackgroundCompileTask] are loops over
    these operations ([RestartBackgroundTasks], [GetNextExecutedUnit],
    [OnFinishedUnit], [SetFinisherIsRunning], [GetNextCompilationUnit],
    [ScheduleUnitForFinishing], [OnBackgroundTaskStopped], ...), so in a
    trace their work shows as operations of its own. *)
Inductive Op : Type :=
| OpSetNumberOfFunctionsToCompile (num_functions : Z)
| OpAddCallback (callback : callback_t)
| OpAddCompilationUnits (baseline_units tiering_units : list WasmCompilationUnit)
| OpGetNextCompilationUnit
| OpGetNextExecutedUnit
| OpOnFinishedUnit
| OpScheduleUnitForFinishing (unit : WasmCompilationUnit) (tier : ExecutionTier)
| OpOnBackgroundTaskStopped
| OpRestartBackgroundTasks (max : Z)
| OpSetFinisherIsRunning (value : bool)
| OpScheduleFinisherTask
| OpAbort
| OpSetError (func_index : Z) (error_result : VoidResult)
| OpRunForegroundTask.

Definition is_OpAddCallback (op : Op) : bool :=
  match op with OpAddCallback _ => true | _ => false end.

Definition is_OpSetNumberOfFunctionsToCompile (op : Op) : bool :=
  match op with OpSetNumberOfFunctionsToCompile _ => true | _ => false end.

Definition is_OpSetError (op : Op) : bool :=
  match op with OpSetError _ _ => true | _ => false end.

Definition Op_eq_OnFinishedUnit (op : Op) :
  {op = OpOnFinishedUnit} + {op <> OpOnFinishedUnit}.
Proof. destruct op; (left; reflexivity) || (right; discriminate). Defined.

(** [std::ostringstream]: the text written so far. *)
Definition ostringstream : Type := string.

Definition put (os : ostringstream) (text : string) : ostringstream :=
  String.append os text.

(** [os << n] for an unsigned integer: decimal digits. *)
Definition put_uint32 (os : ostringstream) (n : Z) : ostringstream :=
  put os (NilZero.string_of_uint (N.to_uint (Z.to_N n))).

Definition dquote : string := String (ascii_of_nat 34) EmptyString.

Section WithNameSection.

(** The name of a function is looked up through the decoded module and the
    wire bytes; [WireBytesRef], [WasmModule::LookupFunctionName] and
    [ModuleWireBytes::GetNameOrNull] are declared outside this file. *)
Variable WireBytesRef : Type.
Variable is_set : WireBytesRef -> bool.
Variable LookupFunctionName : string -> Z -> WireBytesRef.
Variable GetNameOrNull : string -> WireBytesRef -> string.

(** [GetCompileError]; [None] when the latch is empty
    ([DCHECK_NOT_NULL(error)]). *)
Definition GetCompileError (s : CompilationStateImpl) : option VoidResult :=
  match compile_error_ s with
  | None => None
  | Some error =>
      let os := put EmptyString "Compiling wasm function " in
      let os := put os dquote in
      let name_ref := LookupFunctionName (wire_bytes s) (func_index error) in
      let os :=
        if is_set name_ref
        then put os (GetNameOrNull (wire_bytes s) name_ref)
        else put (put_uint32 (put os "wasm-function[") (func_index error)) "]" in
      let os := put (put (put os dquote) " failed: ") (error_msg (result error)) in
      Some (mkError (error_offset (result error)) os)
  end.

(** The task [SetError] posts. *)
Definition NotifyFailedTask_Run (s : CompilationStateImpl) : CompilationStateImpl :=
  match GetCompileError s with
  | Some error_result => NotifyOnEvent kFailedCompilation (Some error_result) s
  | None => s
  end.

(** The foreground runner takes the oldest task and runs it.
    [FreeCallbacksTask] clears its own copy of the callbacks.  A
    [FinishCompileTask] or [BackgroundCompileTask] leaves the queue here;
    what it does to the state are the operations it calls, which a schedule
    lists one by one, so that operations of other threads may come between
    them. *)
Definition RunForegroundTask (s : CompilationStateImpl) : CompilationStateImpl :=
  match foreground_tasks s with
  | [] => s
  | task :: rest =>
      let s := set_foreground_tasks rest s in
      match task with
      | NotifyFailedTask => NotifyFailedTask_Run s
      | FreeCallbacksTask _ => s
      | FinishCompileTask => s
      | BackgroundCompileTask => s
      end
  end.

Definition step (op : Op) (s : CompilationStateImpl) : CompilationStateImpl :=
  match op with
  | OpSetNumberOfFunctionsToCompile n => SetNumberOfFunctionsToCompile n s
  | OpAddCallback callback => AddCallback callback s
  | OpAddCompilationUnits b t => AddCompilationUnits b t s
  | OpGetNextCompilationUnit => snd (GetNextCompilationUnit s)
  | OpGetNextExecutedUnit => snd (GetNextExecutedUnit s)
  | OpOnFinishedUnit => OnFinishedUnit s
  | OpScheduleUnitForFinishing unit tier => ScheduleUnitForFinishing unit tier s
  | OpOnBackgroundTaskStopped => OnBackgroundTaskStopped s
  | OpRestartBackgroundTasks max => RestartBackgroundTasks max s
  | OpSetFinisherIsRunning value => snd (SetFinisherIsRunning value s)
  | OpScheduleFinisherTask => ScheduleFinisherTask s
  | OpAbort => Abort s
  | OpSetError func_index error_result => SetError func_index error_result s
  | OpRunForegroundTask => RunForegroundTask s
  end.

(** A schedule: the operations in the order they take effect. *)
Fixpoint run (ops : list Op) (s : CompilationStateImpl) : CompilationStateImpl :=
  match ops with
  | [] => s
  | op :: ops' => run ops' (step op s)
  end.

(** The foreground runner runs every task it holds. *)
Definition drain_foreground (s : CompilationStateImpl) : CompilationStateImpl :=
  run (repeat OpRunForegroundTask (List.length (foreground_tasks s))) s.

End WithNameSection.

(** ** Notions used in the statements *)

(** The tasks a call hands to the platform: what both queues gained. *)
Definition tasks_posted (s s' : CompilationStateImpl) : Z :=
  SizeT.size (worker_tasks s') + SizeT.size (foreground_tasks s')
  - (SizeT.size (worker_tasks s) + SizeT.size (foreground_tasks s)).

(** The accounting of workers: the counter is within its bound. *)
Definition workers_within_bound (s : CompilationStateImpl) : Prop :=
  0 <= num_background_tasks_ s <= max_background_tasks_ s /\
  max_background_tasks_ s < SizeT.modulus.

(** How often [NotifyOnEvent] was called with an event. *)
Definition count_fired (event : CompilationEvent) (s : CompilationStateImpl) : nat :=
  count_occ CompilationEvent_eq_dec (fired s) event.

(** The failure notifications posted and not yet run. *)
Definition pending_notifications (s : CompilationStateImpl) : nat :=
  List.length (filter is_NotifyFailedTask (foreground_tasks s)).

(** One notification, pending or fired, exactly when the latch is set. *)
Definition latch_accounted (s : CompilationStateImpl) : Prop :=
  (pending_notifications s + count_fired kFailedCompilation s)%nat =
  if failed s then 1%nat else 0%nat.

(** One round of [NotifyOnEvent]: the event goes to every callback. *)
Definition notify_all (callbacks : list callback_t) (event : CompilationEvent)
    (error_result : option VoidResult) : list Delivery :=
  map (fun callback => mkDelivery callback event error_result) callbacks.

Definition baseline_deliveries (l : list Delivery) : Prop :=
  Forall (fun d => delivered_event d = kFinishedBaselineCompilation) l.

(** Nothing, or one round of one final event. *)
Definition final_round (callbacks : list callback_t) (l : list Delivery) : Prop :=
  l = [] \/
  exists event error_result,
    is_final_event event = true /\ l = notify_all callbacks event error_result.

(** What one operation may add to the deliveries: at most a round of
    [kFinishedBaselineCompilation], then at most a round of a final event;
    after a final round, and after [Abort], no callback is left. *)
Definition delivery_effect (s s' : CompilationStateImpl) : Prop :=
  exists pre fin,
    delivered s' = delivered s ++ pre ++ fin /\
    (pre = [] \/
     pre = notify_all (callbacks_ s) kFinishedBaselineCompilation None) /\
    ((fin = [] /\ callbacks_ s' = callbacks_ s) \/
     (callbacks_ s' = [] /\ final_round (callbacks_ s) fin)).

(** The deliveries since [s0]: rounds of [kFinishedBaselineCompilation],
    then at most one round of one final event, after which no callback is
    left. *)
Definition delivery_shape (s0 s : CompilationStateImpl) : Prop :=
  exists pre fin,
    delivered s = delivered s0 ++ pre ++ fin /\
    baseline_deliveries pre /\
    ((fin = [] /\ callbacks_ s = callbacks_ s0) \/
     (callbacks_ s = [] /\ final_round (callbacks_ s0) fin)).

(** ** Sample states and schedules *)

(** A regular-mode state, as the constructor leaves it without tier-up. *)
Definition regular_state : CompilationStateImpl :=
  new_CompilationStateImpl false true 4 4 EmptyString.

(** A tiering-mode state with one function to compile. *)
Definition tiering_state : CompilationStateImpl :=
  SetNumberOfFunctionsToCompile 1
    (new_CompilationStateImpl true true 4 4 EmptyString).

(** A state with pending units and no error: the total was set to one and
    one unit was added. *)
Definition state_with_units : CompilationStateImpl :=
  AddCompilationUnits [mkUnit 0 kBaseline] []
    (SetNumberOfFunctionsToCompile 1 regular_state).

(** A failed state with pending units and free worker slots: two units were
    added (two of the four workers started), then an error was latched. *)
Definition failed_state_with_unit : CompilationStateImpl :=
  SetError 0 (mkError 0 "trap")
    (AddCompilationUnits [mkUnit 0 kBaseline; mkUnit 1 kBaseline] []
       (SetNumberOfFunctionsToCompile 2 regular_state)).

(** Two workers allowed, three units pending, at most two to restart. *)
Definition state_three_pending : CompilationStateImpl :=
  set_baseline_compilation_units
    [mkUnit 0 kBaseline; mkUnit 1 kBaseline; mkUnit 2 kBaseline]
    (new_CompilationStateImpl false true 2 8 EmptyString).

(** A builder to which function 5 was added in tiering mode. *)
Definition builder_with_one_function : CompilationUnitBuilder :=
  AddUnit kBaseline 5 (mkBuilder [] []) tiering_state.

(** A module that records the name [main] for function 0 and no other:
    references are offsets into the wire bytes, 0 for "not set". *)
Definition sample_is_set (ref : Z) : bool := negb (ref =? 0).

Definition sample_LookupFunctionName (bytes : string) (index : Z) : Z :=
  if index =? 0 then 4 else 0.

Definition sample_GetNameOrNull (bytes : string) (ref : Z) : string :=
  String.substring (Z.to_nat ref) 4 bytes.

Definition sample_failed_state : CompilationStateImpl :=
  SetError 2 (mkError 17 "type error")
    (new_CompilationStateImpl false true 4 4 "....main").

(** A schedule with three calls of [SetError], the second through [Abort]. *)
Definition schedule_with_errors : list Op :=
  [OpAddCallback 1%nat;
   OpSetError 2 (mkError 17 "type error");
   OpAbort;
   OpSetError 3 (mkError 40 "stack underflow");
   OpRunForegroundTask].

(** Two callbacks; one function compiled in regular mode; an error that
    comes too late. *)
Definition state_with_two_callbacks : CompilationStateImpl :=
  AddCallback 2%nat (AddCallback 1%nat regular_state).

Definition schedule_finish_then_fail : list Op :=
  [OpSetNumberOfFunctionsToCompile 1;
   OpOnFinishedUnit;
   OpSetError 0 (mkError 3 "late");
   OpRunForegroundTask].

(** ** Helpers of the drivers *)

(** [bool in_bounds(uint32_t offset, size_t size, size_t upper)]: the sum
    is computed in [size_t]. *)
Definition in_bounds (offset size upper : Z) : bool :=
  (SizeT.add offset size <=? upper) && (offset <=? SizeT.add offset size).

(** [uint32_t] arithmetic wraps at 32 bits. *)
Definition uint32 (z : Z) : Z := z mod 2 ^ 32.

(** The loop of [InitializeCompilationUnits],
    [for (uint32_t i = start; i < end; ++i) builder.AddUnit(i)];
    [rounds] bounds the number of rounds. *)
Fixpoint AddUnit_loop (rounds : nat) (default_tier : ExecutionTier)
    (i end_ : Z) (builder : CompilationUnitBuilder)
    (s : CompilationStateImpl) : CompilationUnitBuilder :=
  match rounds with
  | O => builder
  | S rounds' =>
      if i <? end_
      then AddUnit_loop rounds' default_tier (uint32 (i + 1)) end_
             (AddUnit default_tier i builder s) s
      else builder
  end.

(** [InitializeCompilationUnits]; the module gives [num_imported_functions]
    and [num_declared_functions].  The loop makes at most [end - start]
    rounds. *)
Definition InitializeCompilationUnits (default_tier : ExecutionTier)
    (num_imported_functions num_declared_functions : Z)
    (s : CompilationStateImpl) : CompilationStateImpl :=
  let builder := mkBuilder [] [] in
  let start := num_imported_functions in
  let end_ := uint32 (start + num_declared_functions) in
  let builder :=
    AddUnit_loop (Z.to_nat (end_ - start)) default_tier start end_ builder s in
  snd (Commit builder s).

(** ** [FinishCompilationUnits] and the threads around it

    [FinishCompilationUnits] makes one call into the compilation state at
    a time, [failed()], [GetNextExecutedUnit()], [OnFinishedUnit()], and
    the background tasks make theirs between two of them.  The thread that
    runs it is therefore modelled with the place it has reached, and each
    of its calls is a step of its own. *)

(** The places in [FinishCompilationUnits]. *)
Inductive FinishPc : Type :=
| AtFailedTest           (* while (!compilation_state->failed()) *)
| AtGetNextExecutedUnit  (* unit = GetNextExecutedUnit(); if (!unit) break *)
| AtOnFinishedUnit       (* OnFinishedUnit() *)
| Returned.

(** One call of [FinishCompilationUnits] at [pc]. *)
Definition FinishCompilationUnits_step (pc : FinishPc)
    (s : CompilationStateImpl) : FinishPc * CompilationStateImpl :=
  match pc with
  | AtFailedTest =>
      if failed s then (Returned, s) else (AtGetNextExecutedUnit, s)
  | AtGetNextExecutedUnit =>
      match GetNextExecutedUnit s with
      | (None, s') => (Returned, s')
      | (Some _, s') => (AtOnFinishedUnit, s')
      end
  | AtOnFinishedUnit => (AtFailedTest, OnFinishedUnit s)
  | Returned => (Returned, s)
  end.

(** What happens next: another thread makes a call, or the thread in
    [FinishCompilationUnits] makes its next one. *)
Inductive FinishAction : Type :=
| OtherThreadCall (op : Op)
| FinishStep.

(** The units waiting in the two vectors of finished units. *)
Definition finished_waiting (s : CompilationStateImpl) : nat :=
  (List.length (baseline_finish_units_ s) +
   List.length (tiering_finish_units_ s))%nat.

Section WithNameSectionFinish.

Variable WireBytesRef : Type.
Variable is_set : WireBytesRef -> bool.
Variable LookupFunctionName : string -> Z -> WireBytesRef.
Variable GetNameOrNull : string -> WireBytesRef -> string.

Definition finish_act (a : FinishAction)
    (c : FinishPc * CompilationStateImpl) : FinishPc * CompilationStateImpl :=
  match a with
  | OtherThreadCall op =>
      (fst c,
       step WireBytesRef is_set LookupFunctionName GetNameOrNull op (snd c))
  | FinishStep => FinishCompilationUnits_step (fst c) (snd c)
  end.

(** An interleaving: the actions in the order they take effect. *)
Fixpoint finish_run (actions : list FinishAction)
    (c : FinishPc * CompilationStateImpl) : FinishPc * CompilationStateImpl :=
  match actions with
  | [] => c
  | a :: actions' => finish_run actions' (finish_act a c)
  end.

(** From [pc] in state [s] the loop, left alone by the other threads, has
    returned after at most [bound] of its calls, in state [s']. *)
Definition returns_within (bound : nat) (pc : FinishPc)
    (s s' : CompilationStateImpl) : Prop :=
  exists n,
    (n <= bound)%nat /\
    finish_run (repeat FinishStep n) (pc, s) = (Returned, s') /\
    failed s' = failed s /\
    (failed s = false -> finish_units s' = []) /\
    (finished_waiting s' <= finished_waiting s)%nat /\
    baseline_compilation_units_ s' = baseline_compilation_units_ s /\
    tiering_compilation_units_ s' = tiering_compilation_units_ s.

End WithNameSectionFinish.

(** Two functions compiled by the workers and handed back, as
    [CompileInParallel] sets the state up: the finisher flag is set, so no
    finisher task is posted. *)
Definition state_two_finished : CompilationStateImpl :=
  ScheduleUnitForFinishing (mkUnit 1 kBaseline) kBaseline
    (ScheduleUnitForFinishing (mkUnit 0 kBaseline) kBaseline
       (SetNumberOfFunctionsToCompile 2
          (snd (SetFinisherIsRunning true regular_state)))).

(** The loop takes and counts one unit, a worker reports an error, and the
    loop sees it at its next test. *)
Definition finish_interrupted_by_error : list FinishAction :=
  [ FinishStep; FinishStep; FinishStep;
    OtherThreadCall (OpSetError 1 (mkError 17 "type error"));
    FinishStep ].

(** [n] calls of [GetNextCompilationUnit] in a row: the units returned, in
    the order of the calls, and the state left. *)
Fixpoint GetNextCompilationUnit_times (n : nat) (s : CompilationStateImpl)
    : list (option WasmCompilationUnit) * CompilationStateImpl :=
  match n with
  | O => ([], s)
  | S n' =>
      let '(unit, s1) := GetNextCompilationUnit s in
      let '(units, s2) := GetNextCompilationUnit_times n' s1 in
      (unit :: units, s2)
  end.

(** [k] calls of [OnFinishedUnit] in a row. *)
Fixpoint OnFinishedUnit_times (k : nat) (s : CompilationStateImpl)
    : CompilationStateImpl :=
  match k with
  | O => s
  | S k' => OnFinishedUnit_times k' (OnFinishedUnit s)
  end.

(** The function indices [start], [start + 1], ..., [start + n - 1]. *)
Definition indices_from (start : Z) (n : nat) : list Z :=
  map (fun k => start + Z.of_nat k) (seq 0 n).

(** In tiering mode the tiering counter is not zero while the baseline
    counter is not. *)
Definition tiering_counter_behind (s : CompilationStateImpl) : Prop :=
  compile_mode_ s = kTiering ->
  outstanding_baseline_units_ s <> 0 -> outstanding_tiering_units_ s <> 0.

(** In regular mode nothing is kept on the tiering side. *)
Definition tiering_side_unused (s : CompilationStateImpl) : Prop :=
  compile_mode_ s = kRegular ->
  outstanding_tiering_units_ s = 0 /\
  tiering_compilation_units_ s = [] /\
  tiering_finish_units_ s = [].

(** ** The finisher and the threads around it

    [FinishCompileTask::RunInternal] makes one call into the compilation
    state at a time, and between two of its calls other threads may make
    theirs.  The foreground thread is therefore modelled with the place it
    has reached in [RunInternal], and every call is a step of its own. *)

(** The places in [FinishCompileTask::RunInternal]. *)
Inductive FinisherPc : Type :=
| AtEntry          (* if (compilation_state_->failed()) *)
| AtEntryFailed    (* SetFinisherIsRunning(false); return *)
| AtRestart        (* loop head: RestartBackgroundTasks() *)
| AtGetNext        (* unit = GetNextExecutedUnit() *)
| AtClearFlag      (* unit == nullptr: SetFinisherIsRunning(false) *)
| AtHasUnit        (* HasCompilationUnitToFinish() && ... *)
| AtSetFlag        (* ... SetFinisherIsRunning(true): continue, else break *)
| AtFailedCheck    (* unit != nullptr: if (failed()) break *)
| AtOnFinished     (* OnFinishedUnit() *)
| AtDeadline.      (* if (deadline < now) ScheduleFinisherTask(), return *)

(** The foreground thread: between tasks, or inside a finisher task. *)
Inductive Foreground : Type :=
| Idle
| Finishing (pc : FinisherPc).

Record System : Type := mkSystem {
  sys_state : CompilationStateImpl;
  sys_foreground : Foreground
}.

(** One step of [RunInternal] at [pc]; [deadline_passed] is what the clock
    answers should the step compare it with the deadline. *)
Definition finisher_step (pc : FinisherPc) (deadline_passed : bool)
    (s : CompilationStateImpl) : System :=
  match pc with
  | AtEntry =>
      if failed s then mkSystem s (Finishing AtEntryFailed)
      else mkSystem s (Finishing AtRestart)
  | AtEntryFailed => mkSystem (snd (SetFinisherIsRunning false s)) Idle
  | AtRestart =>
      mkSystem (RestartBackgroundTasks SizeT.max s) (Finishing AtGetNext)
  | AtGetNext =>
      match GetNextExecutedUnit s with
      | (None, s') => mkSystem s' (Finishing AtClearFlag)
      | (Some _, s') => mkSystem s' (Finishing AtFailedCheck)
      end
  | AtClearFlag =>
      mkSystem (snd (SetFinisherIsRunning false s)) (Finishing AtHasUnit)
  | AtHasUnit =>
      if HasCompilationUnitToFinish s
      then mkSystem s (Finishing AtSetFlag)
      else mkSystem s Idle
  | AtSetFlag =>
      let '(changed, s') := SetFinisherIsRunning true s in
      if changed then mkSystem s' (Finishing AtRestart) else mkSystem s' Idle
  | AtFailedCheck =>
      if failed s then mkSystem s Idle else mkSystem s (Finishing AtOnFinished)
  | AtOnFinished => mkSystem (OnFinishedUnit s) (Finishing AtDeadline)
  | AtDeadline =>
      if deadline_passed
      then mkSystem (ScheduleFinisherTask s) Idle
      else mkSystem s (Finishing AtRestart)
  end.

(** What happens next: another thread makes a call, or the foreground
    thread makes its next step. *)
Inductive Action : Type :=
| ByOtherThread (op : Op)
| ForegroundStep (deadline_passed : bool).

(** The calls other threads make while a compilation runs: workers fetch
    units, hand them back and report errors and their stop; the driver adds
    units and callbacks, and may abort.  The counters, the finisher flag and
    the finished units are the finisher's. *)
Definition is_call_of_other_thread (op : Op) : bool :=
  match op with
  | OpAddCallback _ | OpAddCompilationUnits _ _ | OpGetNextCompilationUnit
  | OpScheduleUnitForFinishing _ _ | OpOnBackgroundTaskStopped
  | OpRestartBackgroundTasks _ | OpAbort | OpSetError _ _ => true
  | _ => false
  end.

Definition is_allowed_action (a : Action) : bool :=
  match a with
  | ByOtherThread op => is_call_of_other_thread op
  | ForegroundStep _ => true
  end.

Definition is_FinishCompileTask (t : Task) : bool :=
  match t with FinishCompileTask => true | _ => false end.

(** The finisher tasks waiting in the foreground queue. *)
Definition pending_finishers (s : CompilationStateImpl) : nat :=
  List.length (filter is_FinishCompileTask (foreground_tasks s)).

(** Whether the foreground thread is a finisher that holds the flag: from
    its start until it clears the flag or returns. *)
Definition holds_flag (f : Foreground) : nat :=
  match f with
  | Idle | Finishing AtHasUnit | Finishing AtSetFlag => 0
  | Finishing _ => 1
  end.

(** The finishers there are: waiting, or running and holding the flag. *)
Definition finishers (sys : System) : nat :=
  (pending_finishers (sys_state sys) + holds_flag (sys_foreground sys))%nat.

(** The flag accounts for the finishers, and a unit on the served vector
    has a finisher to take it. *)
Definition finisher_accounted (sys : System) : Prop :=
  let s := sys_state sys in
  (finishers sys <= 1)%nat /\
  (finishers sys = 1%nat -> finisher_is_running_ s = true) /\
  (failed s = false -> finisher_is_running_ s = true -> finishers sys = 1%nat) /\
  (sys_foreground sys = Finishing AtEntryFailed -> failed s = true) /\
  (failed s = false -> finish_units s <> [] ->
   finisher_is_running_ s = true \/
   sys_foreground sys = Finishing AtHasUnit \/
   sys_foreground sys = Finishing AtSetFlag).

Section WithNameSectionSystem.

Variable WireBytesRef : Type.
Variable is_set : WireBytesRef -> bool.
Variable LookupFunctionName : string -> Z -> WireBytesRef.
Variable GetNameOrNull : string -> WireBytesRef -> string.

(** The foreground thread between tasks takes the oldest task: a finisher
    task starts at [AtEntry], any other task runs at once. *)
Definition foreground_step (deadline_passed : bool) (sys : System) : System :=
  match sys_foreground sys with
  | Idle =>
      match foreground_tasks (sys_state sys) with
      | FinishCompileTask :: rest =>
          mkSystem (set_foreground_tasks rest (sys_state sys)) (Finishing AtEntry)
      | _ =>
          mkSystem
            (RunForegroundTask WireBytesRef is_set LookupFunctionName
               GetNameOrNull (sys_state sys))
            Idle
      end
  | Finishing pc => finisher_step pc deadline_passed (sys_state sys)
  end.

Definition act (a : Action) (sys : System) : System :=
  match a with
  | ByOtherThread op =>
      mkSystem
        (step WireBytesRef is_set LookupFunctionName GetNameOrNull op
           (sys_state sys))
        (sys_foreground sys)
  | ForegroundStep deadline_passed => foreground_step deadline_passed sys
  end.

Fixpoint act_all (actions : list Action) (sys : System) : System :=
  match actions with
  | [] => sys
  | a :: actions' => act_all actions' (act a sys)
  end.

End WithNameSectionSystem.

(** A compilation of one function seen from the foreground thread: the unit
    is added, a worker takes it and hands it back, the finisher runs, finds
    the unit, counts it, and looks for more. *)
Definition schedule_one_unit_handed_back : list Action :=
  [ ByOtherThread (OpAddCompilationUnits [mkUnit 0 kBaseline] []);
    ByOtherThread OpGetNextCompilationUnit;
    ByOtherThread (OpScheduleUnitForFinishing (mkUnit 0 kBaseline) kBaseline) ].

Definition schedule_one_unit_finished : list Action :=
  schedule_one_unit_handed_back ++
  [ ForegroundStep false; ForegroundStep false; ForegroundStep false;
    ForegroundStep false;
    ByOtherThread OpOnBackgroundTaskStopped;
    ForegroundStep false; ForegroundStep false; ForegroundStep false;
    ForegroundStep false; ForegroundStep false; ForegroundStep false;
    ForegroundStep false ].

(** A step keeps what the account of the finishers reads: the flag, the
    finisher tasks waiting, the served vector; and a latched error stays. *)
Definition finisher_view_kept (s s' : CompilationStateImpl) : Prop :=
  finisher_is_running_ s' = finisher_is_running_ s /\
  pending_finishers s' = pending_finishers s /\
  finish_units s' = finish_units s /\
  (failed s = true -> failed s' = true).

(** ** [AsyncStreamingProcessor]

    The part of the streaming processor that feeds the compilation state:
    the builder it holds from the code section header on, and the number of
    the next function body. *)
Record AsyncStreamingProcessor : Type := mkProcessor {
  compilation_unit_builder_ : option CompilationUnitBuilder;
  next_function_ : Z
}.

(** [compilation_unit_builder_(nullptr)], [next_function_ = 0]. *)
Definition new_AsyncStreamingProcessor : AsyncStreamingProcessor :=
  mkProcessor None 0.

(** [ProcessFunctionBody]: the unit is added for the function
    [next_function_ + num_imported_functions], computed in [uint32_t].  The
    builder is used through its pointer without a test: without a builder
    the call has no defined result ([None]).  [DecodeFunctionBody] belongs to
    the decoder. *)
Definition ProcessFunctionBody (default_tier : ExecutionTier)
    (num_imported_functions : Z) (p : AsyncStreamingProcessor)
    (s : CompilationStateImpl) : option AsyncStreamingProcessor :=
  match compilation_unit_builder_ p with
  | None => None
  | Some builder =>
      let index := uint32 (next_function_ p + num_imported_functions) in
      let builder := AddUnit default_tier index builder s in
      Some (mkProcessor (Some builder) (uint32 (next_function_ p + 1)))
  end.

(** [CommitCompilationUnits]: [DCHECK(compilation_unit_builder_)], then
    [Commit]. *)
Definition CommitCompilationUnits (p : AsyncStreamingProcessor)
    (s : CompilationStateImpl)
    : option (AsyncStreamingProcessor * CompilationStateImpl) :=
  match compilation_unit_builder_ p with
  | None => None
  | Some builder =>
      let '(_, builder, s) := Commit builder s in
      Some (mkProcessor (Some builder) (next_function_ p), s)
  end.

Definition OnFinishedChunk (p : AsyncStreamingProcessor)
    (s : CompilationStateImpl)
    : option (AsyncStreamingProcessor * CompilationStateImpl) :=
  match compilation_unit_builder_ p with
  | Some _ => CommitCompilationUnits p s
  | None => Some (p, s)
  end.

(** What the streaming decoder calls while it reads the code section. *)
Inductive StreamingCall : Type :=
| CallProcessFunctionBody
| CallOnFinishedChunk.

Definition is_CallProcessFunctionBody (c : StreamingCall) : bool :=
  match c with CallProcessFunctionBody => true | CallOnFinishedChunk => false end.

(** The function bodies among the calls. *)
Definition function_bodies (calls : list StreamingCall) : nat :=
  List.length (filter is_CallProcessFunctionBody calls).

Fixpoint stream (default_tier : ExecutionTier) (num_imported_functions : Z)
    (calls : list StreamingCall) (p : AsyncStreamingProcessor)
    (s : CompilationStateImpl)
    : option (AsyncStreamingProcessor * CompilationStateImpl) :=
  match calls with
  | [] => Some (p, s)
  | CallProcessFunctionBody :: calls' =>
      match ProcessFunctionBody default_tier num_imported_functions p s with
      | Some p' => stream default_tier num_imported_functions calls' p' s
      | None => None
      end
  | CallOnFinishedChunk :: calls' =>
      match OnFinishedChunk p s with
      | Some (p', s') => stream default_tier num_imported_functions calls' p' s'
      | None => None
      end
  end.

(** A code section of three bodies; the first chunk ends after the first
    body. *)
Definition three_bodies_chunk_after_first : list StreamingCall :=
  [ CallProcessFunctionBody; CallOnFinishedChunk;
    CallProcessFunctionBody; CallProcessFunctionBody ].

(** ** [JSToWasmWrapperCache] and [CompileJsToWasmWrappers] *)

(** The kinds of an export, as the switch of [ProcessExports] names them. *)
Inductive ImportExportKindCode : Type :=
| kExternalFunction
| kExternalTable
| kExternalMemory
| kExternalGlobal
| kExternalException.

Definition ImportExportKindCode_eqb (a b : ImportExportKindCode) : bool :=
  match a, b with
  | kExternalFunction, kExternalFunction
  | kExternalTable, kExternalTable
  | kExternalMemory, kExternalMemory
  | kExternalGlobal, kExternalGlobal
  | kExternalException, kExternalException => true
  | _, _ => false
  end.

(** [exp.kind], [exp.index]. *)
Record WasmExport : Type := mkExport {
  kind : ImportExportKindCode;
  index : Z
}.

(** Sets the slot [i] of a vector; [None] when there is no such slot. *)
Fixpoint set_nth {A : Type} (l : list A) (i : nat) (v : A) : option (list A) :=
  match l, i with
  | [], _ => None
  | _ :: l', O => Some (v :: l')
  | x :: l', S i' =>
      match set_nth l' i' v with
      | Some l'' => Some (x :: l'')
      | None => None
      end
  end.

Section WithWrapperCompiler.

(** [FunctionSig] with its equality, [Code], and the compiler of the
    wrappers, [compiler::CompileJSToWasmWrapper(...).ToHandleChecked()], are
    declared outside this file. *)
Variable FunctionSig : Type.
Variable FunctionSig_eqb : FunctionSig -> FunctionSig -> bool.
Variable Code : Type.
Variable CompileJSToWasmWrapper : FunctionSig -> bool -> Code.

(** [function.sig], [function.imported]. *)
Record WasmFunction : Type := mkFunction {
  sig : FunctionSig;
  imported : bool
}.

(** [module->export_table], [module->functions]. *)
Record WasmModule : Type := mkModule {
  export_table : list WasmExport;
  functions : list WasmFunction
}.

(** [using CacheKey = std::pair<bool, FunctionSig>]. *)
Definition CacheKey : Type := (bool * FunctionSig)%type.

Definition CacheKey_eqb (a b : CacheKey) : bool :=
  Bool.eqb (fst a) (fst b) && FunctionSig_eqb (snd a) (snd b).

(** [Handle<Code>]; [None] is the null handle. *)
Definition Handle_Code : Type := option Code.

(** [std::unordered_map<CacheKey, Handle<Code>>] as its entries. *)
Definition unordered_map : Type := list (CacheKey * Handle_Code).

Fixpoint find (key : CacheKey) (m : unordered_map) : option Handle_Code :=
  match m with
  | [] => None
  | (k, v) :: m' => if CacheKey_eqb key k then Some v else find key m'
  end.

(** Writing through the reference [operator[]] returned. *)
Fixpoint assign (key : CacheKey) (v : Handle_Code) (m : unordered_map)
    : unordered_map :=
  match m with
  | [] => []
  | (k, v') :: m' =>
      if CacheKey_eqb key k then (k, v) :: m' else (k, v') :: assign key v m'
  end.

(** [cache_[key]]: a key that is not in the map is inserted with a
    default-constructed (null) handle. *)
Definition subscript (key : CacheKey) (m : unordered_map) : unordered_map :=
  match find key m with
  | Some _ => m
  | None => m ++ [(key, None)]
  end.

(** What the model keeps of the isolate: the wrappers compiled into its
    heap, one entry for each call of the compiler, in the order of the
    calls. *)
Record Isolate : Type := mkIsolate {
  compiled_js_to_wasm_wrappers : list CacheKey
}.

Record JSToWasmWrapperCache : Type := mkCache {
  cache_ : unordered_map
}.

Definition GetOrCompileJSToWasmWrapper (isolate : Isolate) (sig : FunctionSig)
    (is_import : bool) (c : JSToWasmWrapperCache)
    : Code * JSToWasmWrapperCache * Isolate :=
  let key := (is_import, sig) in
  let m := subscript key (cache_ c) in
  match find key m with
  | Some (Some cached) => (cached, mkCache m, isolate)
  | _ =>
      let cached := CompileJSToWasmWrapper sig is_import in
      (cached, mkCache (assign key (Some cached) m),
       mkIsolate (compiled_js_to_wasm_wrappers isolate ++ [key]))
  end.

(** [Handle<FixedArray>]: the slots; a slot not yet set holds no code. *)
Definition FixedArray : Type := list (option Code).

(** [export_wrappers->set(index, value)]; there is no result for an index
    outside of the array. *)
Definition FixedArray_set (array : FixedArray) (index : Z) (value : Code)
    : option FixedArray :=
  if index <? 0 then None else set_nth array (Z.to_nat index) (Some value).

(** The loop of [CompileJsToWasmWrappers] over the export table, with the
    locals [js_to_wasm_cache] and [wrapper_index].  [module->functions[i]]
    has no result outside of the vector.  [RecordStats] counts code sizes in
    the isolate's counters, which the model does not keep. *)
Fixpoint CompileJsToWasmWrappers_loop (exports : list WasmExport)
    (module : WasmModule) (js_to_wasm_cache : JSToWasmWrapperCache)
    (wrapper_index : Z) (export_wrappers : FixedArray) (isolate : Isolate)
    : option (FixedArray * Isolate) :=
  match exports with
  | [] => Some (export_wrappers, isolate)
  | exp :: exports' =>
      if negb (ImportExportKindCode_eqb (kind exp) kExternalFunction)
      then CompileJsToWasmWrappers_loop exports' module js_to_wasm_cache
             wrapper_index export_wrappers isolate
      else
        match nth_error (functions module) (Z.to_nat (index exp)) with
        | None => None
        | Some function =>
            let '(wrapper_code, js_to_wasm_cache, isolate) :=
              GetOrCompileJSToWasmWrapper isolate (sig function)
                (imported function) js_to_wasm_cache in
            match FixedArray_set export_wrappers wrapper_index wrapper_code with
            | None => None
            | Some export_wrappers =>
                CompileJsToWasmWrappers_loop exports' module js_to_wasm_cache
                  (wrapper_index + 1) export_wrappers isolate
            end
        end
  end.

Definition CompileJsToWasmWrappers (isolate : Isolate) (module : WasmModule)
    (export_wrappers : FixedArray) : option (FixedArray * Isolate) :=
  CompileJsToWasmWrappers_loop (export_table module) module (mkCache []) 0
    export_wrappers isolate.

(** The exported functions in the order of the export table; [None] for an
    export whose index is outside of [module->functions]. *)
Definition exported_functions (module : WasmModule) : list (option WasmFunction) :=
  map (fun exp => nth_error (functions module) (Z.to_nat (index exp)))
      (filter (fun exp => ImportExportKindCode_eqb (kind exp) kExternalFunction)
              (export_table module)).

Definition key_of (function : WasmFunction) : CacheKey :=
  (imported function, sig function).

(** The cache holds the wrapper of each key in [log], and no other entry. *)
Definition cache_holds (m : unordered_map) (log : list CacheKey) : Prop :=
  NoDup log /\
  forall k,
    (In k log ->
     find k m = Some (Some (CompileJSToWasmWrapper (snd k) (fst k)))) /\
    (~ In k log -> find k m = None).

End WithWrapperCompiler.

(** A module with three function exports and one memory export; two of the
    exported functions have the same signature.  Signatures are numbers
    here, and a wrapper is named by what it was compiled for. *)
Definition sample_module : WasmModule Z :=
  mkModule Z
    [ mkExport kExternalFunction 0; mkExport kExternalMemory 0;
      mkExport kExternalFunction 2; mkExport kExternalFunction 1 ]
    [ mkFunction Z 7 false; mkFunction Z 9 false; mkFunction Z 7 false ].

Definition sample_CompileJSToWasmWrapper (sig : Z) (is_import : bool)
    : Z * bool :=
  (sig, is_import).

Definition is_OpAbort (op : Op) : bool :=
  match op with OpAbort => true | _ => false end.

Section WithNameSectionFailure.

Variable WireBytesRef : Type.
Variable is_set : WireBytesRef -> bool.
Variable LookupFunctionName : string -> Z -> WireBytesRef.
Variable GetNameOrNull : string -> WireBytesRef -> string.

(** The deliveries since [s0] when the failure may be among them: rounds of
    [kFinishedBaselineCompilation], and then either nothing yet, the
    callbacks of [s0] being registered still and the failure notification
    not run; or no callback is left, after the round of
    [kFinishedTopTierCompilation], or after the round of
    [kFailedCompilation] with the error that [GetCompileError] makes of the
    latch, or, after an [Abort], with no final round at all. *)
Definition failure_round_account (aborted : bool)
    (s0 s : CompilationStateImpl) : Prop :=
  exists pre fin,
    delivered s = delivered s0 ++ pre ++ fin /\
    baseline_deliveries pre /\
    ((fin = [] /\ callbacks_ s = callbacks_ s0 /\
      count_fired kFailedCompilation s = 0%nat) \/
     (callbacks_ s = [] /\
      (fin = notify_all (callbacks_ s0) kFinishedTopTierCompilation None \/
       (fin = notify_all (callbacks_ s0) kFailedCompilation
                (GetCompileError WireBytesRef is_set LookupFunctionName
                   GetNameOrNull s) /\
        failed s = true) \/
       (fin = [] /\ aborted = true)))).

End WithNameSectionFailure.

(** Two callbacks; two functions to compile in regular mode; the second
    fails after the first was finished, and a second error comes after. *)
Definition schedule_fail_while_compiling : list Op :=
  [OpSetNumberOfFunctionsToCompile 2;
   OpOnFinishedUnit;
   OpSetError 1 (mkError 17 "type error");
   OpSetError 0 (mkError 40 "stack underflow")].

(** One callback; the compilation is aborted before anything else. *)
Definition schedule_abort : list Op :=
  [OpAddCallback 1%nat; OpAbort].

(** Both callbacks were told that the compilation had finished before the
    error came: the state after [schedule_finish_then_fail] once the
    foreground runner has run its tasks. *)
Definition state_finished_then_failed : CompilationStateImpl :=
  drain_foreground Z sample_is_set sample_LookupFunctionName sample_GetNameOrNull
    (run Z sample_is_set sample_LookupFunctionName sample_GetNameOrNull
       schedule_finish_then_fail state_with_two_callbacks).

(** The state after [schedule_abort], the foreground tasks run. *)
Definition state_aborted : CompilationStateImpl :=
  drain_foreground Z sample_is_set sample_LookupFunctionName sample_GetNameOrNull
    (run Z sample_is_set sample_LookupFunctionName sample_GetNameOrNull
       schedule_abort regular_state).

(** The rounds of a list of events that [OnFinishedUnit] fires, by the
    callbacks registered before: each event goes to every callback then
    registered, and a final event clears the callbacks.  The deliveries,
    and the callbacks left. *)
Fixpoint rounds (callbacks : list callback_t) (events : list CompilationEvent)
    : list Delivery * list callback_t :=
  match events with
  | [] => ([], callbacks)
  | event :: events' =>
      let r := rounds (if is_final_event event then [] else callbacks) events' in
      (notify_all callbacks event None ++ fst r, snd r)
  end.

(** * Properties *)

Arguments GetCompileError {WireBytesRef} is_set LookupFunctionName GetNameOrNull s.
Arguments NotifyFailedTask_Run {WireBytesRef} is_set LookupFunctionName GetNameOrNull s.
Arguments RunForegroundTask {WireBytesRef} is_set LookupFunctionName GetNameOrNull s.
Arguments step {WireBytesRef} is_set LookupFunctionName GetNameOrNull op s.
Arguments run {WireBytesRef} is_set LookupFunctionName GetNameOrNull ops s.
Arguments drain_foreground {WireBytesRef} is_set LookupFunctionName GetNameOrNull s.

(** ** [size_t] arithmetic *)

Lemma modulus_pos : 0 < SizeT.modulus.
Proof. reflexivity. Qed.

Lemma wrap_range (z : Z) : SizeT.in_range (SizeT.wrap z).
Proof. unfold SizeT.in_range, SizeT.wrap. apply Z.mod_pos_bound, modulus_pos. Qed.

Lemma wrap_small (z : Z) : SizeT.in_range z -> SizeT.wrap z = z.
Proof. unfold SizeT.in_range, SizeT.wrap. intros H. now apply Z.mod_small. Qed.

(** Decrementing changes the value, also when it wraps. *)
Lemma decr_neq (z : Z) : SizeT.decr z <> z.
Proof.
  unfold SizeT.decr. intros E.
  pose proof (wrap_range (z - 1)) as R. rewrite E in R.
  destruct (Z.eq_dec z 0) as [-> | N].
  - discriminate E.
  - rewrite wrap_small in E by (unfold SizeT.in_range in *; lia). lia.
Qed.

Lemma decr_pos (z : Z) : 0 < z -> SizeT.in_range z -> SizeT.decr z = z - 1.
Proof.
  intros P R. unfold SizeT.decr. apply wrap_small.
  unfold SizeT.in_range in *. lia.
Qed.

(** ** The counters and the events of [OnFinishedUnit] *)

Lemma CompileMode_eqb_eq (a b : CompileMode) : CompileMode_eqb a b = true <-> a = b.
Proof. destruct a, b; simpl; split; congruence. Qed.

(** What one call of [OnFinishedUnit] does to the counters, and which
    events it fires, by the branch taken. *)
Lemma OnFinishedUnit_cases s :
  let s' := OnFinishedUnit s in
  (is_tiering_unit s = true /\
   outstanding_baseline_units_ s' = outstanding_baseline_units_ s /\
   outstanding_tiering_units_ s' = SizeT.decr (outstanding_tiering_units_ s) /\
   fired s' = fired s ++
     (if outstanding_tiering_units_ s' =? 0
      then [kFinishedTopTierCompilation] else []))
  \/
  (is_tiering_unit s = false /\
   outstanding_baseline_units_ s' = SizeT.decr (outstanding_baseline_units_ s) /\
   outstanding_tiering_units_ s' = outstanding_tiering_units_ s /\
   fired s' = fired s ++
     (if outstanding_baseline_units_ s' =? 0
      then kFinishedBaselineCompilation ::
           (if is_tiering_mode s then [] else [kFinishedTopTierCompilation])
      else [])).
Proof.
  unfold OnFinishedUnit, NotifyOnEvent. cbv zeta.
  destruct (is_tiering_unit s) eqn:T; [left | right]; split; auto.
  - simpl. destruct (SizeT.decr (outstanding_tiering_units_ s) =? 0) eqn:Z0;
      simpl; rewrite ?Z0, ?app_nil_r; auto.
  - simpl. destruct (SizeT.decr (outstanding_baseline_units_ s) =? 0) eqn:Z0;
      [destruct (is_tiering_mode s) eqn:M |];
      simpl; rewrite ?Z0, ?app_nil_r, <- ?app_assoc; auto.
Qed.

(** The rounds of one call of [OnFinishedUnit]: each event it fires goes
    through [NotifyOnEvent] to every callback registered when the call
    begins, and a final event leaves no callback registered. *)
Lemma OnFinishedUnit_rounds s :
  let s' := OnFinishedUnit s in
  exists events,
    fired s' = fired s ++ events /\
    delivered s' =
      delivered s ++
      flat_map (fun event => notify_all (callbacks_ s) event None) events /\
    callbacks_ s' =
      (if existsb is_final_event events then [] else callbacks_ s) /\
    events =
      (if is_tiering_unit s
       then if outstanding_tiering_units_ s' =? 0
            then [kFinishedTopTierCompilation] else []
       else if outstanding_baseline_units_ s' =? 0
            then kFinishedBaselineCompilation ::
                 (if is_tiering_mode s then [] else [kFinishedTopTierCompilation])
            else []).
Proof.
  destruct s as [mode err bcu tcu fin nbg bfu tfu cbs mbg ob ot flag wb fg wk fi de].
  unfold OnFinishedUnit, NotifyOnEvent, notify_all, is_tiering_unit,
    is_tiering_mode. cbv zeta. simpl.
  destruct (CompileMode_eqb mode kTiering) eqn:M; simpl.
  - destruct (ob =? 0) eqn:B0; simpl.
    + destruct (SizeT.decr ot =? 0) eqn:Z0; simpl; rewrite ?Z0;
        [exists [kFinishedTopTierCompilation] | exists []];
        simpl; rewrite ?app_nil_r; auto.
    + destruct (SizeT.decr ob =? 0) eqn:Z0; simpl; rewrite ?Z0;
        [exists [kFinishedBaselineCompilation] | exists []];
        simpl; rewrite ?app_nil_r; auto.
  - destruct (SizeT.decr ob =? 0) eqn:Z0; simpl; rewrite ?Z0;
      [exists [kFinishedBaselineCompilation; kFinishedTopTierCompilation]
      | exists []];
      simpl; rewrite ?app_nil_r, <- ?app_assoc; auto.
Qed.

Lemma is_tiering_unit_true s :
  is_tiering_unit s = true <->
  compile_mode_ s = kTiering /\ outstanding_baseline_units_ s = 0.
Proof.
  unfold is_tiering_unit, is_tiering_mode.
  rewrite andb_true_iff, CompileMode_eqb_eq, Z.eqb_eq. tauto.
Qed.

Lemma is_tiering_unit_false s :
  is_tiering_unit s = false <->
  compile_mode_ s = kRegular \/ outstanding_baseline_units_ s <> 0.
Proof.
  unfold is_tiering_unit, is_tiering_mode.
  rewrite andb_false_iff, Z.eqb_neq.
  destruct (compile_mode_ s); simpl; intuition congruence.
Qed.

(** Closes the goals about a short, explicit list of events. *)
Ltac solve_events :=
  simpl;
  repeat match goal with
         | |- _ /\ _ => split
         | |- _ <-> _ => split
         | |- NoDup _ => constructor
         | |- ~ _ => intro
         end;
  simpl in *; intros;
  try solve [intuition (try discriminate; try congruence)].

(** C3. Each call of [OnFinishedUnit] decrements exactly one of the two
    counters and leaves the other; it fires [kFinishedBaselineCompilation]
    exactly when the call brings the baseline counter to zero, and
    [kFinishedTopTierCompilation] exactly when the call brings to zero the
    tiering counter (mode [kTiering]) or the baseline counter (mode
    [kRegular]); in mode [kRegular] the two events are fired by the same
    call, baseline first.  To fire an event is to call every callback
    registered when the call begins with that event (and no error), in the
    order of the events; after [kFinishedTopTierCompilation] no callback is
    registered any more, and otherwise the callbacks are left.  No event is
    fired twice and [kFailedCompilation] is never fired here. *)
Theorem OnFinishedUnit_counters_and_events (s : CompilationStateImpl) :
  let s' := OnFinishedUnit s in
  let b := outstanding_baseline_units_ s in
  let b' := outstanding_baseline_units_ s' in
  let t := outstanding_tiering_units_ s in
  let t' := outstanding_tiering_units_ s' in
  exists events,
    fired s' = fired s ++ events /\
    delivered s' =
      delivered s ++
      flat_map (fun event => notify_all (callbacks_ s) event None) events /\
    callbacks_ s' =
      (if existsb is_final_event events then [] else callbacks_ s) /\
    ((b' = SizeT.decr b /\ b' <> b /\ t' = t) \/
     (t' = SizeT.decr t /\ t' <> t /\ b' = b)) /\
    (In kFinishedBaselineCompilation events <-> b' <> b /\ b' = 0) /\
    (In kFinishedTopTierCompilation events <->
     match compile_mode_ s with
     | kTiering => t' <> t /\ t' = 0
     | kRegular => b' <> b /\ b' = 0
     end) /\
    (compile_mode_ s = kRegular ->
     events = [] \/
     events = [kFinishedBaselineCompilation; kFinishedTopTierCompilation]) /\
    NoDup events /\
    ~ In kFailedCompilation events.
Proof.
  cbv zeta.
  destruct (OnFinishedUnit_rounds s) as (events & Fr & D & C & Ev).
  exists events.
  split; [exact Fr |]. split; [exact D |]. split; [exact C |].
  clear Fr D C.
  destruct (OnFinishedUnit_cases s) as [(T & B & Tc & _) | (T & B & Tc & _)];
    rewrite T in Ev; rewrite B, Tc in *; subst events.
  - apply is_tiering_unit_true in T. destruct T as (M & B0). rewrite M.
    pose proof (decr_neq (outstanding_tiering_units_ s)) as N.
    split; [right; auto |].
    destruct (Z.eqb_spec (SizeT.decr (outstanding_tiering_units_ s)) 0) as [E | E];
      solve_events.
  - pose proof (decr_neq (outstanding_baseline_units_ s)) as N.
    split; [left; auto |].
    apply is_tiering_unit_false in T.
    unfold is_tiering_mode.
    destruct (Z.eqb_spec (SizeT.decr (outstanding_baseline_units_ s)) 0) as [E | E];
      destruct (compile_mode_ s) eqn:M; solve_events.
Qed.

(** The last unit of a regular compilation with two callbacks: both events
    reach both callbacks, baseline first, and the callbacks are cleared. *)
Example OnFinishedUnit_regular_last_unit_deliveries :
  let s := SetNumberOfFunctionsToCompile 1 state_with_two_callbacks in
  delivered (OnFinishedUnit s) =
    [ mkDelivery 1%nat kFinishedBaselineCompilation None;
      mkDelivery 2%nat kFinishedBaselineCompilation None;
      mkDelivery 1%nat kFinishedTopTierCompilation None;
      mkDelivery 2%nat kFinishedTopTierCompilation None ] /\
  callbacks_ (OnFinishedUnit s) = [] /\
  delivered (OnFinishedUnit (SetNumberOfFunctionsToCompile 2 state_with_two_callbacks)) = [] /\
  callbacks_ (OnFinishedUnit (SetNumberOfFunctionsToCompile 2 state_with_two_callbacks)) =
    [1%nat; 2%nat].
Proof. repeat split. Qed.

Example OnFinishedUnit_regular_last_unit :
  fired (OnFinishedUnit (SetNumberOfFunctionsToCompile 1 regular_state)) =
    [kFinishedBaselineCompilation; kFinishedTopTierCompilation] /\
  fired (OnFinishedUnit (SetNumberOfFunctionsToCompile 2 regular_state)) = [].
Proof. split; reflexivity. Qed.

Example OnFinishedUnit_tiering_units :
  fired (OnFinishedUnit tiering_state) = [kFinishedBaselineCompilation] /\
  fired (OnFinishedUnit (OnFinishedUnit tiering_state)) =
    [kFinishedBaselineCompilation; kFinishedTopTierCompilation] /\
  outstanding_tiering_units_ (OnFinishedUnit tiering_state) = 1 /\
  outstanding_tiering_units_ (OnFinishedUnit (OnFinishedUnit tiering_state)) = 0.
Proof. repeat split; reflexivity. Qed.

(** ** [baseline_compilation_finished] *)

(** What the predicate computes: the baseline counter is zero, or the mode
    is [kTiering] and the tiering counter is zero; in mode [kRegular] that
    is the baseline counter being zero. *)
Lemma baseline_compilation_finished_cases (s : CompilationStateImpl) :
  (baseline_compilation_finished s = true <->
   outstanding_baseline_units_ s = 0 \/
   (compile_mode_ s = kTiering /\ outstanding_tiering_units_ s = 0)) /\
  (compile_mode_ s = kRegular ->
   (baseline_compilation_finished s = true <->
    outstanding_baseline_units_ s = 0)).
Proof.
  unfold baseline_compilation_finished.
  rewrite orb_true_iff, andb_true_iff, CompileMode_eqb_eq, !Z.eqb_eq.
  split; [tauto |].
  intros M. rewrite M. intuition discriminate.
Qed.

(** ** [ScheduleUnitForFinishing] *)

(** C5, as stated, fails: in mode [kRegular] a unit of tier [kOptimized]
    goes to [baseline_finish_units_], not to [tiering_finish_units_]. *)
Lemma ScheduleUnitForFinishing_counterexample :
  let unit := mkUnit 7 kOptimized in
  let s' := ScheduleUnitForFinishing unit kOptimized regular_state in
  compile_mode_ regular_state = kRegular /\
  tiering_finish_units_ s' = [] /\
  baseline_finish_units_ s' = [unit] /\
  tiering_finish_units_ s' <> tiering_finish_units_ regular_state ++ [unit].
Proof. repeat split; try reflexivity. discriminate. Qed.

(** C5 (amended). [ScheduleUnitForFinishing] appends the unit to
    [tiering_finish_units_] when the mode is [kTiering] and the tier is
    [kOptimized], and to [baseline_finish_units_] otherwise (tier
    [kBaseline], or any tier in mode [kRegular]); the other vector is left
    alone.  If no finisher is running and no error is latched it sets
    [finisher_is_running_] and posts exactly one [FinishCompileTask];
    otherwise it posts nothing and leaves the flag. *)
Theorem ScheduleUnitForFinishing_spec
    (unit : WasmCompilationUnit) (tier : ExecutionTier) (s : CompilationStateImpl) :
  let s' := ScheduleUnitForFinishing unit tier s in
  (compile_mode_ s = kTiering /\ tier = kOptimized ->
   tiering_finish_units_ s' = tiering_finish_units_ s ++ [unit] /\
   baseline_finish_units_ s' = baseline_finish_units_ s) /\
  (compile_mode_ s = kRegular \/ tier = kBaseline ->
   baseline_finish_units_ s' = baseline_finish_units_ s ++ [unit] /\
   tiering_finish_units_ s' = tiering_finish_units_ s) /\
  (finisher_is_running_ s = false /\ compile_error_ s = None ->
   finisher_is_running_ s' = true /\
   foreground_tasks s' = foreground_tasks s ++ [FinishCompileTask]) /\
  (finisher_is_running_ s = true \/ compile_error_ s <> None ->
   finisher_is_running_ s' = finisher_is_running_ s /\
   foreground_tasks s' = foreground_tasks s) /\
  worker_tasks s' = worker_tasks s.
Proof.
  unfold ScheduleUnitForFinishing, ScheduleFinisherTask, failed, push_back.
  cbv zeta.
  destruct s as [mode err bcu tcu fin nbg bfu tfu cbs mbg ob ot flag wb fg wk fi de].
  simpl.
  destruct mode, tier, fin, err; simpl; repeat split; intros; simpl;
    intuition (try discriminate; try congruence).
Qed.

(** ** [SetNumberOfFunctionsToCompile] *)

(** C7, as stated, fails: called when compilation units already exist,
    [SetNumberOfFunctionsToCompile] does not fail; it overwrites the
    counter. *)
Lemma SetNumberOfFunctionsToCompile_counterexample :
  baseline_compilation_units_ state_with_units = [mkUnit 0 kBaseline] /\
  compile_error_ state_with_units = None /\
  SetNumberOfFunctionsToCompile_debug 3 state_with_units <> None /\
  option_map outstanding_baseline_units_
    (SetNumberOfFunctionsToCompile_debug 3 state_with_units) = Some 3.
Proof. repeat split; try reflexivity. discriminate. Qed.

(** C7 (amended). [SetNumberOfFunctionsToCompile n] sets the baseline
    counter to [n], and in mode [kTiering] the tiering counter too (in mode
    [kRegular] the tiering counter is left); its only check is the
    assertion that no error is latched: with an error latched the call
    fails, and otherwise it succeeds, whether or not units already exist,
    and leaves the queues as they are. *)
Theorem SetNumberOfFunctionsToCompile_spec (n : Z) (s : CompilationStateImpl) :
  (compile_error_ s <> None ->
   SetNumberOfFunctionsToCompile_debug n s = None) /\
  (compile_error_ s = None ->
   SetNumberOfFunctionsToCompile_debug n s =
     Some (SetNumberOfFunctionsToCompile n s)) /\
  outstanding_baseline_units_ (SetNumberOfFunctionsToCompile n s) = n /\
  outstanding_tiering_units_ (SetNumberOfFunctionsToCompile n s) =
    match compile_mode_ s with
    | kTiering => n
    | kRegular => outstanding_tiering_units_ s
    end /\
  baseline_compilation_units_ (SetNumberOfFunctionsToCompile n s) =
    baseline_compilation_units_ s /\
  tiering_compilation_units_ (SetNumberOfFunctionsToCompile n s) =
    tiering_compilation_units_ s.
Proof.
  unfold SetNumberOfFunctionsToCompile_debug, SetNumberOfFunctionsToCompile_DCHECK,
    SetNumberOfFunctionsToCompile, failed.
  destruct s as [mode err bcu tcu fin nbg bfu tfu cbs mbg ob ot flag wb fg wk fi de].
  simpl. destruct mode, err; simpl; repeat split; intros; congruence.
Qed.

(** ** [RestartBackgroundTasks] *)

(** The spawning loop in closed form: [n] tasks, all to the same queue. *)
Lemma spawn_background_tasks_eq (n : nat) (s : CompilationStateImpl) :
  spawn_background_tasks n s =
  if 0 <? FLAG_wasm_num_compilation_tasks s
  then set_worker_tasks (worker_tasks s ++ repeat BackgroundCompileTask n) s
  else set_foreground_tasks
         (foreground_tasks s ++ repeat BackgroundCompileTask n) s.
Proof.
  revert s. induction n as [| n IH]; intros s.
  - destruct s; simpl. rewrite !app_nil_r. now destruct (0 <? _).
  - simpl spawn_background_tasks. rewrite IH. unfold push_back.
    destruct s as [mode err bcu tcu fin nbg bfu tfu cbs mbg ob ot flag wb fg wk fi de].
    simpl. destruct (0 <? flag) eqn:F; simpl; rewrite F;
      unfold set_worker_tasks, set_foreground_tasks;
      simpl; rewrite <- app_assoc; reflexivity.
Qed.


(** Unfolds an operation down to the record it builds, and splits on the
    tests it makes. *)
Ltac unfold_ops :=
  unfold step, RunForegroundTask, NotifyFailedTask_Run, GetCompileError,
    Abort, background_task_manager_CancelAndWait, SetError,
    SetFinisherIsRunning, OnBackgroundTaskStopped, ScheduleUnitForFinishing,
    ScheduleFinisherTask, OnFinishedUnit, NotifyOnEvent, GetNextExecutedUnit,
    set_finish_units, finish_units, GetNextCompilationUnit,
    AddCompilationUnits, RestartBackgroundTasks, AddCallback,
    SetNumberOfFunctionsToCompile, push_back;
  rewrite ?spawn_background_tasks_eq.

Ltac split_tests :=
  repeat match goal with
         | |- context [if ?c then _ else _] => destruct c eqn:?; simpl
         | |- context [match ?x with _ => _ end] => destruct x eqn:?; simpl
         end.

Lemma RestartBackgroundTasks_eq (max : Z) (s : CompilationStateImpl) :
  RestartBackgroundTasks max s =
  if failed s then s
  else if num_background_tasks_ s =? max_background_tasks_ s then s
  else
    let n := num_restart max s in
    let s1 := set_num_background_tasks
                (SizeT.add (num_background_tasks_ s) n) s in
    if 0 <? FLAG_wasm_num_compilation_tasks s
    then set_worker_tasks
           (worker_tasks s ++ repeat BackgroundCompileTask (Z.to_nat n)) s1
    else set_foreground_tasks
           (foreground_tasks s ++ repeat BackgroundCompileTask (Z.to_nat n)) s1.
Proof.
  unfold RestartBackgroundTasks. rewrite spawn_background_tasks_eq.
  destruct (failed s); [reflexivity |].
  destruct (_ =? _); reflexivity.
Qed.

Lemma num_restart_bounds (max : Z) (s : CompilationStateImpl) :
  workers_within_bound s -> 0 <= max ->
  0 <= num_restart max s <= max_background_tasks_ s - num_background_tasks_ s.
Proof.
  intros ((N0 & N1) & M) Hmax. unfold num_restart. cbv zeta.
  unfold SizeT.sub, SizeT.add.
  rewrite (wrap_small (max_background_tasks_ s - num_background_tasks_ s))
    by (unfold SizeT.in_range; lia).
  pose proof (wrap_range (SizeT.size (baseline_compilation_units_ s) +
                          SizeT.size (tiering_compilation_units_ s))) as R.
  unfold SizeT.in_range in R. lia.
Qed.

Lemma workers_RestartBackgroundTasks (max : Z) (s : CompilationStateImpl) :
  workers_within_bound s -> 0 <= max ->
  workers_within_bound (RestartBackgroundTasks max s).
Proof.
  intros W Hmax. pose proof (num_restart_bounds max s W Hmax) as B.
  rewrite RestartBackgroundTasks_eq.
  destruct (failed s); [exact W |].
  destruct (_ =? _); [exact W |].
  destruct W as ((N0 & N1) & M). cbv zeta.
  assert (E : SizeT.add (num_background_tasks_ s) (num_restart max s) =
              num_background_tasks_ s + num_restart max s)
    by (apply wrap_small; unfold SizeT.in_range; lia).
  unfold workers_within_bound.
  destruct (0 <? _); simpl; rewrite E; lia.
Qed.

Section WorkersInvariant.

Context {WireBytesRef : Type}.
Variable is_set : WireBytesRef -> bool.
Variable LookupFunctionName : string -> Z -> WireBytesRef.
Variable GetNameOrNull : string -> WireBytesRef -> string.

(** Every operation keeps the worker counter within its bound, given that
    a worker reports its stop only while the counter counts it, and that
    the argument of [RestartBackgroundTasks] is a [size_t]. *)
Lemma workers_step (op : Op) (s : CompilationStateImpl) :
  workers_within_bound s ->
  (op = OpOnBackgroundTaskStopped -> OnBackgroundTaskStopped_DCHECK s = true) ->
  (forall max, op = OpRestartBackgroundTasks max -> 0 <= max) ->
  workers_within_bound (step is_set LookupFunctionName GetNameOrNull op s).
Proof.
  intros W Hstop Hmax.
  destruct op;
    try solve [ destruct s; unfold workers_within_bound in *; unfold_ops;
                simpl in *; split_tests; simpl; exact W ].
  - (* AddCompilationUnits *)
    unfold step, AddCompilationUnits.
    apply workers_RestartBackgroundTasks; [| unfold SizeT.max; simpl; lia].
    destruct s; unfold workers_within_bound in *; simpl in *.
    destruct (CompileMode_eqb _ _); simpl; exact W.
  - (* OnBackgroundTaskStopped *)
    specialize (Hstop eq_refl). apply Z.leb_le in Hstop.
    destruct W as ((N0 & N1) & M).
    unfold step, OnBackgroundTaskStopped, workers_within_bound. simpl.
    rewrite decr_pos by (unfold SizeT.in_range; lia). lia.
  - (* RestartBackgroundTasks *)
    apply workers_RestartBackgroundTasks; eauto.
Qed.

End WorkersInvariant.

(** Within the bound, the assertion of [RestartBackgroundTasks] holds. *)
Lemma workers_RestartBackgroundTasks_DCHECK (s : CompilationStateImpl) :
  workers_within_bound s -> RestartBackgroundTasks_DCHECK s = true.
Proof.
  intros ((_ & N) & _). unfold RestartBackgroundTasks_DCHECK.
  apply orb_true_iff. right. now apply Z.leb_le.
Qed.

Lemma workers_new_CompilationStateImpl (tier_up wasm : bool) (flag threads : Z)
    (bytes : string) :
  Z.min flag threads < SizeT.modulus ->
  workers_within_bound (new_CompilationStateImpl tier_up wasm flag threads bytes).
Proof.
  intros H. unfold workers_within_bound. simpl.
  assert (1 < SizeT.modulus) by reflexivity. lia.
Qed.



(** ** [CompilationUnitBuilder::Commit] *)

Lemma pending_RestartBackgroundTasks (max : Z) (s : CompilationStateImpl) :
  baseline_compilation_units_ (RestartBackgroundTasks max s) =
    baseline_compilation_units_ s /\
  tiering_compilation_units_ (RestartBackgroundTasks max s) =
    tiering_compilation_units_ s.
Proof.
  rewrite RestartBackgroundTasks_eq. cbv zeta.
  destruct (failed s); [auto |].
  destruct (_ =? _); [auto |].
  destruct (0 <? _); simpl; auto.
Qed.

Lemma pending_AddCompilationUnits (bu tu : list WasmCompilationUnit)
    (s : CompilationStateImpl) :
  baseline_compilation_units_ (AddCompilationUnits bu tu s) =
    baseline_compilation_units_ s ++ bu /\
  tiering_compilation_units_ (AddCompilationUnits bu tu s) =
    tiering_compilation_units_ s ++
    match compile_mode_ s with kTiering => tu | kRegular => [] end.
Proof.
  unfold AddCompilationUnits. cbv zeta.
  match goal with
  | |- context [RestartBackgroundTasks ?m ?x] =>
      destruct (pending_RestartBackgroundTasks m x) as (-> & ->)
  end.
  destruct s as [mode err bcu tcu fin nbg bfu tfu cbs mbg ob ot flag wb fg wk fi de].
  destruct mode; simpl; rewrite ?app_nil_r; auto.
Qed.

(** C8. Committing an empty builder returns [false] and leaves the
    compilation state (so its pending queues) as it was.  A commit leaves
    the builder empty, so a second commit right after it returns [false]
    and changes nothing: the units of the builder are appended to the
    pending queues by the first commit and not again by the second. *)
Theorem Commit_empty_is_noop_and_commit_clears
    (b : CompilationUnitBuilder) (s : CompilationStateImpl) :
  let r1 := Commit b s in
  let b1 := snd (fst r1) in
  let s1 := snd r1 in
  let r2 := Commit b1 s1 in
  (baseline_units_ b = [] /\ tiering_units_ b = [] ->
   r1 = (false, b, s)) /\
  (fst (fst r1) = true ->
   baseline_units_ b1 = [] /\ tiering_units_ b1 = [] /\
   baseline_compilation_units_ s1 =
     baseline_compilation_units_ s ++ baseline_units_ b /\
   tiering_compilation_units_ s1 =
     tiering_compilation_units_ s ++
     match compile_mode_ s with
     | kTiering => tiering_units_ b
     | kRegular => []
     end) /\
  r2 = (false, b1, s1) /\
  baseline_compilation_units_ (snd r2) = baseline_compilation_units_ s1 /\
  tiering_compilation_units_ (snd r2) = tiering_compilation_units_ s1.
Proof.
  cbv zeta. unfold Commit.
  destruct (empty (baseline_units_ b) && empty (tiering_units_ b)) eqn:E.
  - simpl. rewrite E. simpl. repeat split; intros; auto; discriminate.
  - simpl. repeat split; intros; auto;
      try apply pending_AddCompilationUnits.
    destruct H as (H1 & H2). rewrite H1, H2 in E. discriminate E.
Qed.

Lemma Commit_witness :
  Commit (mkBuilder [] []) tiering_state = (false, mkBuilder [] [], tiering_state) /\
  fst (fst (Commit builder_with_one_function tiering_state)) = true /\
  baseline_compilation_units_
    (snd (Commit builder_with_one_function tiering_state)) = [mkUnit 5 kBaseline] /\
  tiering_compilation_units_
    (snd (Commit builder_with_one_function tiering_state)) = [mkUnit 5 kOptimized] /\
  Commit (snd (fst (Commit builder_with_one_function tiering_state)))
         (snd (Commit builder_with_one_function tiering_state)) =
    (false, mkBuilder [] [], snd (Commit builder_with_one_function tiering_state)).
Proof.
  pose proof (Commit_empty_is_noop_and_commit_clears (mkBuilder [] []) tiering_state) as E.
  pose proof (Commit_empty_is_noop_and_commit_clears
                builder_with_one_function tiering_state) as C.
  cbv zeta in E, C.
  destruct E as (E & _). destruct C as (_ & C1 & C2 & _).
  specialize (E (conj eq_refl eq_refl)). specialize (C1 eq_refl).
  destruct C1 as (_ & _ & C1b & C1t).
  repeat split; try assumption; reflexivity.
Defined.

(** ** The tiering counter waits for the baseline counter *)

Section Counters.

Context {WireBytesRef : Type}.
Variable is_set : WireBytesRef -> bool.
Variable LookupFunctionName : string -> Z -> WireBytesRef.
Variable GetNameOrNull : string -> WireBytesRef -> string.

Local Abbreviation step := (step is_set LookupFunctionName GetNameOrNull).
Local Abbreviation run := (run is_set LookupFunctionName GetNameOrNull).

Lemma compile_mode_step (op : Op) (s : CompilationStateImpl) :
  compile_mode_ (step op s) = compile_mode_ s.
Proof.
  destruct s; destruct op; unfold_ops; simpl; split_tests; reflexivity.
Qed.

(** Only [SetNumberOfFunctionsToCompile] and [OnFinishedUnit] write the
    counters. *)
Lemma counters_step (op : Op) (s : CompilationStateImpl) :
  is_OpSetNumberOfFunctionsToCompile op = false ->
  op <> OpOnFinishedUnit ->
  outstanding_baseline_units_ (step op s) = outstanding_baseline_units_ s /\
  outstanding_tiering_units_ (step op s) = outstanding_tiering_units_ s.
Proof.
  intros H1 H2.
  destruct op; try discriminate H1; try congruence;
    destruct s; unfold_ops; simpl; split_tests; auto.
Qed.

(** A step that is not [SetNumberOfFunctionsToCompile] and changes the
    tiering counter is taken in mode [kTiering] with the baseline counter at
    zero. *)
Lemma tiering_counter_step (op : Op) (s : CompilationStateImpl) :
  is_OpSetNumberOfFunctionsToCompile op = false ->
  outstanding_tiering_units_ (step op s) <> outstanding_tiering_units_ s ->
  compile_mode_ s = kTiering /\ outstanding_baseline_units_ s = 0.
Proof.
  intros H1 H2.
  destruct (Op_eq_OnFinishedUnit op) as [-> | N].
  - simpl in H2.
    destruct (OnFinishedUnit_cases s) as [(T & _) | (_ & _ & Tc & _)].
    + now apply is_tiering_unit_true.
    + congruence.
  - destruct (counters_step op s H1 N) as (_ & E). congruence.
Qed.

(** In mode [kTiering], once the baseline counter is zero it stays zero. *)
Lemma baseline_stays_zero_step (op : Op) (s : CompilationStateImpl) :
  is_OpSetNumberOfFunctionsToCompile op = false ->
  compile_mode_ s = kTiering -> outstanding_baseline_units_ s = 0 ->
  outstanding_baseline_units_ (step op s) = 0.
Proof.
  intros H1 M B.
  destruct (Op_eq_OnFinishedUnit op) as [-> | N].
  - simpl.
    destruct (OnFinishedUnit_cases s) as [(_ & Bc & _) | (T & _)].
    + congruence.
    + apply is_tiering_unit_false in T. destruct T; congruence.
  - destruct (counters_step op s H1 N) as (E & _). congruence.
Qed.

Lemma baseline_stays_zero_run (ops : list Op) (s : CompilationStateImpl) :
  Forall (fun op => is_OpSetNumberOfFunctionsToCompile op = false) ops ->
  compile_mode_ s = kTiering -> outstanding_baseline_units_ s = 0 ->
  outstanding_baseline_units_ (run ops s) = 0.
Proof.
  intros F. revert s. induction F as [| op ops H F IH]; intros s M B.
  - exact B.
  - simpl. apply IH.
    + now rewrite compile_mode_step.
    + now apply baseline_stays_zero_step.
Qed.

Lemma tiering_counter_run (ops : list Op) (s : CompilationStateImpl) :
  Forall (fun op => is_OpSetNumberOfFunctionsToCompile op = false) ops ->
  outstanding_tiering_units_ (run ops s) <> outstanding_tiering_units_ s ->
  outstanding_baseline_units_ (run ops s) = 0.
Proof.
  intros F. revert s. induction F as [| op ops H F IH]; intros s D.
  - simpl in D. congruence.
  - simpl in *.
    destruct (Z.eq_dec (outstanding_tiering_units_ (step op s))
                       (outstanding_tiering_units_ s)) as [E | N].
    + apply IH. congruence.
    + destruct (tiering_counter_step op s H N) as (M & B).
      apply baseline_stays_zero_run; trivial.
      * now rewrite compile_mode_step.
      * now apply baseline_stays_zero_step.
Qed.

End Counters.

(** C10. [OnFinishedUnit] takes no unit: whether the finished unit counts
    as a tiering unit is decided by the state alone, and wherever the
    assertions of [OnFinishedUnit] hold that is exactly when the baseline
    counter is zero.  While the baseline counter is not zero a call leaves
    the tiering counter alone and decrements the baseline counter; a call
    that changes the tiering counter finds the baseline counter at zero and
    leaves it there.  So along any schedule that does not set the totals
    anew, once the tiering counter has changed the baseline counter is
    zero. *)
Theorem tiering_counter_waits_for_baseline
    {WireBytesRef : Type} (is_set : WireBytesRef -> bool)
    (LookupFunctionName : string -> Z -> WireBytesRef)
    (GetNameOrNull : string -> WireBytesRef -> string)
    (s : CompilationStateImpl) :
  (OnFinishedUnit_DCHECK s = true ->
   (is_tiering_unit s = true <-> outstanding_baseline_units_ s = 0)) /\
  (outstanding_baseline_units_ s <> 0 ->
   outstanding_tiering_units_ (OnFinishedUnit s) = outstanding_tiering_units_ s /\
   outstanding_baseline_units_ (OnFinishedUnit s) =
     SizeT.decr (outstanding_baseline_units_ s)) /\
  (outstanding_tiering_units_ (OnFinishedUnit s) <> outstanding_tiering_units_ s ->
   outstanding_baseline_units_ s = 0 /\
   outstanding_baseline_units_ (OnFinishedUnit s) = 0) /\
  (forall ops : list Op,
     Forall (fun op => is_OpSetNumberOfFunctionsToCompile op = false) ops ->
     outstanding_tiering_units_
       (run is_set LookupFunctionName GetNameOrNull ops s)
     <> outstanding_tiering_units_ s ->
     outstanding_baseline_units_
       (run is_set LookupFunctionName GetNameOrNull ops s) = 0).
Proof.
  split; [| split; [| split]].
  - intros D. split.
    + intros T. now apply is_tiering_unit_true in T.
    + intros B. destruct (is_tiering_unit s) eqn:T; [reflexivity |].
      unfold OnFinishedUnit_DCHECK in D. rewrite T in D.
      apply andb_true_iff in D. destruct D as (_ & D).
      apply Z.ltb_lt in D. lia.
  - intros B.
    destruct (OnFinishedUnit_cases s) as [(T & _) | (_ & Bc & Tc & _)].
    + apply is_tiering_unit_true in T. tauto.
    + auto.
  - intros D.
    destruct (OnFinishedUnit_cases s) as [(T & Bc & _) | (_ & _ & Tc & _)].
    + apply is_tiering_unit_true in T. destruct T as (_ & B).
      split; congruence.
    + congruence.
  - intros ops F D.
    exact (tiering_counter_run is_set LookupFunctionName GetNameOrNull ops s F D).
Qed.

(** One baseline unit finishes, then one tiering unit. *)
Lemma tiering_counter_waits_for_baseline_witness :
  (is_tiering_unit tiering_state = true <->
   outstanding_baseline_units_ tiering_state = 0) /\
  outstanding_tiering_units_ (OnFinishedUnit tiering_state) = 1 /\
  outstanding_baseline_units_
    (run (fun _ : unit => false) (fun _ _ => tt) (fun _ _ => EmptyString)
         [OpOnFinishedUnit; OpOnFinishedUnit] tiering_state) = 0.
Proof.
  pose proof (tiering_counter_waits_for_baseline
                (fun _ : unit => false) (fun _ _ => tt) (fun _ _ => EmptyString)
                tiering_state) as (D & B & _ & R).
  split; [exact (D eq_refl) |].
  split.
  - refine (proj1 (B _)). discriminate.
  - apply R.
    + repeat constructor.
    + discriminate.
Defined.

(** ** The message of a latched error *)

Lemma string_append_assoc (a b c : string) :
  String.append (String.append a b) c = String.append a (String.append b c).
Proof. induction a as [| ch a IH]; simpl; [reflexivity | now rewrite IH]. Qed.

(** C9. For a latched error with function index [i] and message [m],
    [GetCompileError] returns the message
    [Compiling wasm function "<name>" failed: <m>], with the error's
    offset, where [<name>] is the name the wire bytes hold for the
    function when the module records one for index [i], and
    [wasm-function[i]] (with [i] in decimal) otherwise. *)
Theorem GetCompileError_message
    {WireBytesRef : Type} (is_set : WireBytesRef -> bool)
    (LookupFunctionName : string -> Z -> WireBytesRef)
    (GetNameOrNull : string -> WireBytesRef -> string)
    (s : CompilationStateImpl) (i offset : Z) (m : string) :
  compile_error_ s = Some (mkCompilationError i (mkError offset m)) ->
  let name_ref := LookupFunctionName (wire_bytes s) i in
  let surfaced name :=
    Some (mkError offset
            (String.append "Compiling wasm function "
               (String.append dquote
                  (String.append name
                     (String.append dquote (String.append " failed: " m)))))) in
  (is_set name_ref = true ->
   GetCompileError is_set LookupFunctionName GetNameOrNull s =
     surfaced (GetNameOrNull (wire_bytes s) name_ref)) /\
  (is_set name_ref = false ->
   GetCompileError is_set LookupFunctionName GetNameOrNull s =
     surfaced (String.append "wasm-function["
                 (String.append
                    (NilZero.string_of_uint (N.to_uint (Z.to_N i))) "]"))).
Proof.
  intros E. cbv zeta. unfold GetCompileError, put_uint32, put. rewrite E.
  simpl func_index. simpl result. simpl error_msg. simpl error_offset.
  split; intros ->; f_equal; f_equal;
    rewrite ?string_append_assoc; reflexivity.
Qed.

Lemma GetCompileError_message_witness :
  GetCompileError sample_is_set sample_LookupFunctionName sample_GetNameOrNull
    sample_failed_state =
  Some (mkError 17
          (String.append "Compiling wasm function "
             (String.append dquote
                (String.append "wasm-function[2]"
                   (String.append dquote " failed: type error"))))).
Proof.
  exact (proj2 (GetCompileError_message sample_is_set sample_LookupFunctionName
                  sample_GetNameOrNull sample_failed_state 2 17 "type error"
                  eq_refl) eq_refl).
Defined.

Example GetCompileError_named :
  option_map error_msg
    (GetCompileError sample_is_set sample_LookupFunctionName sample_GetNameOrNull
       (SetError 0 (mkError 17 "type error")
          (new_CompilationStateImpl false true 4 4 "....main"))) =
  Some (String.append "Compiling wasm function "
          (String.append dquote
             (String.append "main" (String.append dquote " failed: type error")))).
Proof. reflexivity. Qed.

(** ** The error latch and the [kFailedCompilation] event *)

Lemma latch_accounted_new (tier_up wasm : bool) (flag threads : Z) (bytes : string) :
  latch_accounted (new_CompilationStateImpl tier_up wasm flag threads bytes).
Proof. reflexivity. Qed.

Lemma filter_notify_background (l : list Task) :
  filter is_NotifyFailedTask
    (filter (fun t => negb (is_BackgroundCompileTask t)) l) =
  filter is_NotifyFailedTask l.
Proof.
  induction l as [| t l IH]; [reflexivity |].
  destruct t; simpl; rewrite ?IH; reflexivity.
Qed.

Lemma filter_notify_repeat (n : nat) :
  filter is_NotifyFailedTask (repeat BackgroundCompileTask n) = [].
Proof. induction n; simpl; auto. Qed.

Section Latch.

Context {WireBytesRef : Type}.
Variable is_set : WireBytesRef -> bool.
Variable LookupFunctionName : string -> Z -> WireBytesRef.
Variable GetNameOrNull : string -> WireBytesRef -> string.

Local Abbreviation step := (step is_set LookupFunctionName GetNameOrNull).
Local Abbreviation run := (run is_set LookupFunctionName GetNameOrNull).
Local Abbreviation drain_foreground :=
  (drain_foreground is_set LookupFunctionName GetNameOrNull).

Lemma run_app (ops1 ops2 : list Op) (s : CompilationStateImpl) :
  run (ops1 ++ ops2) s = run ops2 (run ops1 s).
Proof. revert s. induction ops1 as [| op ops1 IH]; intros s; simpl; auto. Qed.

(** The latch is written at most once: a latched error stays. *)
Lemma compile_error_step (op : Op) (s : CompilationStateImpl) (error : CompilationError) :
  compile_error_ s = Some error -> compile_error_ (step op s) = Some error.
Proof.
  intros E. destruct s; simpl in E; subst.
  destruct op; unfold_ops; simpl; split_tests; reflexivity.
Qed.

Lemma compile_error_run (ops : list Op) (s : CompilationStateImpl) (error : CompilationError) :
  compile_error_ s = Some error -> compile_error_ (run ops s) = Some error.
Proof.
  revert s. induction ops as [| op ops IH]; intros s E; simpl; auto.
  apply IH. now apply compile_error_step.
Qed.

(** Only [SetError] and [Abort] write the latch. *)
Lemma compile_error_frame (op : Op) (s : CompilationStateImpl) :
  is_OpSetError op = false -> op <> OpAbort ->
  compile_error_ (step op s) = compile_error_ s.
Proof.
  intros H1 H2.
  destruct op; try discriminate H1; try congruence;
    destruct s; unfold_ops; simpl; split_tests; reflexivity.
Qed.

Lemma latch_accounted_step (op : Op) (s : CompilationStateImpl) :
  latch_accounted s -> latch_accounted (step op s).
Proof.
  unfold latch_accounted, pending_notifications, count_fired, failed.
  destruct s as [mode err bcu tcu fin nbg bfu tfu cbs mbg ob ot flag wb fg wk fi de].
  simpl. intros L.
  destruct err; destruct op; unfold_ops; simpl; split_tests;
    simpl in *;
    rewrite ?filter_app, ?filter_notify_background, ?filter_notify_repeat,
      ?length_app, ?count_occ_app in *;
    simpl in *; try congruence; try lia.
Qed.

Lemma latch_accounted_run (ops : list Op) (s : CompilationStateImpl) :
  latch_accounted s -> latch_accounted (run ops s).
Proof.
  revert s. induction ops as [| op ops IH]; intros s L; simpl; auto.
  apply IH. now apply latch_accounted_step.
Qed.

(** Running a task takes it off the queue and posts nothing. *)
Lemma foreground_tasks_RunForegroundTask (s : CompilationStateImpl) :
  foreground_tasks (RunForegroundTask is_set LookupFunctionName GetNameOrNull s) =
  tl (foreground_tasks s).
Proof. destruct s; unfold_ops; simpl; split_tests; reflexivity. Qed.

Lemma foreground_tasks_run_all (n : nat) (s : CompilationStateImpl) :
  foreground_tasks (run (repeat OpRunForegroundTask n) s) =
  skipn n (foreground_tasks s).
Proof.
  revert s. induction n as [| n IH]; intros s; [reflexivity |].
  change (run (repeat OpRunForegroundTask (S n)) s)
    with (run (repeat OpRunForegroundTask n)
            (RunForegroundTask is_set LookupFunctionName GetNameOrNull s)).
  rewrite IH, foreground_tasks_RunForegroundTask.
  destruct (foreground_tasks s); simpl; [now rewrite skipn_nil | reflexivity].
Qed.

Lemma foreground_tasks_drain (s : CompilationStateImpl) :
  foreground_tasks (drain_foreground s) = [].
Proof.
  change (drain_foreground s)
    with (run (repeat OpRunForegroundTask (List.length (foreground_tasks s))) s).
  rewrite foreground_tasks_run_all. apply skipn_all.
Qed.

(** After a call of [SetError] the latch is set. *)
Lemma failed_SetError (i : Z) (r : VoidResult) (s : CompilationStateImpl) :
  failed (SetError i r s) = true.
Proof. unfold SetError, failed. destruct (compile_error_ s) eqn:E; simpl; now rewrite ?E. Qed.

Lemma failed_run (ops : list Op) (s : CompilationStateImpl) :
  failed s = true -> failed (run ops s) = true.
Proof.
  unfold failed. destruct (compile_error_ s) eqn:E; [| discriminate].
  intros _. now rewrite (compile_error_run ops s c E).
Qed.

Lemma failed_after_SetError (ops : list Op) (s : CompilationStateImpl) :
  Exists (fun op => is_OpSetError op = true) ops -> failed (run ops s) = true.
Proof.
  intros X. revert s. induction X as [op ops H | op ops X IH]; intros s; simpl.
  - destruct op; try discriminate H. apply failed_run. simpl. apply failed_SetError.
  - apply IH.
Qed.

Lemma compile_error_run_frame (ops : list Op) (s : CompilationStateImpl) :
  Forall (fun op => is_OpSetError op = false /\ op <> OpAbort) ops ->
  compile_error_ (run ops s) = compile_error_ s.
Proof.
  intros F. revert s. induction F as [| op ops (H1 & H2) F IH]; intros s; simpl; auto.
  rewrite IH. now apply compile_error_frame.
Qed.

(** The latch and its notification, along any schedule of operations
    started in a state in which the latch is accounted for (as in the state
    the constructor leaves) that contains at least one call of [SetError]:
    the latch is set at the end, and once set it never changed; a call of
    [SetError] on a set latch does nothing, and the first call that finds
    it empty sets it and posts the one notification; exactly one
    notification exists, posted or already run; and once the foreground
    runner has run its tasks, the notification has run, once. *)
Lemma SetError_latch_and_notification
    (s0 : CompilationStateImpl) (ops : list Op) :
  latch_accounted s0 ->
  Exists (fun op => is_OpSetError op = true) ops ->
  let s := run ops s0 in
  (exists error,
     compile_error_ s = Some error /\
     forall ops1 ops2 error1,
       ops = ops1 ++ ops2 ->
       compile_error_ (run ops1 s0) = Some error1 -> error1 = error) /\
  (forall i r s1, compile_error_ s1 <> None -> SetError i r s1 = s1) /\
  (forall pre i r post,
     compile_error_ s0 = None ->
     ops = pre ++ OpSetError i r :: post ->
     Forall (fun op => is_OpSetError op = false /\ op <> OpAbort) pre ->
     compile_error_ s = Some (mkCompilationError i r) /\
     foreground_tasks (run (pre ++ [OpSetError i r]) s0) =
       foreground_tasks (run pre s0) ++ [NotifyFailedTask]) /\
  (pending_notifications s + count_fired kFailedCompilation s = 1)%nat /\
  pending_notifications (drain_foreground s) = 0%nat /\
  count_fired kFailedCompilation (drain_foreground s) = 1%nat.
Proof.
  intros L X. cbv zeta.
  pose proof (failed_after_SetError ops s0 X) as F.
  pose proof (latch_accounted_run ops s0 L) as La.
  assert (Ld : latch_accounted (drain_foreground (run ops s0)))
    by (apply latch_accounted_run; exact La).
  assert (Fd : failed (drain_foreground (run ops s0)) = true)
    by (apply failed_run; exact F).
  assert (Pd : pending_notifications (drain_foreground (run ops s0)) = 0%nat)
    by (unfold pending_notifications; now rewrite foreground_tasks_drain).
  unfold latch_accounted in La, Ld. rewrite F in La. rewrite Fd, Pd in Ld.
  split; [| split; [| split; [| split; [| split]]]]; trivial.
  - unfold failed in F. destruct (compile_error_ (run ops s0)) as [error |] eqn:E;
      [| discriminate].
    exists error. split; [reflexivity |].
    intros ops1 ops2 error1 -> E1. rewrite run_app in E.
    rewrite (compile_error_run ops2 _ _ E1) in E. congruence.
  - intros i r s1 N. unfold SetError. destruct (compile_error_ s1); congruence.
  - intros pre i r post E0 -> Fpre.
    pose proof (compile_error_run_frame pre s0 Fpre) as E. rewrite E0 in E.
    split.
    + rewrite run_app. simpl. apply compile_error_run.
      unfold SetError. rewrite E. reflexivity.
    + rewrite run_app. simpl. unfold SetError, push_back. rewrite E. reflexivity.
Qed.

End Latch.

(** ** The order and finality of delivered events *)

Lemma delivery_effect_none (s s' : CompilationStateImpl) :
  callbacks_ s' = callbacks_ s -> delivered s' = delivered s ->
  delivery_effect s s'.
Proof.
  intros C D. exists [], []. rewrite D, !app_nil_r. auto.
Qed.

Lemma baseline_deliveries_notify_all (callbacks : list callback_t) :
  baseline_deliveries (notify_all callbacks kFinishedBaselineCompilation None).
Proof.
  unfold baseline_deliveries, notify_all.
  induction callbacks; simpl; constructor; auto.
Qed.

Lemma delivery_effect_OnFinishedUnit (s : CompilationStateImpl) :
  delivery_effect s (OnFinishedUnit s).
Proof.
  unfold delivery_effect, final_round.
  destruct s as [mode err bcu tcu fin nbg bfu tfu cbs mbg ob ot flag wb fg wk fi de].
  unfold OnFinishedUnit, NotifyOnEvent, is_tiering_unit, is_tiering_mode. simpl.
  destruct (CompileMode_eqb mode kTiering) eqn:M; simpl.
  - destruct (ob =? 0); simpl.
    + destruct (SizeT.decr ot =? 0); simpl.
      * exists [], (notify_all cbs kFinishedTopTierCompilation None).
        simpl. split; [reflexivity |]. split; [auto |]. right. split; [reflexivity |].
        right. exists kFinishedTopTierCompilation, None. auto.
      * exists [], []. rewrite app_nil_r. auto.
    + destruct (SizeT.decr ob =? 0); simpl.
      * exists (notify_all cbs kFinishedBaselineCompilation None), [].
        rewrite app_nil_r. auto.
      * exists [], []. rewrite app_nil_r. auto.
  - destruct (SizeT.decr ob =? 0); simpl.
    + exists (notify_all cbs kFinishedBaselineCompilation None),
             (notify_all cbs kFinishedTopTierCompilation None).
      rewrite <- app_assoc. split; [reflexivity |]. split; [auto |].
      right. split; [reflexivity |].
      right. exists kFinishedTopTierCompilation, None. auto.
    + exists [], []. rewrite app_nil_r. auto.
Qed.

Lemma delivery_effect_Abort (s : CompilationStateImpl) :
  delivery_effect s (Abort s).
Proof.
  unfold delivery_effect, final_round.
  destruct s as [mode err bcu tcu fin nbg bfu tfu cbs mbg ob ot flag wb fg wk fi de].
  unfold_ops. simpl. exists [], [].
  destruct err, cbs; simpl; rewrite app_nil_r;
    (split; [reflexivity |]); (split; [now left |]);
    solve [ left; split; reflexivity
          | right; split; [reflexivity | now left] ].
Qed.

Section Deliveries.

Context {WireBytesRef : Type}.
Variable is_set : WireBytesRef -> bool.
Variable LookupFunctionName : string -> Z -> WireBytesRef.
Variable GetNameOrNull : string -> WireBytesRef -> string.

Local Abbreviation step := (step is_set LookupFunctionName GetNameOrNull).
Local Abbreviation run := (run is_set LookupFunctionName GetNameOrNull).

Lemma delivery_effect_RunForegroundTask (s : CompilationStateImpl) :
  delivery_effect s (RunForegroundTask is_set LookupFunctionName GetNameOrNull s).
Proof.
  unfold RunForegroundTask.
  destruct (foreground_tasks s) as [| task rest] eqn:F.
  - now apply delivery_effect_none.
  - destruct task; try (now apply delivery_effect_none).
    unfold NotifyFailedTask_Run.
    destruct (GetCompileError _ _ _ _) as [error_result |];
      [| now apply delivery_effect_none].
    unfold delivery_effect, final_round, NotifyOnEvent. simpl.
    exists [], (notify_all (callbacks_ s) kFailedCompilation (Some error_result)).
    simpl. split; [reflexivity |]. split; [auto |]. right. split; [reflexivity |].
    right. exists kFailedCompilation, (Some error_result). auto.
Qed.

(** Every operation but [AddCallback] has such an effect. *)
Lemma delivery_effect_step (op : Op) (s : CompilationStateImpl) :
  is_OpAddCallback op = false -> delivery_effect s (step op s).
Proof.
  intros H.
  destruct op; try discriminate H;
    try solve [ apply delivery_effect_none;
                destruct s; unfold_ops; simpl; split_tests; reflexivity ].
  - apply delivery_effect_OnFinishedUnit.
  - apply delivery_effect_Abort.
  - apply delivery_effect_RunForegroundTask.
Qed.

End Deliveries.

Lemma delivery_shape_refl (s : CompilationStateImpl) : delivery_shape s s.
Proof.
  exists [], []. rewrite !app_nil_r. repeat split; auto. constructor.
Qed.

Lemma final_round_no_callbacks (l : list Delivery) : final_round [] l -> l = [].
Proof. intros [E | (e & r & _ & E)]; exact E. Qed.

(** With no callback registered an operation delivers nothing and
    registers none. *)
Lemma delivery_effect_no_callbacks (s s' : CompilationStateImpl) :
  delivery_effect s s' -> callbacks_ s = [] ->
  delivered s' = delivered s /\ callbacks_ s' = [].
Proof.
  intros (pre & fin & D & P & C) E. rewrite E in *.
  assert (pre = []) as -> by (destruct P; assumption).
  assert (fin = [] /\ callbacks_ s' = []) as (-> & Cs).
  { destruct C as [(F & C) | (C & F)]; split; auto.
    now apply final_round_no_callbacks. }
  rewrite D, !app_nil_r. auto.
Qed.

Lemma delivery_shape_step (s0 s s' : CompilationStateImpl) :
  delivery_shape s0 s -> delivery_effect s s' -> delivery_shape s0 s'.
Proof.
  intros (pre & fin & D & B & [(F & C) | (C & F)]) Eff.
  - subst fin. rewrite app_nil_r in D.
    destruct Eff as (pre' & fin' & D' & P' & C').
    exists (pre ++ pre'), fin'. rewrite D', D, C in *.
    split; [now rewrite <- !app_assoc |].
    split.
    + apply Forall_app. split; [exact B |].
      destruct P' as [-> | ->];
        [constructor | apply baseline_deliveries_notify_all].
    + destruct C' as [(F' & C') | (C' & F')]; [left | right]; auto.
  - destruct (delivery_effect_no_callbacks s s' Eff C) as (D' & C').
    exists pre, fin. rewrite D', D. auto.
Qed.

Section DeliveryOrder.

Context {WireBytesRef : Type}.
Variable is_set : WireBytesRef -> bool.
Variable LookupFunctionName : string -> Z -> WireBytesRef.
Variable GetNameOrNull : string -> WireBytesRef -> string.

Local Abbreviation run := (run is_set LookupFunctionName GetNameOrNull).

Lemma delivery_shape_run (ops : list Op) (s0 s : CompilationStateImpl) :
  Forall (fun op => is_OpAddCallback op = false) ops ->
  delivery_shape s0 s -> delivery_shape s0 (run ops s).
Proof.
  intros F. revert s. induction F as [| op ops H F IH]; intros s Sh; simpl; auto.
  apply IH. apply (delivery_shape_step s0 s _ Sh).
  now apply delivery_effect_step.
Qed.

Lemma no_callbacks_run (ops : list Op) (s : CompilationStateImpl) :
  Forall (fun op => is_OpAddCallback op = false) ops ->
  callbacks_ s = [] ->
  delivered (run ops s) = delivered s /\ callbacks_ (run ops s) = [].
Proof.
  intros F. revert s. induction F as [| op ops H F IH]; intros s C; simpl; auto.
  destruct (delivery_effect_no_callbacks s _
              (delivery_effect_step is_set LookupFunctionName GetNameOrNull op s H) C)
    as (D' & C').
  destruct (IH _ C') as (D'' & C''). split; congruence.
Qed.

(** C2. Along any schedule of operations on a compilation state whose
    callbacks were registered before (no [AddCallback] in the schedule, as
    the contract of [AddCallback] asks), the deliveries made are: rounds of
    [kFinishedBaselineCompilation], then at most one round of one final
    event ([kFinishedTopTierCompilation] or [kFailedCompilation]), which
    reaches every callback once.  So all final events delivered are the same
    event (never both), every baseline delivery precedes the final ones,
    and after the final round no schedule delivers anything more. *)
Theorem deliveries_baseline_then_one_final_round
    (s : CompilationStateImpl) (ops : list Op) :
  Forall (fun op => is_OpAddCallback op = false) ops ->
  let s' := run ops s in
  exists pre fin,
    delivered s' = delivered s ++ pre ++ fin /\
    Forall (fun d => delivered_event d = kFinishedBaselineCompilation) pre /\
    (fin = [] \/
     exists event error_result,
       is_final_event event = true /\
       fin = notify_all (callbacks_ s) event error_result /\
       callbacks_ s' = []) /\
    (forall d1 d2,
       In d1 (pre ++ fin) -> In d2 (pre ++ fin) ->
       is_final_event (delivered_event d1) = true ->
       is_final_event (delivered_event d2) = true ->
       delivered_event d1 = delivered_event d2) /\
    (fin <> [] ->
     forall later,
       Forall (fun op => is_OpAddCallback op = false) later ->
       delivered (run later s') = delivered s').
Proof.
  intros F. cbv zeta.
  destruct (delivery_shape_run ops s s F (delivery_shape_refl s))
    as (pre & fin & D & B & C).
  exists pre, fin.
  assert (Fin : fin = [] \/
                exists event error_result,
                  is_final_event event = true /\
                  fin = notify_all (callbacks_ s) event error_result /\
                  callbacks_ (run ops s) = []).
  { destruct C as [(E & _) | (Cs & [E | (e & r & Fe & E)])]; auto.
    right. exists e, r. auto. }
  split; [exact D |]. split; [exact B |]. split; [exact Fin |]. split.
  - assert (P : forall d, In d (pre ++ fin) ->
                  is_final_event (delivered_event d) = true ->
                  In d fin).
    { intros d I Fd. apply in_app_or in I. destruct I as [I | I]; [| exact I].
      unfold baseline_deliveries in B. rewrite Forall_forall in B.
      rewrite (B d I) in Fd. discriminate Fd. }
    intros d1 d2 I1 I2 F1 F2.
    specialize (P d1 I1 F1) as J1. specialize (P d2 I2 F2) as J2.
    destruct Fin as [-> | (e & r & _ & -> & _)]; [destruct J1 |].
    unfold notify_all in J1, J2. apply in_map_iff in J1, J2.
    destruct J1 as (c1 & <- & _). destruct J2 as (c2 & <- & _). reflexivity.
  - intros N later Fl.
    destruct Fin as [E | (e & r & _ & _ & Cs)]; [congruence |].
    apply (no_callbacks_run later _ Fl Cs).
Qed.

End DeliveryOrder.

Lemma deliveries_baseline_then_one_final_round_witness :
  exists pre fin,
    delivered (run sample_is_set sample_LookupFunctionName sample_GetNameOrNull
                 schedule_finish_then_fail state_with_two_callbacks) =
      delivered state_with_two_callbacks ++ pre ++ fin /\
    Forall (fun d => delivered_event d = kFinishedBaselineCompilation) pre /\
    (fin = [] \/
     exists event error_result,
       is_final_event event = true /\
       fin = notify_all [1%nat; 2%nat] event error_result).
Proof.
  assert (F : Forall (fun op => is_OpAddCallback op = false)
                schedule_finish_then_fail) by (repeat constructor).
  destruct (deliveries_baseline_then_one_final_round
              sample_is_set sample_LookupFunctionName sample_GetNameOrNull
              state_with_two_callbacks schedule_finish_then_fail F)
    as (pre & fin & D & B & Fin & _).
  exists pre, fin. split; [exact D |]. split; [exact B |].
  destruct Fin as [E | (e & r & Fe & E & _)]; [left; exact E |].
  right. exists e, r. split; [exact Fe | exact E].
Defined.

Example deliveries_finish_then_fail :
  delivered (run sample_is_set sample_LookupFunctionName sample_GetNameOrNull
               schedule_finish_then_fail state_with_two_callbacks) =
  notify_all [1%nat; 2%nat] kFinishedBaselineCompilation None ++
  notify_all [1%nat; 2%nat] kFinishedTopTierCompilation None.
Proof. reflexivity. Qed.

(** ** The error latch and the deliveries of [kFailedCompilation] *)

Arguments failure_round_account {WireBytesRef} is_set LookupFunctionName
  GetNameOrNull aborted s0 s.

Lemma notify_all_nil (event : CompilationEvent) (error_result : option VoidResult) :
  notify_all [] event error_result = [].
Proof. reflexivity. Qed.

Lemma count_fired_app (event : CompilationEvent) (s s' : CompilationStateImpl)
    (events : list CompilationEvent) :
  fired s' = fired s ++ events ->
  ~ In event events ->
  count_fired event s' = count_fired event s.
Proof.
  unfold count_fired. intros -> N. rewrite count_occ_app.
  rewrite (proj1 (count_occ_not_In CompilationEvent_eq_dec events event) N). lia.
Qed.

(** [Abort] delivers nothing and leaves no callback. *)
Lemma Abort_callbacks (s : CompilationStateImpl) :
  delivered (Abort s) = delivered s /\ callbacks_ (Abort s) = [].
Proof.
  destruct s as [mode err bcu tcu fin nbg bfu tfu cbs mbg ob ot flag wb fg wk fi de].
  unfold Abort, background_task_manager_CancelAndWait, SetError, push_back.
  destruct err, cbs; simpl; split; reflexivity.
Qed.

Section FailureRound.

Context {WireBytesRef : Type}.
Variable is_set : WireBytesRef -> bool.
Variable LookupFunctionName : string -> Z -> WireBytesRef.
Variable GetNameOrNull : string -> WireBytesRef -> string.

Local Abbreviation step := (step is_set LookupFunctionName GetNameOrNull).
Local Abbreviation run := (run is_set LookupFunctionName GetNameOrNull).
Local Abbreviation drain_foreground :=
  (drain_foreground is_set LookupFunctionName GetNameOrNull).
Local Abbreviation account :=
  (failure_round_account is_set LookupFunctionName GetNameOrNull).

(** The bytes of the module are never written. *)
Lemma wire_bytes_step (op : Op) (s : CompilationStateImpl) :
  wire_bytes (step op s) = wire_bytes s.
Proof.
  destruct s as [mode err bcu tcu fin nbg bfu tfu cbs mbg ob ot flag wb fg wk fi de].
  destruct op; unfold_ops; simpl; split_tests; reflexivity.
Qed.

Lemma GetCompileError_fields (s s' : CompilationStateImpl) :
  compile_error_ s' = compile_error_ s -> wire_bytes s' = wire_bytes s ->
  GetCompileError is_set LookupFunctionName GetNameOrNull s' =
  GetCompileError is_set LookupFunctionName GetNameOrNull s.
Proof. intros E W. unfold GetCompileError. now rewrite E, W. Qed.

Lemma GetCompileError_failed (s : CompilationStateImpl) (r : VoidResult) :
  GetCompileError is_set LookupFunctionName GetNameOrNull s = Some r ->
  failed s = true.
Proof.
  unfold GetCompileError, failed. destruct (compile_error_ s); [auto | discriminate].
Qed.

(** Once an error is latched the message stays. *)
Lemma GetCompileError_step (op : Op) (s : CompilationStateImpl) :
  failed s = true ->
  GetCompileError is_set LookupFunctionName GetNameOrNull (step op s) =
  GetCompileError is_set LookupFunctionName GetNameOrNull s /\
  failed (step op s) = true.
Proof.
  unfold failed. destruct (compile_error_ s) as [error |] eqn:E; [| discriminate].
  intros _.
  pose proof (compile_error_step is_set LookupFunctionName GetNameOrNull
                op s error E) as E'.
  split; [| now rewrite E'].
  apply GetCompileError_fields; [congruence | apply wire_bytes_step].
Qed.

(** The operations that call no callback and register none. *)
Lemma quiet_step (op : Op) (s : CompilationStateImpl) :
  is_OpAddCallback op = false -> op <> OpOnFinishedUnit -> is_OpAbort op = false ->
  op <> OpRunForegroundTask ->
  delivered (step op s) = delivered s /\
  callbacks_ (step op s) = callbacks_ s /\
  fired (step op s) = fired s.
Proof.
  intros H1 H2 H3 H4.
  destruct op; try discriminate; try congruence;
    destruct s; unfold_ops; simpl; split_tests; auto.
Qed.

(** What running the oldest foreground task delivers. *)
Lemma RunForegroundTask_round (s : CompilationStateImpl) :
  let s' := RunForegroundTask is_set LookupFunctionName GetNameOrNull s in
  (delivered s' = delivered s /\ callbacks_ s' = callbacks_ s /\
   fired s' = fired s) \/
  (delivered s' =
     delivered s ++
     notify_all (callbacks_ s) kFailedCompilation
       (GetCompileError is_set LookupFunctionName GetNameOrNull s') /\
   callbacks_ s' = [] /\ failed s' = true).
Proof.
  cbv zeta. unfold RunForegroundTask.
  destruct (foreground_tasks s) as [| task rest] eqn:F;
    [left; repeat split; reflexivity |].
  cbv zeta.
  assert (Q : forall s0 : CompilationStateImpl,
             delivered (set_foreground_tasks rest s0) = delivered s0 /\
             callbacks_ (set_foreground_tasks rest s0) = callbacks_ s0 /\
             fired (set_foreground_tasks rest s0) = fired s0 /\
             compile_error_ (set_foreground_tasks rest s0) = compile_error_ s0 /\
             wire_bytes (set_foreground_tasks rest s0) = wire_bytes s0)
    by (intros s0; destruct s0; repeat split).
  destruct (Q s) as (QD & QC & QF & QE & QW).
  destruct task; try solve [left; repeat split; assumption].
  unfold NotifyFailedTask_Run.
  destruct (GetCompileError is_set LookupFunctionName GetNameOrNull
              (set_foreground_tasks rest s)) as [r |] eqn:G;
    [| left; repeat split; assumption].
  right.
  assert (N : forall s1 : CompilationStateImpl,
             delivered (NotifyOnEvent kFailedCompilation (Some r) s1) =
               delivered s1 ++ notify_all (callbacks_ s1) kFailedCompilation (Some r) /\
             callbacks_ (NotifyOnEvent kFailedCompilation (Some r) s1) = [] /\
             compile_error_ (NotifyOnEvent kFailedCompilation (Some r) s1) =
               compile_error_ s1 /\
             wire_bytes (NotifyOnEvent kFailedCompilation (Some r) s1) =
               wire_bytes s1)
    by (intros s1; destruct s1; repeat split).
  destruct (N (set_foreground_tasks rest s)) as (ND & NC & NE & NW).
  assert (G' : GetCompileError is_set LookupFunctionName GetNameOrNull
                 (NotifyOnEvent kFailedCompilation (Some r)
                    (set_foreground_tasks rest s)) = Some r)
    by (rewrite <- G; now apply GetCompileError_fields).
  rewrite G', ND, NC, QD, QC.
  split; [reflexivity |]. split; [reflexivity |].
  now apply (GetCompileError_failed _ r).
Qed.

Lemma failure_round_account_step (aborted : bool) (op : Op)
    (s0 s : CompilationStateImpl) :
  is_OpAddCallback op = false ->
  account aborted s0 s ->
  account (aborted || is_OpAbort op) s0 (step op s).
Proof.
  intros H (pre & fin & D & B & [(F & C & N) | (C & R)]).
  - (* the callbacks of [s0] are registered still *)
    subst fin. rewrite app_nil_r in D.
    destruct (Op_eq_OnFinishedUnit op) as [-> | NO].
    { simpl.
      destruct (OnFinishedUnit_rounds s) as (events & Fr & De & Ce & Ev).
      cbv zeta in Fr, De, Ce, Ev. rewrite C in De, Ce.
      assert (Shapes : events = [] \/ events = [kFinishedBaselineCompilation] \/
                       events = [kFinishedTopTierCompilation] \/
                       events = [kFinishedBaselineCompilation;
                                 kFinishedTopTierCompilation]).
      { rewrite Ev.
        destruct (is_tiering_unit s); [destruct (_ =? 0); auto |].
        destruct (_ =? 0); [| auto]. destruct (is_tiering_mode s); auto. }
      clear Ev.
      destruct Shapes as [-> | [-> | [-> | ->]]]; simpl in De, Ce;
        rewrite ?app_nil_r in De.
      - exists pre, []. rewrite De, D.
        split; [now rewrite ?app_nil_r, <- ?app_assoc |]. split; [exact B |]. left.
        split; [reflexivity |]. split; [exact Ce |].
        rewrite (count_fired_app kFailedCompilation s _ [] Fr); auto.
      - exists (pre ++ notify_all (callbacks_ s0) kFinishedBaselineCompilation None), [].
        rewrite De, D.
        split; [now rewrite ?app_nil_r, <- ?app_assoc |].
        split; [apply Forall_app; split;
                [exact B | apply baseline_deliveries_notify_all] |].
        left. split; [reflexivity |]. split; [exact Ce |].
        rewrite (count_fired_app kFailedCompilation s _ _ Fr); auto.
        intros [E | []]; discriminate E.
      - exists pre, (notify_all (callbacks_ s0) kFinishedTopTierCompilation None).
        rewrite De, D.
        split; [now rewrite ?app_nil_r, <- ?app_assoc |]. split; [exact B |].
        right. split; [exact Ce | now left].
      - exists (pre ++ notify_all (callbacks_ s0) kFinishedBaselineCompilation None),
               (notify_all (callbacks_ s0) kFinishedTopTierCompilation None).
        rewrite De, D.
        split; [now rewrite ?app_nil_r, <- ?app_assoc |].
        split; [apply Forall_app; split;
                [exact B | apply baseline_deliveries_notify_all] |].
        right. split; [exact Ce | now left]. }
    destruct (is_OpAbort op) eqn:A.
    { destruct op; try discriminate A. simpl.
      destruct (Abort_callbacks s) as (Da & Ca).
      exists pre, []. rewrite Da, D.
      split; [now rewrite ?app_nil_r, <- ?app_assoc |]. split; [exact B |].
      right. split; [exact Ca |]. right. right. split; [reflexivity |].
      apply orb_true_r. }
    rewrite orb_false_r.
    assert (DR : op = OpRunForegroundTask \/ op <> OpRunForegroundTask)
      by (destruct op; auto; right; discriminate).
    destruct DR as [-> | NR].
    { simpl.
      destruct (RunForegroundTask_round s) as [(Dr & Cr & Fr) | (Dr & Cr & Fl)];
        cbv zeta in *.
      - exists pre, []. rewrite Dr, D.
        split; [now rewrite ?app_nil_r, <- ?app_assoc |]. split; [exact B |]. left.
        split; [reflexivity |]. split; [congruence |].
        unfold count_fired in *. now rewrite Fr.
      - exists pre, (notify_all (callbacks_ s0) kFailedCompilation
                       (GetCompileError is_set LookupFunctionName GetNameOrNull
                          (RunForegroundTask is_set LookupFunctionName
                             GetNameOrNull s))).
        rewrite Dr, D, C.
        split; [now rewrite ?app_nil_r, <- ?app_assoc |]. split; [exact B |].
        right. split; [exact Cr |]. right. left. split; [reflexivity | exact Fl]. }
    destruct (quiet_step op s H NO A NR) as (Dq & Cq & Fq).
    exists pre, []. rewrite Dq, D.
    split; [now rewrite ?app_nil_r, <- ?app_assoc |]. split; [exact B |]. left.
    split; [reflexivity |]. split; [congruence |].
    unfold count_fired in *. now rewrite Fq.
  - (* no callback is left *)
    destruct (delivery_effect_no_callbacks s _
                (delivery_effect_step is_set LookupFunctionName GetNameOrNull
                   op s H) C) as (D' & C').
    exists pre, fin. rewrite D', D.
    split; [now rewrite ?app_nil_r, <- ?app_assoc |]. split; [exact B |].
    right. split; [exact C' |].
    destruct R as [R | [(R & Fl) | (R & A)]].
    + now left.
    + right. left.
      destruct (GetCompileError_step op s Fl) as (G & Fl').
      rewrite G. auto.
    + right. right. split; [exact R |]. subst aborted. reflexivity.
Qed.

Lemma failure_round_account_run (ops : list Op) :
  forall (aborted : bool) (s0 s : CompilationStateImpl),
  Forall (fun op => is_OpAddCallback op = false) ops ->
  account aborted s0 s ->
  account (aborted || existsb is_OpAbort ops) s0 (run ops s).
Proof.
  induction ops as [| op ops IH]; intros aborted s0 s F A; simpl.
  - now rewrite orb_false_r.
  - inversion F as [| ? ? H F']; subst.
    rewrite orb_assoc. apply IH; [exact F' |].
    now apply failure_round_account_step.
Qed.

End FailureRound.

Lemma existsb_repeat_RunForegroundTask (n : nat) :
  existsb is_OpAbort (repeat OpRunForegroundTask n) = false.
Proof. induction n; simpl; auto. Qed.

Lemma Forall_repeat_RunForegroundTask (n : nat) :
  Forall (fun op => is_OpAddCallback op = false) (repeat OpRunForegroundTask n).
Proof. induction n; simpl; constructor; auto. Qed.


Section FailureDeliveries.

Context {WireBytesRef : Type}.
Variable is_set : WireBytesRef -> bool.
Variable LookupFunctionName : string -> Z -> WireBytesRef.
Variable GetNameOrNull : string -> WireBytesRef -> string.

Local Abbreviation run := (run is_set LookupFunctionName GetNameOrNull).
Local Abbreviation drain_foreground :=
  (drain_foreground is_set LookupFunctionName GetNameOrNull).


End FailureDeliveries.


(** * Further properties of the code *)

(** ** [in_bounds] *)

Lemma wrap_overflow (z : Z) :
  SizeT.modulus <= z < 2 * SizeT.modulus -> SizeT.wrap z = z - SizeT.modulus.
Proof.
  intros H. unfold SizeT.wrap.
  replace z with (z - SizeT.modulus + 1 * SizeT.modulus) at 1 by ring.
  rewrite Z_mod_plus_full. apply Z.mod_small. lia.
Qed.

(** X1: [in_bounds] answers whether [offset + size <= upper] holds of the
    numbers themselves: a sum that overflows [size_t] is rejected by the
    second comparison. *)
Theorem in_bounds_iff_sum_within (offset size upper : Z) :
  0 <= offset < 2 ^ 32 ->
  SizeT.in_range size ->
  SizeT.in_range upper ->
  (in_bounds offset size upper = true <-> offset + size <= upper).
Proof.
  unfold SizeT.in_range, in_bounds, SizeT.add. intros Ho Hs Hu.
  assert (M : 2 ^ 32 < SizeT.modulus) by reflexivity.
  rewrite andb_true_iff, Z.leb_le, Z.leb_le.
  destruct (Z_lt_ge_dec (offset + size) SizeT.modulus) as [L | G].
  - rewrite wrap_small by (unfold SizeT.in_range; lia). lia.
  - rewrite wrap_overflow by lia. lia.
Qed.

Lemma in_bounds_iff_sum_within_witness :
  in_bounds 4 4 8 = true /\ in_bounds 5 4 8 = false /\
  in_bounds 1 SizeT.max 8 = false.
Proof.
  assert (R : forall z, 0 <= z <= SizeT.max -> SizeT.in_range z)
    by (unfold SizeT.in_range, SizeT.max; intros; lia).
  assert (M : 8 <= SizeT.max) by (unfold SizeT.max, SizeT.modulus; simpl; lia).
  assert (H32 : forall z, 0 <= z <= 5 -> 0 <= z < 2 ^ 32) by (intros; lia).
  pose proof (in_bounds_iff_sum_within 4 4 8 (H32 4 ltac:(lia))
                (R 4 ltac:(lia)) (R 8 ltac:(lia))) as A.
  pose proof (in_bounds_iff_sum_within 5 4 8 (H32 5 ltac:(lia))
                (R 4 ltac:(lia)) (R 8 ltac:(lia))) as B.
  pose proof (in_bounds_iff_sum_within 1 SizeT.max 8 (H32 1 ltac:(lia))
                (R SizeT.max ltac:(lia)) (R 8 ltac:(lia))) as C.
  split; [apply A; lia |].
  split.
  - destruct (in_bounds 5 4 8); [| reflexivity].
    destruct B as [B _]. specialize (B eq_refl). lia.
  - destruct (in_bounds 1 SizeT.max 8); [| reflexivity].
    destruct C as [C _]. specialize (C eq_refl). lia.
Defined.

(** ** The pending queues are stacks, baseline first *)

Lemma back_last {A : Type} (v : list A) (x : A) : back (v ++ [x]) = Some x.
Proof.
  induction v as [| y v IH]; [reflexivity |].
  simpl. destruct (v ++ [x]) eqn:E; [destruct v; discriminate E | exact IH].
Qed.

Lemma back_None {A : Type} (v : list A) : back v = None <-> v = [].
Proof.
  split; [| now intros ->].
  destruct v as [| x v] using rev_ind; [reflexivity |].
  rewrite back_last. discriminate.
Qed.

Lemma back_Some {A : Type} (v : list A) (x : A) :
  back v = Some x <-> exists v', v = v' ++ [x].
Proof.
  split.
  - destruct v as [| y v _] using rev_ind; [discriminate |].
    rewrite back_last. intros [= ->]. now exists v.
  - intros (v' & ->). apply back_last.
Qed.

Lemma pop_back_last {A : Type} (v : list A) (x : A) : pop_back (v ++ [x]) = v.
Proof. apply removelast_last. Qed.

(** The cases of [GetNextCompilationUnit]. *)
Lemma GetNextCompilationUnit_cases (s : CompilationStateImpl) :
  let r := GetNextCompilationUnit s in
  (fst r = None <->
   baseline_compilation_units_ s = [] /\ tiering_compilation_units_ s = []) /\
  (fst r = None -> snd r = s) /\
  (forall v unit,
     baseline_compilation_units_ s = v ++ [unit] ->
     r = (Some unit, set_baseline_compilation_units v s)) /\
  (forall v unit,
     baseline_compilation_units_ s = [] ->
     tiering_compilation_units_ s = v ++ [unit] ->
     r = (Some unit, set_tiering_compilation_units v s)).
Proof.
  cbv zeta. unfold GetNextCompilationUnit.
  destruct (baseline_compilation_units_ s) as [| b bs] eqn:B; cbn [empty].
  - destruct (back (tiering_compilation_units_ s)) as [u |] eqn:T; simpl.
    + apply back_Some in T. destruct T as (v' & T). rewrite T.
      split; [| split; [| split]].
      * split; [discriminate | intros (_ & E); destruct v'; discriminate E].
      * discriminate.
      * intros v unit E. destruct v; discriminate E.
      * intros v unit _ E. apply app_inj_tail in E. destruct E as (-> & ->).
        now rewrite pop_back_last.
    + apply back_None in T. rewrite T.
      split; [| split; [| split]].
      * split; auto.
      * reflexivity.
      * intros v unit E. destruct v; discriminate E.
      * intros v unit _ E. destruct v; discriminate E.
  - destruct (back (b :: bs)) as [u |] eqn:Bk.
    + apply back_Some in Bk. destruct Bk as (v' & Bk). rewrite Bk.
      cbn [fst snd].
      split; [| split; [| split]].
      * split; [discriminate | intros (E & _); destruct v'; discriminate E].
      * discriminate.
      * intros v unit E. apply app_inj_tail in E. destruct E as (-> & ->).
        now rewrite pop_back_last.
      * intros v unit E. destruct v'; discriminate E.
    + apply back_None in Bk. discriminate Bk.
Qed.

(** X2: [GetNextCompilationUnit] returns nothing exactly when both pending
    vectors are empty, and then changes nothing; otherwise it takes the last
    unit of the baseline vector, or, that one being empty, the last unit of
    the tiering vector, and removes that unit and nothing else. *)
Theorem GetNextCompilationUnit_takes_last_baseline_first (s : CompilationStateImpl) :
  let r := GetNextCompilationUnit s in
  (fst r = None <->
   baseline_compilation_units_ s = [] /\ tiering_compilation_units_ s = []) /\
  (fst r = None -> snd r = s) /\
  (forall v unit,
     baseline_compilation_units_ s = v ++ [unit] ->
     r = (Some unit, set_baseline_compilation_units v s)) /\
  (forall v unit,
     baseline_compilation_units_ s = [] ->
     tiering_compilation_units_ s = v ++ [unit] ->
     r = (Some unit, set_tiering_compilation_units v s)).
Proof. exact (GetNextCompilationUnit_cases s). Qed.

Lemma GetNextCompilationUnit_times_baseline (k : nat) (s : CompilationStateImpl) :
  GetNextCompilationUnit_times
    (List.length (baseline_compilation_units_ s) + k) s =
  (map Some (rev (baseline_compilation_units_ s)) ++
   fst (GetNextCompilationUnit_times k (set_baseline_compilation_units [] s)),
   snd (GetNextCompilationUnit_times k (set_baseline_compilation_units [] s))).
Proof.
  remember (baseline_compilation_units_ s) as b eqn:B.
  revert s B. induction b as [| u l IH] using rev_ind; intros s B.
  - simpl. replace (set_baseline_compilation_units [] s) with s
      by (destruct s; simpl in B; subst; reflexivity).
    now destruct (GetNextCompilationUnit_times k s).
  - rewrite length_app, rev_app_distr. simpl List.length.
    replace (List.length l + 1 + k)%nat with (S (List.length l + k)) by lia.
    simpl GetNextCompilationUnit_times.
    destruct (GetNextCompilationUnit_cases s)
      as (_ & _ & Hb & _).
    rewrite (Hb l u (eq_sym B)).
    specialize (IH (set_baseline_compilation_units l s) eq_refl).
    simpl baseline_compilation_units_ in IH. rewrite IH.
    replace (set_baseline_compilation_units []
               (set_baseline_compilation_units l s))
      with (set_baseline_compilation_units [] s) by (destruct s; reflexivity).
    reflexivity.
Qed.

Lemma GetNextCompilationUnit_times_tiering (s : CompilationStateImpl) :
  baseline_compilation_units_ s = [] ->
  GetNextCompilationUnit_times (List.length (tiering_compilation_units_ s)) s =
  (map Some (rev (tiering_compilation_units_ s)),
   set_tiering_compilation_units [] s).
Proof.
  remember (tiering_compilation_units_ s) as t eqn:T.
  revert s T. induction t as [| u l IH] using rev_ind; intros s T B.
  - simpl. destruct s; simpl in *; subst; reflexivity.
  - rewrite length_app, rev_app_distr. simpl List.length.
    replace (List.length l + 1)%nat with (S (List.length l)) by lia.
    simpl GetNextCompilationUnit_times.
    destruct (GetNextCompilationUnit_cases s)
      as (_ & _ & _ & Ht).
    rewrite (Ht l u B (eq_sym T)).
    specialize (IH (set_tiering_compilation_units l s) eq_refl B).
    simpl tiering_compilation_units_ in IH. rewrite IH.
    replace (set_tiering_compilation_units []
               (set_tiering_compilation_units l s))
      with (set_tiering_compilation_units [] s) by (destruct s; reflexivity).
    reflexivity.
Qed.

(** X3: As many calls of [GetNextCompilationUnit] as there are pending units
    return every pending unit once: the baseline units from the last added
    to the first, then the tiering units likewise.  They leave both vectors
    empty and nothing else changed, and the call after them returns
    nothing. *)
Theorem GetNextCompilationUnit_drains_both_queues (s : CompilationStateImpl) :
  let n := (List.length (baseline_compilation_units_ s) +
            List.length (tiering_compilation_units_ s))%nat in
  let r := GetNextCompilationUnit_times n s in
  fst r = map Some (rev (baseline_compilation_units_ s) ++
                    rev (tiering_compilation_units_ s)) /\
  snd r = set_tiering_compilation_units []
            (set_baseline_compilation_units [] s) /\
  GetNextCompilationUnit (snd r) = (None, snd r).
Proof.
  cbv zeta. rewrite GetNextCompilationUnit_times_baseline.
  pose proof (GetNextCompilationUnit_times_tiering
                (set_baseline_compilation_units [] s) eq_refl) as T.
  simpl tiering_compilation_units_ in T. rewrite T. simpl fst. simpl snd.
  rewrite map_app. repeat split.
Qed.

(** ** Finished units: which vector is served *)

Lemma baseline_compilation_finished_ScheduleUnitForFinishing
    (unit : WasmCompilationUnit) (tier : ExecutionTier) (s : CompilationStateImpl) :
  baseline_compilation_finished (ScheduleUnitForFinishing unit tier s) =
  baseline_compilation_finished s.
Proof.
  destruct s. unfold baseline_compilation_finished. unfold_ops. simpl.
  split_tests; reflexivity.
Qed.

Lemma finish_queues_ScheduleUnitForFinishing
    (unit : WasmCompilationUnit) (tier : ExecutionTier) (s : CompilationStateImpl) :
  let s1 := ScheduleUnitForFinishing unit tier s in
  if CompileMode_eqb (compile_mode_ s) kTiering && ExecutionTier_eqb tier kOptimized
  then tiering_finish_units_ s1 = tiering_finish_units_ s ++ [unit] /\
       baseline_finish_units_ s1 = baseline_finish_units_ s
  else baseline_finish_units_ s1 = baseline_finish_units_ s ++ [unit] /\
       tiering_finish_units_ s1 = tiering_finish_units_ s.
Proof.
  destruct s. unfold_ops. simpl. split_tests; auto.
Qed.

Lemma GetNextExecutedUnit_last (s : CompilationStateImpl)
    (v : list WasmCompilationUnit) (unit : WasmCompilationUnit) :
  finish_units s = v ++ [unit] ->
  GetNextExecutedUnit s = (Some unit, set_finish_units v s).
Proof.
  intros E. unfold GetNextExecutedUnit.
  now rewrite E, back_last, pop_back_last.
Qed.

Lemma GetNextExecutedUnit_empty (s : CompilationStateImpl) :
  finish_units s = [] -> GetNextExecutedUnit s = (None, s).
Proof. intros E. unfold GetNextExecutedUnit. now rewrite E. Qed.

Lemma finish_queues_set_finish_units (v : list WasmCompilationUnit)
    (s : CompilationStateImpl) :
  (baseline_compilation_finished s = true ->
   tiering_finish_units_ (set_finish_units v s) = v /\
   baseline_finish_units_ (set_finish_units v s) = baseline_finish_units_ s) /\
  (baseline_compilation_finished s = false ->
   baseline_finish_units_ (set_finish_units v s) = v /\
   tiering_finish_units_ (set_finish_units v s) = tiering_finish_units_ s).
Proof. unfold set_finish_units. split; intros ->; simpl; auto. Qed.

(** X4: A unit handed to [ScheduleUnitForFinishing] is the next one
    [GetNextExecutedUnit] returns, and taking it restores both vectors of
    finished units, when it was put on the vector being served: the baseline
    vector while [baseline_compilation_finished] is false, the tiering
    vector once it is true.  An optimized unit of a tiering compilation that
    arrives while baseline compilation is still unfinished is held back:
    [GetNextExecutedUnit] returns what it would have returned without it,
    and the unit stays on the tiering vector. *)
Theorem ScheduleUnitForFinishing_then_GetNextExecutedUnit
    (unit : WasmCompilationUnit) (tier : ExecutionTier) (s : CompilationStateImpl) :
  let s1 := ScheduleUnitForFinishing unit tier s in
  let r := GetNextExecutedUnit s1 in
  (baseline_compilation_finished s = false ->
   compile_mode_ s = kRegular \/ tier = kBaseline ->
   fst r = Some unit /\
   baseline_finish_units_ (snd r) = baseline_finish_units_ s /\
   tiering_finish_units_ (snd r) = tiering_finish_units_ s) /\
  (baseline_compilation_finished s = true ->
   compile_mode_ s = kTiering -> tier = kOptimized ->
   fst r = Some unit /\
   baseline_finish_units_ (snd r) = baseline_finish_units_ s /\
   tiering_finish_units_ (snd r) = tiering_finish_units_ s) /\
  (baseline_compilation_finished s = false ->
   compile_mode_ s = kTiering -> tier = kOptimized ->
   fst r = fst (GetNextExecutedUnit s) /\
   tiering_finish_units_ (snd r) = tiering_finish_units_ s ++ [unit]).
Proof.
  cbv zeta.
  pose proof (baseline_compilation_finished_ScheduleUnitForFinishing unit tier s) as F.
  pose proof (finish_queues_ScheduleUnitForFinishing unit tier s) as Q.
  cbv zeta in Q.
  set (s1 := ScheduleUnitForFinishing unit tier s) in *.
  split; [| split].
  - intros B M. rewrite B in F.
    assert (R : CompileMode_eqb (compile_mode_ s) kTiering &&
                ExecutionTier_eqb tier kOptimized = false)
      by (destruct M as [-> | ->]; [reflexivity | apply andb_false_r]).
    rewrite R in Q. destruct Q as (Qb & Qt).
    rewrite (GetNextExecutedUnit_last s1 (baseline_finish_units_ s) unit)
      by (unfold finish_units; now rewrite F).
    destruct (finish_queues_set_finish_units (baseline_finish_units_ s) s1)
      as (_ & H). specialize (H F). simpl. intuition congruence.
  - intros B M T. rewrite B in F. rewrite M, T in Q. simpl in Q.
    destruct Q as (Qt & Qb).
    rewrite (GetNextExecutedUnit_last s1 (tiering_finish_units_ s) unit)
      by (unfold finish_units; now rewrite F).
    destruct (finish_queues_set_finish_units (tiering_finish_units_ s) s1)
      as (H & _). specialize (H F). simpl. intuition congruence.
  - intros B M T. rewrite B in F. rewrite M, T in Q. simpl in Q.
    destruct Q as (Qt & Qb).
    assert (E : finish_units s1 = finish_units s)
      by (unfold finish_units; now rewrite F, B).
    unfold GetNextExecutedUnit. rewrite E.
    destruct (back (finish_units s)); simpl; [| auto].
    destruct (finish_queues_set_finish_units (pop_back (finish_units s)) s1)
      as (_ & H). specialize (H F). intuition congruence.
Qed.

Lemma ScheduleUnitForFinishing_then_GetNextExecutedUnit_witness :
  fst (GetNextExecutedUnit
         (ScheduleUnitForFinishing (mkUnit 5 kBaseline) kBaseline tiering_state)) =
    Some (mkUnit 5 kBaseline) /\
  fst (GetNextExecutedUnit
         (ScheduleUnitForFinishing (mkUnit 5 kOptimized) kOptimized tiering_state)) =
    None.
Proof.
  pose proof (ScheduleUnitForFinishing_then_GetNextExecutedUnit
                (mkUnit 5 kBaseline) kBaseline tiering_state) as (A & _).
  pose proof (ScheduleUnitForFinishing_then_GetNextExecutedUnit
                (mkUnit 5 kOptimized) kOptimized tiering_state) as (_ & _ & B).
  cbv zeta in A, B.
  split.
  - exact (proj1 (A eq_refl (or_intror eq_refl))).
  - exact (proj1 (B eq_refl eq_refl eq_refl)).
Defined.

(** ** [Abort] *)

Lemma filter_keep_idempotent (l : list Task) :
  filter (fun t => negb (is_BackgroundCompileTask t))
    (filter (fun t => negb (is_BackgroundCompileTask t)) l) =
  filter (fun t => negb (is_BackgroundCompileTask t)) l.
Proof.
  induction l as [| t l IH]; [reflexivity |].
  simpl. destruct (negb (is_BackgroundCompileTask t)) eqn:E; simpl;
    rewrite ?E, IH; reflexivity.
Qed.

Lemma Abort_idempotent (s : CompilationStateImpl) : Abort (Abort s) = Abort s.
Proof.
  destruct s as [mode err bcu tcu fin nbg bfu tfu cbs mbg ob ot flag wb fg wk fi de].
  unfold Abort, background_task_manager_CancelAndWait, SetError, push_back.
  destruct err, cbs; simpl;
    rewrite ?filter_app, ?filter_keep_idempotent; simpl;
    rewrite ?app_nil_r; reflexivity.
Qed.

(** X5: [Abort] is idempotent.  It latches the error [Compilation aborted]
    unless an error was latched before, which then stays; it leaves no
    callback registered and no background task waiting in either queue; it
    delivers no event, and after it no schedule of operations (other than a
    new [AddCallback]) delivers any: no more callbacks after abort. *)
Theorem Abort_is_idempotent_and_ends_deliveries
    {WireBytesRef : Type} (is_set : WireBytesRef -> bool)
    (LookupFunctionName : string -> Z -> WireBytesRef)
    (GetNameOrNull : string -> WireBytesRef -> string)
    (s : CompilationStateImpl) :
  Abort (Abort s) = Abort s /\
  compile_error_ (Abort s) =
    match compile_error_ s with
    | Some error => Some error
    | None => Some (mkCompilationError 0 (mkError 0 "Compilation aborted"))
    end /\
  callbacks_ (Abort s) = [] /\
  ~ In BackgroundCompileTask (worker_tasks (Abort s)) /\
  ~ In BackgroundCompileTask (foreground_tasks (Abort s)) /\
  (forall ops : list Op,
     Forall (fun op => is_OpAddCallback op = false) ops ->
     delivered (run is_set LookupFunctionName GetNameOrNull ops (Abort s)) =
     delivered s).
Proof.
  assert (C : callbacks_ (Abort s) = [] /\ delivered (Abort s) = delivered s).
  { destruct s as [mode err bcu tcu fin nbg bfu tfu cbs mbg ob ot flag wb fg wk fi de].
    unfold_ops. simpl. destruct err, cbs; simpl; auto. }
  destruct C as (C & D).
  split; [apply Abort_idempotent |].
  split.
  { destruct s as [mode err bcu tcu fin nbg bfu tfu cbs mbg ob ot flag wb fg wk fi de].
    unfold_ops. simpl. destruct err, cbs; reflexivity. }
  split; [exact C |].
  split; [| split].
  - destruct s as [mode err bcu tcu fin nbg bfu tfu cbs mbg ob ot flag wb fg wk fi de].
    unfold_ops. simpl.
    destruct err, cbs; simpl; rewrite filter_In; intros (_ & H); discriminate H.
  - destruct s as [mode err bcu tcu fin nbg bfu tfu cbs mbg ob ot flag wb fg wk fi de].
    unfold_ops. simpl.
    destruct err, cbs; simpl; rewrite ?in_app_iff, ?filter_In; simpl;
      intuition discriminate.
  - intros ops F.
    destruct (no_callbacks_run is_set LookupFunctionName GetNameOrNull
                ops (Abort s) F C) as (E & _).
    congruence.
Qed.

Lemma Abort_is_idempotent_and_ends_deliveries_witness :
  delivered (run sample_is_set sample_LookupFunctionName sample_GetNameOrNull
               [OpRunForegroundTask; OpSetNumberOfFunctionsToCompile 1;
                OpOnFinishedUnit; OpRunForegroundTask]
               (Abort state_with_two_callbacks)) = [].
Proof.
  destruct (Abort_is_idempotent_and_ends_deliveries
              sample_is_set sample_LookupFunctionName sample_GetNameOrNull
              state_with_two_callbacks) as (_ & _ & _ & _ & _ & H).
  apply H. repeat constructor.
Defined.

(** ** What holds in every state a compilation can reach *)

Section Reachable.

Context {WireBytesRef : Type}.
Variable is_set : WireBytesRef -> bool.
Variable LookupFunctionName : string -> Z -> WireBytesRef.
Variable GetNameOrNull : string -> WireBytesRef -> string.

Local Abbreviation step := (step is_set LookupFunctionName GetNameOrNull).
Local Abbreviation run := (run is_set LookupFunctionName GetNameOrNull).

Lemma run_invariant (P : CompilationStateImpl -> Prop) :
  (forall op s, P s -> P (step op s)) ->
  forall ops s, P s -> P (run ops s).
Proof.
  intros Hstep ops. induction ops as [| op ops IH]; intros s H; simpl; auto.
Qed.

Lemma tiering_counter_behind_step (op : Op) (s : CompilationStateImpl) :
  tiering_counter_behind s -> tiering_counter_behind (step op s).
Proof.
  unfold tiering_counter_behind. intros I M.
  rewrite compile_mode_step in M. specialize (I M).
  destruct (Op_eq_OnFinishedUnit op) as [-> | N].
  - simpl.
    destruct (OnFinishedUnit_cases s) as [(T & B & _) | (T & B & Tc & _)].
    + apply is_tiering_unit_true in T. destruct T as (_ & B0). congruence.
    + apply is_tiering_unit_false in T. rewrite Tc. intros _.
      destruct T as [T | T]; [congruence | auto].
  - destruct (is_OpSetNumberOfFunctionsToCompile op) eqn:E.
    + destruct op; try discriminate E.
      destruct s. simpl in *. subst. simpl. auto.
    + destruct (counters_step is_set LookupFunctionName GetNameOrNull op s E N)
        as (-> & ->). exact I.
Qed.

Lemma tiering_side_unused_step (op : Op) (s : CompilationStateImpl) :
  tiering_side_unused s -> tiering_side_unused (step op s).
Proof.
  unfold tiering_side_unused. intros I M.
  rewrite compile_mode_step in M. specialize (I M).
  destruct I as (I1 & I2 & I3).
  destruct s as [mode err bcu tcu fin nbg bfu tfu cbs mbg ob ot flag wb fg wk fi de].
  simpl in *. subst.
  destruct op; unfold_ops; unfold baseline_compilation_finished; simpl;
    split_tests; simpl; auto.
Qed.

(** C4. In every state of the counters that the compilation state can be
    in, whatever the compile mode (the state the constructor leaves, and
    every state that any schedule of the operations makes of it),
    [baseline_compilation_finished] returns true exactly when the baseline
    counter is zero.  The second disjunct of the source, mode [kTiering] and
    tiering counter zero, never decides: the counters are written by
    [SetNumberOfFunctionsToCompile], which sets both, and by
    [OnFinishedUnit], which touches the tiering counter only when the
    baseline counter is zero, so the tiering counter is zero only when the
    baseline counter is.  For every state: the predicate is the source's
    disjunction, and it is the baseline counter being zero wherever the
    tiering counter is not zero before the baseline counter is, as in
    every state of mode [kRegular]. *)
Theorem baseline_compilation_finished_iff_baseline_done
    (tier_up wasm : bool) (flag threads : Z) (bytes : string) (ops : list Op) :
  let s := run ops (new_CompilationStateImpl tier_up wasm flag threads bytes) in
  (baseline_compilation_finished s = true <-> outstanding_baseline_units_ s = 0) /\
  (compile_mode_ s = kTiering -> outstanding_tiering_units_ s = 0 ->
   outstanding_baseline_units_ s = 0) /\
  (forall s1,
     baseline_compilation_finished s1 = true <->
     outstanding_baseline_units_ s1 = 0 \/
     (compile_mode_ s1 = kTiering /\ outstanding_tiering_units_ s1 = 0)) /\
  (forall s1,
     tiering_counter_behind s1 ->
     (baseline_compilation_finished s1 = true <->
      outstanding_baseline_units_ s1 = 0)) /\
  (forall s1,
     compile_mode_ s1 = kRegular ->
     (baseline_compilation_finished s1 = true <->
      outstanding_baseline_units_ s1 = 0)).
Proof.
  cbv zeta.
  assert (Behind : forall s1,
             tiering_counter_behind s1 ->
             (baseline_compilation_finished s1 = true <->
              outstanding_baseline_units_ s1 = 0)).
  { intros s1 I. destruct (baseline_compilation_finished_cases s1) as (E & _).
    rewrite E. unfold tiering_counter_behind in I. split; [| auto].
    intros [B | (M & T)]; [exact B |].
    destruct (Z.eq_dec (outstanding_baseline_units_ s1) 0) as [B | B];
      [exact B | elim (I M B T)]. }
  assert (I : tiering_counter_behind
                (run ops (new_CompilationStateImpl tier_up wasm flag threads bytes))).
  { apply run_invariant; [apply tiering_counter_behind_step |].
    unfold tiering_counter_behind. simpl. intros _ H. now elim H. }
  split; [now apply Behind |].
  split.
  { intros M T.
    destruct (Z.eq_dec (outstanding_baseline_units_
                          (run ops (new_CompilationStateImpl tier_up wasm flag
                                      threads bytes))) 0) as [B | B];
      [exact B | elim (I M B T)]. }
  split; [intros s1; apply baseline_compilation_finished_cases |].
  split; [exact Behind |].
  intros s1 M. now apply baseline_compilation_finished_cases.
Qed.

(** A tiering compilation of one function: the predicate turns true with
    the baseline unit, while the tiering unit is still outstanding. *)
Example baseline_compilation_finished_tiering :
  baseline_compilation_finished tiering_state = false /\
  baseline_compilation_finished (OnFinishedUnit tiering_state) = true /\
  outstanding_baseline_units_ (OnFinishedUnit tiering_state) = 0 /\
  outstanding_tiering_units_ (OnFinishedUnit tiering_state) = 1.
Proof. repeat split. Qed.

(** X6: In every state that any schedule of operations reaches from the state
    the constructor leaves, [baseline_compilation_finished] holds exactly
    when the baseline counter is zero: the tiering counter never reaches
    zero before the baseline counter does. *)
Theorem baseline_compilation_finished_of_reachable
    (tier_up wasm : bool) (flag threads : Z) (bytes : string) (ops : list Op) :
  let s := run ops (new_CompilationStateImpl tier_up wasm flag threads bytes) in
  baseline_compilation_finished s = true <-> outstanding_baseline_units_ s = 0.
Proof.
  cbv zeta.
  assert (I : tiering_counter_behind
                (run ops (new_CompilationStateImpl tier_up wasm flag threads bytes))).
  { apply run_invariant; [apply tiering_counter_behind_step |].
    unfold tiering_counter_behind. simpl. intros _ H. now elim H. }
  destruct (baseline_compilation_finished_cases
              (run ops (new_CompilationStateImpl tier_up wasm flag threads bytes)))
    as (E & _).
  rewrite E. unfold tiering_counter_behind in I. split; [| auto].
  intros [B | (M & T)]; [exact B |].
  destruct (Z.eq_dec (outstanding_baseline_units_
                        (run ops (new_CompilationStateImpl tier_up wasm flag
                                    threads bytes))) 0) as [B | B]; [exact B |].
  elim (I M B T).
Qed.

(** X7: The mode is fixed by the constructor, and a compilation in regular mode
    never uses the tiering side: in every state reached from the
    constructor's, the tiering counter is zero and the vectors of pending
    and of finished tiering units are empty. *)
Theorem regular_mode_never_uses_tiering_side
    (tier_up wasm : bool) (flag threads : Z) (bytes : string) (ops : list Op) :
  let s := run ops (new_CompilationStateImpl tier_up wasm flag threads bytes) in
  compile_mode_ s = (if tier_up && wasm then kTiering else kRegular) /\
  (tier_up && wasm = false ->
   outstanding_tiering_units_ s = 0 /\
   tiering_compilation_units_ s = [] /\
   tiering_finish_units_ s = []).
Proof.
  cbv zeta.
  assert (M : compile_mode_
                (run ops (new_CompilationStateImpl tier_up wasm flag threads bytes))
              = if tier_up && wasm then kTiering else kRegular).
  { apply (run_invariant
             (fun s => compile_mode_ s =
                       if tier_up && wasm then kTiering else kRegular));
      [| reflexivity].
    intros op s H. now rewrite compile_mode_step. }
  split; [exact M |].
  intros R. rewrite R in M.
  apply (run_invariant tiering_side_unused); [apply tiering_side_unused_step | |].
  - unfold tiering_side_unused. simpl. auto.
  - exact M.
Qed.

End Reachable.

(** ** When the events fire *)

Lemma OnFinishedUnit_times_add (a b : nat) (s : CompilationStateImpl) :
  OnFinishedUnit_times (a + b) s = OnFinishedUnit_times b (OnFinishedUnit_times a s).
Proof. revert s. induction a as [| a IH]; intros s; simpl; auto. Qed.

Lemma compile_mode_OnFinishedUnit (s : CompilationStateImpl) :
  compile_mode_ (OnFinishedUnit s) = compile_mode_ s.
Proof.
  exact (compile_mode_step (fun _ : unit => false) (fun _ _ => tt)
           (fun _ _ => EmptyString) OpOnFinishedUnit s).
Qed.

(** One call while baseline units are outstanding. *)
Lemma OnFinishedUnit_baseline_round (s : CompilationStateImpl) :
  0 < outstanding_baseline_units_ s < SizeT.modulus ->
  let s' := OnFinishedUnit s in
  outstanding_baseline_units_ s' = outstanding_baseline_units_ s - 1 /\
  outstanding_tiering_units_ s' = outstanding_tiering_units_ s /\
  fired s' = fired s ++
    (if outstanding_baseline_units_ s =? 1
     then kFinishedBaselineCompilation ::
          match compile_mode_ s with
          | kTiering => []
          | kRegular => [kFinishedTopTierCompilation]
          end
     else []).
Proof.
  intros R. cbv zeta.
  destruct (OnFinishedUnit_cases s) as [(T & _) | (T & B & Tc & F)].
  - apply is_tiering_unit_true in T. lia.
  - rewrite decr_pos in B by (unfold SizeT.in_range; lia).
    rewrite B in F. rewrite B, Tc, F. repeat split.
    f_equal. unfold is_tiering_mode.
    destruct (Z.eqb_spec (outstanding_baseline_units_ s - 1) 0),
             (Z.eqb_spec (outstanding_baseline_units_ s) 1); try lia;
      destruct (compile_mode_ s); reflexivity.
Qed.

(** One call in tiering mode once the baseline counter is zero. *)
Lemma OnFinishedUnit_tiering_round (s : CompilationStateImpl) :
  compile_mode_ s = kTiering ->
  outstanding_baseline_units_ s = 0 ->
  0 < outstanding_tiering_units_ s < SizeT.modulus ->
  let s' := OnFinishedUnit s in
  outstanding_baseline_units_ s' = 0 /\
  outstanding_tiering_units_ s' = outstanding_tiering_units_ s - 1 /\
  fired s' = fired s ++
    (if outstanding_tiering_units_ s =? 1
     then [kFinishedTopTierCompilation] else []).
Proof.
  intros M B0 R. cbv zeta.
  destruct (OnFinishedUnit_cases s) as [(T & B & Tc & F) | (T & _)].
  - rewrite decr_pos in Tc by (unfold SizeT.in_range; lia).
    rewrite Tc in F. rewrite B, Tc, F. repeat split; [exact B0 |].
    f_equal.
    destruct (Z.eqb_spec (outstanding_tiering_units_ s - 1) 0),
             (Z.eqb_spec (outstanding_tiering_units_ s) 1); try lia; reflexivity.
  - apply is_tiering_unit_false in T. destruct T; congruence.
Qed.

(** Fewer calls than baseline units outstanding: the counter counts down
    and nothing fires. *)
Lemma baseline_countdown (k : nat) (s : CompilationStateImpl) :
  Z.of_nat k < outstanding_baseline_units_ s < SizeT.modulus ->
  let s' := OnFinishedUnit_times k s in
  outstanding_baseline_units_ s' = outstanding_baseline_units_ s - Z.of_nat k /\
  outstanding_tiering_units_ s' = outstanding_tiering_units_ s /\
  compile_mode_ s' = compile_mode_ s /\
  fired s' = fired s.
Proof.
  revert s. induction k as [| k IH]; intros s R; cbv zeta.
  - simpl. repeat split. lia.
  - simpl OnFinishedUnit_times.
    destruct (OnFinishedUnit_baseline_round s ltac:(lia)) as (B & T & F).
    destruct (Z.eqb_spec (outstanding_baseline_units_ s) 1) as [E | _]; [lia |].
    rewrite app_nil_r in F.
    destruct (IH (OnFinishedUnit s) ltac:(lia)) as (B' & T' & M' & F').
    rewrite B', T', M', F', B, T, F, compile_mode_OnFinishedUnit.
    repeat split. lia.
Qed.

Lemma tiering_countdown (k : nat) (s : CompilationStateImpl) :
  compile_mode_ s = kTiering ->
  outstanding_baseline_units_ s = 0 ->
  Z.of_nat k < outstanding_tiering_units_ s < SizeT.modulus ->
  let s' := OnFinishedUnit_times k s in
  outstanding_baseline_units_ s' = 0 /\
  outstanding_tiering_units_ s' = outstanding_tiering_units_ s - Z.of_nat k /\
  compile_mode_ s' = kTiering /\
  fired s' = fired s.
Proof.
  revert s. induction k as [| k IH]; intros s M B0 R; cbv zeta.
  - simpl. repeat split; auto. lia.
  - simpl OnFinishedUnit_times.
    destruct (OnFinishedUnit_tiering_round s M B0 ltac:(lia)) as (B & T & F).
    destruct (Z.eqb_spec (outstanding_tiering_units_ s) 1) as [E | _]; [lia |].
    rewrite app_nil_r in F.
    assert (M1 : compile_mode_ (OnFinishedUnit s) = kTiering)
      by (now rewrite compile_mode_OnFinishedUnit).
    destruct (IH (OnFinishedUnit s) M1 B ltac:(lia)) as (B' & T' & M' & F').
    rewrite B', T', M', F', T, F. repeat split. lia.
Qed.

Lemma counters_SetNumberOfFunctionsToCompile (n : Z) (s : CompilationStateImpl) :
  outstanding_baseline_units_ (SetNumberOfFunctionsToCompile n s) = n /\
  outstanding_tiering_units_ (SetNumberOfFunctionsToCompile n s) =
    match compile_mode_ s with
    | kTiering => n
    | kRegular => outstanding_tiering_units_ s
    end.
Proof.
  unfold SetNumberOfFunctionsToCompile.
  destruct s as [mode err bcu tcu fin nbg bfu tfu cbs mbg ob ot flag wb fg wk fi de].
  simpl. destruct mode; simpl; split; reflexivity.
Qed.

Lemma rounds_app (callbacks : list callback_t) (events1 events2 : list CompilationEvent) :
  rounds callbacks (events1 ++ events2) =
  (fst (rounds callbacks events1) ++
   fst (rounds (snd (rounds callbacks events1)) events2),
   snd (rounds (snd (rounds callbacks events1)) events2)).
Proof.
  revert callbacks. induction events1 as [| e events1 IH]; intros callbacks.
  - simpl. now destruct (rounds callbacks events2).
  - simpl. rewrite IH. simpl. now rewrite app_assoc.
Qed.

(** The deliveries of one call of [OnFinishedUnit] are the rounds of the
    events it fires. *)
Lemma OnFinishedUnit_rounds_of_events (s : CompilationStateImpl) :
  exists events,
    fired (OnFinishedUnit s) = fired s ++ events /\
    delivered (OnFinishedUnit s) =
      delivered s ++ fst (rounds (callbacks_ s) events) /\
    callbacks_ (OnFinishedUnit s) = snd (rounds (callbacks_ s) events).
Proof.
  destruct (OnFinishedUnit_rounds s) as (events & Fr & De & Ce & Ev).
  cbv zeta in *. exists events. split; [exact Fr |].
  assert (Shapes : events = [] \/ events = [kFinishedBaselineCompilation] \/
                   events = [kFinishedTopTierCompilation] \/
                   events = [kFinishedBaselineCompilation;
                             kFinishedTopTierCompilation]).
  { rewrite Ev.
    destruct (is_tiering_unit s); [destruct (_ =? 0); auto |].
    destruct (_ =? 0); [| auto]. destruct (is_tiering_mode s); auto. }
  rewrite De, Ce.
  destruct Shapes as [-> | [-> | [-> | ->]]]; simpl;
    rewrite ?app_nil_r; split; reflexivity.
Qed.

(** And so are the deliveries of calls in a row. *)
Lemma OnFinishedUnit_times_rounds (k : nat) :
  forall s,
  exists events,
    fired (OnFinishedUnit_times k s) = fired s ++ events /\
    delivered (OnFinishedUnit_times k s) =
      delivered s ++ fst (rounds (callbacks_ s) events) /\
    callbacks_ (OnFinishedUnit_times k s) = snd (rounds (callbacks_ s) events).
Proof.
  induction k as [| k IH]; intros s.
  - exists []. simpl. rewrite !app_nil_r. auto.
  - destruct (OnFinishedUnit_rounds_of_events s) as (e1 & F1 & D1 & C1).
    destruct (IH (OnFinishedUnit s)) as (e2 & F2 & D2 & C2).
    exists (e1 ++ e2). simpl OnFinishedUnit_times.
    rewrite F2, D2, C2, F1, D1, C1, rounds_app. simpl.
    rewrite <- !app_assoc. auto.
Qed.

(** What was delivered and which callbacks are left, from what was fired. *)
Lemma OnFinishedUnit_times_delivered (k : nat) (s : CompilationStateImpl)
    (events : list CompilationEvent) :
  fired (OnFinishedUnit_times k s) = fired s ++ events ->
  delivered (OnFinishedUnit_times k s) =
    delivered s ++ fst (rounds (callbacks_ s) events) /\
  callbacks_ (OnFinishedUnit_times k s) = snd (rounds (callbacks_ s) events).
Proof.
  intros F. destruct (OnFinishedUnit_times_rounds k s) as (e & Fe & D & C).
  rewrite Fe in F. apply app_inv_head in F. subst e. auto.
Qed.

(** The calls of [NotifyOnEvent] that [n] functions give rise to. *)
Lemma events_fired_at_the_last_unit (n : nat) (s0 : CompilationStateImpl) :
  (0 < n)%nat ->
  Z.of_nat n < SizeT.modulus ->
  let s := SetNumberOfFunctionsToCompile (Z.of_nat n) s0 in
  (forall k, (k < n)%nat -> fired (OnFinishedUnit_times k s) = fired s0) /\
  match compile_mode_ s0 with
  | kRegular =>
      fired (OnFinishedUnit_times n s) =
        fired s0 ++ [kFinishedBaselineCompilation; kFinishedTopTierCompilation] /\
      outstanding_baseline_units_ (OnFinishedUnit_times n s) = 0
  | kTiering =>
      (forall k, (n <= k < 2 * n)%nat ->
         fired (OnFinishedUnit_times k s) =
           fired s0 ++ [kFinishedBaselineCompilation]) /\
      fired (OnFinishedUnit_times (2 * n) s) =
        fired s0 ++ [kFinishedBaselineCompilation; kFinishedTopTierCompilation] /\
      outstanding_baseline_units_ (OnFinishedUnit_times (2 * n) s) = 0 /\
      outstanding_tiering_units_ (OnFinishedUnit_times (2 * n) s) = 0
  end.
Proof.
  intros Hn Hm. cbv zeta.
  set (s := SetNumberOfFunctionsToCompile (Z.of_nat n) s0).
  destruct (counters_SetNumberOfFunctionsToCompile (Z.of_nat n) s0) as (B & T).
  fold s in B, T.
  assert (F : fired s = fired s0 /\ compile_mode_ s = compile_mode_ s0).
  { destruct s0. unfold s, SetNumberOfFunctionsToCompile. simpl.
    split_tests; auto. }
  destruct F as (F & M).
  (* the first n - 1 calls *)
  assert (Before : forall k, (k < n)%nat ->
            outstanding_baseline_units_ (OnFinishedUnit_times k s)
              = Z.of_nat n - Z.of_nat k /\
            outstanding_tiering_units_ (OnFinishedUnit_times k s)
              = outstanding_tiering_units_ s /\
            compile_mode_ (OnFinishedUnit_times k s) = compile_mode_ s0 /\
            fired (OnFinishedUnit_times k s) = fired s0).
  { intros k Hk.
    destruct (baseline_countdown k s ltac:(lia)) as (B' & T' & M' & F').
    rewrite B', T', M', F', B, M, F. auto. }
  split; [intros k Hk; apply (Before k Hk) |].
  (* the n-th call *)
  destruct (Before (n - 1)%nat ltac:(lia)) as (Bn & Tn & Mn & Fn).
  set (s1 := OnFinishedUnit_times (n - 1) s) in *.
  assert (En : OnFinishedUnit_times n s = OnFinishedUnit s1).
  { replace n with ((n - 1) + 1)%nat at 1 by lia.
    now rewrite OnFinishedUnit_times_add. }
  destruct (OnFinishedUnit_baseline_round s1 ltac:(lia)) as (B1 & T1 & F1).
  replace (outstanding_baseline_units_ s1 =? 1) with true in F1
    by (symmetry; apply Z.eqb_eq; lia).
  rewrite Mn, Fn in F1.
  destruct (compile_mode_ s0) eqn:M0.
  - rewrite En. split; [exact F1 | lia].
  - (* tiering: the calls n + 1 .. 2n *)
    set (s2 := OnFinishedUnit s1) in *.
    assert (M2 : compile_mode_ s2 = kTiering)
      by (unfold s2; now rewrite compile_mode_OnFinishedUnit).
    assert (B2 : outstanding_baseline_units_ s2 = 0) by lia.
    assert (T2 : outstanding_tiering_units_ s2 = Z.of_nat n) by congruence.
    assert (After : forall j, (j < n)%nat ->
              OnFinishedUnit_times (n + j) s = OnFinishedUnit_times j s2)
      by (intros j _; now rewrite OnFinishedUnit_times_add, En).
    split; [| split].
    + intros k Hk. replace k with (n + (k - n))%nat by lia.
      rewrite After by lia.
      destruct (tiering_countdown (k - n) s2 M2 B2 ltac:(lia)) as (_ & _ & _ & F').
      now rewrite F'.
    + destruct (tiering_countdown (n - 1) s2 M2 B2 ltac:(lia))
        as (B3 & T3 & M3 & F3).
      set (s3 := OnFinishedUnit_times (n - 1) s2) in *.
      assert (E2 : OnFinishedUnit_times (2 * n) s = OnFinishedUnit s3).
      { replace (2 * n)%nat with (n + ((n - 1) + 1))%nat by lia.
        now rewrite OnFinishedUnit_times_add, En, OnFinishedUnit_times_add. }
      destruct (OnFinishedUnit_tiering_round s3 M3 B3 ltac:(lia)) as (_ & _ & F4).
      replace (outstanding_tiering_units_ s3 =? 1) with true in F4
        by (symmetry; apply Z.eqb_eq; lia).
      rewrite E2, F4, F3, F1, <- app_assoc. reflexivity.
    + destruct (tiering_countdown (n - 1) s2 M2 B2 ltac:(lia))
        as (B3 & T3 & M3 & F3).
      set (s3 := OnFinishedUnit_times (n - 1) s2) in *.
      assert (E2 : OnFinishedUnit_times (2 * n) s = OnFinishedUnit s3).
      { replace (2 * n)%nat with (n + ((n - 1) + 1))%nat by lia.
        now rewrite OnFinishedUnit_times_add, En, OnFinishedUnit_times_add. }
      destruct (OnFinishedUnit_tiering_round s3 M3 B3 ltac:(lia)) as (B4 & T4 & _).
      rewrite E2. lia.
Qed.

(** X8: With [n] functions to compile, [0 < n], the events fire at the last
    unit and not before.  In regular mode the first [n - 1] calls of
    [OnFinishedUnit] fire nothing and the [n]-th fires
    [kFinishedBaselineCompilation] and then [kFinishedTopTierCompilation].
    In tiering mode the [n]-th call fires [kFinishedBaselineCompilation]
    alone, the calls after it up to the [2n - 1]-th fire nothing, and the
    [2n]-th fires [kFinishedTopTierCompilation].  Both counters are zero
    then.  So for the callbacks: none is called before the [n]-th call;
    that call, and in tiering mode the [2n]-th, calls every callback
    registered with the events it fires, and after
    [kFinishedTopTierCompilation] no callback is registered any more. *)
Theorem events_fire_at_the_last_unit (n : nat) (s0 : CompilationStateImpl) :
  (0 < n)%nat ->
  Z.of_nat n < SizeT.modulus ->
  let s := SetNumberOfFunctionsToCompile (Z.of_nat n) s0 in
  let baseline_round :=
    notify_all (callbacks_ s0) kFinishedBaselineCompilation None in
  let top_tier_round :=
    notify_all (callbacks_ s0) kFinishedTopTierCompilation None in
  (forall k, (k < n)%nat -> fired (OnFinishedUnit_times k s) = fired s0) /\
  match compile_mode_ s0 with
  | kRegular =>
      fired (OnFinishedUnit_times n s) =
        fired s0 ++ [kFinishedBaselineCompilation; kFinishedTopTierCompilation] /\
      outstanding_baseline_units_ (OnFinishedUnit_times n s) = 0
  | kTiering =>
      (forall k, (n <= k < 2 * n)%nat ->
         fired (OnFinishedUnit_times k s) =
           fired s0 ++ [kFinishedBaselineCompilation]) /\
      fired (OnFinishedUnit_times (2 * n) s) =
        fired s0 ++ [kFinishedBaselineCompilation; kFinishedTopTierCompilation] /\
      outstanding_baseline_units_ (OnFinishedUnit_times (2 * n) s) = 0 /\
      outstanding_tiering_units_ (OnFinishedUnit_times (2 * n) s) = 0
  end /\
  (forall k, (k < n)%nat ->
     delivered (OnFinishedUnit_times k s) = delivered s0 /\
     callbacks_ (OnFinishedUnit_times k s) = callbacks_ s0) /\
  match compile_mode_ s0 with
  | kRegular =>
      delivered (OnFinishedUnit_times n s) =
        delivered s0 ++ baseline_round ++ top_tier_round /\
      callbacks_ (OnFinishedUnit_times n s) = []
  | kTiering =>
      (forall k, (n <= k < 2 * n)%nat ->
         delivered (OnFinishedUnit_times k s) = delivered s0 ++ baseline_round /\
         callbacks_ (OnFinishedUnit_times k s) = callbacks_ s0) /\
      delivered (OnFinishedUnit_times (2 * n) s) =
        delivered s0 ++ baseline_round ++ top_tier_round /\
      callbacks_ (OnFinishedUnit_times (2 * n) s) = []
  end.
Proof.
  intros Hn Hm. cbv zeta.
  pose proof (events_fired_at_the_last_unit n s0 Hn Hm) as Old.
  cbv zeta in Old. destruct Old as (A & Mo).
  set (s := SetNumberOfFunctionsToCompile (Z.of_nat n) s0) in *.
  assert (S0 : fired s = fired s0 /\ delivered s = delivered s0 /\
               callbacks_ s = callbacks_ s0).
  { destruct s0. unfold s, SetNumberOfFunctionsToCompile. simpl.
    split_tests; auto. }
  destruct S0 as (F0 & D0 & C0).
  assert (Key : forall k events,
            fired (OnFinishedUnit_times k s) = fired s0 ++ events ->
            delivered (OnFinishedUnit_times k s) =
              delivered s0 ++ fst (rounds (callbacks_ s0) events) /\
            callbacks_ (OnFinishedUnit_times k s) =
              snd (rounds (callbacks_ s0) events)).
  { intros k events F. rewrite <- F0 in F.
    destruct (OnFinishedUnit_times_delivered k s events F) as (D & C).
    rewrite D, C, D0, C0. auto. }
  split; [exact A |]. split; [exact Mo |]. split.
  - intros k Hk. specialize (A k Hk).
    destruct (Key k []) as (D & C); [now rewrite app_nil_r |].
    simpl in D, C. rewrite app_nil_r in D. auto.
  - destruct (compile_mode_ s0).
    + destruct Mo as (F & _).
      destruct (Key n _ F) as (D & C). simpl in D, C.
      rewrite app_nil_r in D. auto.
    + destruct Mo as (Fk & F2 & _). split.
      * intros k Hk. destruct (Key k _ (Fk k Hk)) as (D & C).
        simpl in D, C. rewrite app_nil_r in D. auto.
      * destruct (Key (2 * n)%nat _ F2) as (D & C). simpl in D, C.
        rewrite app_nil_r in D. auto.
Qed.

Lemma events_fire_at_the_last_unit_witness :
  let s := SetNumberOfFunctionsToCompile 3
             (AddCallback 1%nat (new_CompilationStateImpl true true 4 4 EmptyString)) in
  fired (OnFinishedUnit_times 2 s) = [] /\
  fired (OnFinishedUnit_times 3 s) = [kFinishedBaselineCompilation] /\
  fired (OnFinishedUnit_times 6 s) =
    [kFinishedBaselineCompilation; kFinishedTopTierCompilation] /\
  delivered (OnFinishedUnit_times 2 s) = [] /\
  delivered (OnFinishedUnit_times 3 s) =
    [mkDelivery 1%nat kFinishedBaselineCompilation None] /\
  delivered (OnFinishedUnit_times 6 s) =
    [mkDelivery 1%nat kFinishedBaselineCompilation None;
     mkDelivery 1%nat kFinishedTopTierCompilation None] /\
  callbacks_ (OnFinishedUnit_times 6 s) = [].
Proof.
  assert (M : Z.of_nat 3 < SizeT.modulus) by reflexivity.
  pose proof (events_fire_at_the_last_unit 3
                (AddCallback 1%nat
                   (new_CompilationStateImpl true true 4 4 EmptyString))
                ltac:(lia) M)
    as (A & (B & C & _) & D & (E & F & G)).
  cbv zeta.
  split; [exact (A 2%nat ltac:(lia)) |].
  split; [exact (B 3%nat ltac:(lia)) |].
  split; [exact C |].
  split; [exact (proj1 (D 2%nat ltac:(lia))) |].
  split; [exact (proj1 (E 3%nat ltac:(lia))) |].
  split; [exact F | exact G].
Defined.

(** ** [InitializeCompilationUnits] *)

Lemma indices_from_S (start : Z) (n : nat) :
  indices_from start (S n) = start :: indices_from (start + 1) n.
Proof.
  unfold indices_from. simpl. f_equal; [lia |].
  rewrite <- seq_shift, map_map. apply map_ext. intros k. lia.
Qed.

Lemma uint32_small (z : Z) : 0 <= z < 2 ^ 32 -> uint32 z = z.
Proof. intros H. unfold uint32. now apply Z.mod_small. Qed.

(** The builder after the loop over [n] functions from [start]. *)
Lemma AddUnit_loop_eq (n : nat) (default_tier : ExecutionTier) (start : Z)
    (b : CompilationUnitBuilder) (s : CompilationStateImpl) :
  0 <= start -> start + Z.of_nat n < 2 ^ 32 ->
  AddUnit_loop n default_tier start (start + Z.of_nat n) b s =
  match compile_mode_ s with
  | kTiering =>
      mkBuilder
        (baseline_units_ b ++
         map (fun i => mkUnit i kBaseline) (indices_from start n))
        (tiering_units_ b ++
         map (fun i => mkUnit i kOptimized) (indices_from start n))
  | kRegular =>
      mkBuilder
        (baseline_units_ b ++
         map (fun i => mkUnit i default_tier) (indices_from start n))
        (tiering_units_ b)
  end.
Proof.
  revert start b. induction n as [| n IH]; intros start b H0 H1.
  - simpl. rewrite !app_nil_r. destruct b, (compile_mode_ s); reflexivity.
  - cbn [AddUnit_loop].
    replace (start <? start + Z.of_nat (S n)) with true
      by (symmetry; apply Z.ltb_lt; lia).
    rewrite uint32_small by lia.
    replace (start + Z.of_nat (S n)) with (start + 1 + Z.of_nat n) by lia.
    rewrite IH by lia. rewrite indices_from_S. unfold AddUnit, push_back.
    destruct (compile_mode_ s); simpl; rewrite <- !app_assoc; reflexivity.
Qed.

(** X9: For a module that imports [a] functions and declares [n],
    [InitializeCompilationUnits] appends to the pending baseline units one
    unit for each of the function indices [a], ..., [a + n - 1], in this
    order, and in tiering mode to the pending tiering units one optimized
    unit for each of the same indices; in regular mode the baseline units
    carry the default tier and no tiering unit is added.  With no declared
    function the state is left as it is. *)
Theorem InitializeCompilationUnits_adds_each_function_once
    (default_tier : ExecutionTier) (a : Z) (n : nat) (s : CompilationStateImpl) :
  0 <= a ->
  a + Z.of_nat n < 2 ^ 32 ->
  let s' := InitializeCompilationUnits default_tier a (Z.of_nat n) s in
  baseline_compilation_units_ s' =
    baseline_compilation_units_ s ++
    map (fun i => mkUnit i match compile_mode_ s with
                           | kTiering => kBaseline
                           | kRegular => default_tier
                           end)
        (indices_from a n) /\
  tiering_compilation_units_ s' =
    tiering_compilation_units_ s ++
    match compile_mode_ s with
    | kTiering => map (fun i => mkUnit i kOptimized) (indices_from a n)
    | kRegular => []
    end /\
  (n = 0%nat -> s' = s).
Proof.
  intros H0 H1. cbv zeta. unfold InitializeCompilationUnits. cbv zeta.
  rewrite uint32_small by lia.
  replace (Z.to_nat (a + Z.of_nat n - a)) with n by lia.
  rewrite AddUnit_loop_eq by assumption. simpl baseline_units_.
  simpl tiering_units_.
  destruct n as [| n].
  - unfold indices_from. simpl.
    destruct (compile_mode_ s); simpl; rewrite !app_nil_r; auto.
  - rewrite indices_from_S. unfold Commit.
    destruct (compile_mode_ s) eqn:M; simpl;
      match goal with
      | |- context [AddCompilationUnits ?b ?t s] =>
          destruct (pending_AddCompilationUnits b t s) as (-> & ->)
      end;
      rewrite M; repeat split; discriminate.
Qed.

Lemma InitializeCompilationUnits_adds_each_function_once_witness :
  baseline_compilation_units_
    (InitializeCompilationUnits kBaseline 2 (Z.of_nat 3) tiering_state) =
    [mkUnit 2 kBaseline; mkUnit 3 kBaseline; mkUnit 4 kBaseline] /\
  tiering_compilation_units_
    (InitializeCompilationUnits kBaseline 2 (Z.of_nat 3) tiering_state) =
    [mkUnit 2 kOptimized; mkUnit 3 kOptimized; mkUnit 4 kOptimized].
Proof.
  pose proof (InitializeCompilationUnits_adds_each_function_once
                kBaseline 2 3 tiering_state ltac:(lia) ltac:(simpl; lia))
    as (A & B & _).
  split; [exact A | exact B].
Defined.

(** ** [FinishCompilationUnits] *)

Arguments finish_act {WireBytesRef} is_set LookupFunctionName GetNameOrNull a c.
Arguments finish_run {WireBytesRef} is_set LookupFunctionName GetNameOrNull
  actions c.
Arguments returns_within {WireBytesRef} is_set LookupFunctionName GetNameOrNull
  bound pc s s'.

Lemma frame_OnFinishedUnit (s : CompilationStateImpl) :
  compile_error_ (OnFinishedUnit s) = compile_error_ s /\
  baseline_finish_units_ (OnFinishedUnit s) = baseline_finish_units_ s /\
  tiering_finish_units_ (OnFinishedUnit s) = tiering_finish_units_ s /\
  baseline_compilation_units_ (OnFinishedUnit s) = baseline_compilation_units_ s /\
  tiering_compilation_units_ (OnFinishedUnit s) = tiering_compilation_units_ s.
Proof. destruct s. unfold_ops. simpl. split_tests; auto. Qed.

Lemma frame_set_finish_units (v : list WasmCompilationUnit)
    (s : CompilationStateImpl) :
  compile_error_ (set_finish_units v s) = compile_error_ s /\
  baseline_compilation_units_ (set_finish_units v s) = baseline_compilation_units_ s /\
  tiering_compilation_units_ (set_finish_units v s) = tiering_compilation_units_ s.
Proof. unfold set_finish_units. destruct (baseline_compilation_finished s); auto. Qed.

Lemma finished_waiting_pop (s : CompilationStateImpl)
    (v : list WasmCompilationUnit) (unit : WasmCompilationUnit) :
  finish_units s = v ++ [unit] ->
  finished_waiting s = S (finished_waiting (set_finish_units v s)).
Proof.
  unfold finished_waiting, finish_units, set_finish_units.
  destruct (baseline_compilation_finished s); intros E; simpl;
    rewrite E, length_app; simpl; lia.
Qed.

Lemma FinishCompilationUnits_step_failed (s : CompilationStateImpl) :
  failed s = true -> FinishCompilationUnits_step AtFailedTest s = (Returned, s).
Proof. intros F. simpl. now rewrite F. Qed.

Lemma FinishCompilationUnits_step_not_failed (s : CompilationStateImpl) :
  failed s = false ->
  FinishCompilationUnits_step AtFailedTest s = (AtGetNextExecutedUnit, s).
Proof. intros F. simpl. now rewrite F. Qed.

Lemma FinishCompilationUnits_step_none (s : CompilationStateImpl) :
  finish_units s = [] ->
  FinishCompilationUnits_step AtGetNextExecutedUnit s = (Returned, s).
Proof.
  intros E. cbn [FinishCompilationUnits_step].
  now rewrite (GetNextExecutedUnit_empty s E).
Qed.

Lemma FinishCompilationUnits_step_unit (s : CompilationStateImpl)
    (v : list WasmCompilationUnit) (unit : WasmCompilationUnit) :
  finish_units s = v ++ [unit] ->
  FinishCompilationUnits_step AtGetNextExecutedUnit s =
  (AtOnFinishedUnit, set_finish_units v s).
Proof.
  intros E. cbn [FinishCompilationUnits_step].
  now rewrite (GetNextExecutedUnit_last s v unit E).
Qed.

Lemma finish_units_nothing_waiting (s : CompilationStateImpl) :
  finished_waiting s = 0%nat -> finish_units s = [].
Proof.
  unfold finished_waiting, finish_units. intros W.
  destruct (baseline_compilation_finished s);
    [destruct (tiering_finish_units_ s) | destruct (baseline_finish_units_ s)];
    simpl in W; auto; lia.
Qed.

(** One call of the loop, whatever the other threads did before it: it
    latches no error, adds no finished unit and leaves the pending units
    alone; and it returns only on a latched error or on finding the vector
    it serves empty. *)
Lemma FinishCompilationUnits_step_call (pc : FinishPc) (s : CompilationStateImpl) :
  let c := FinishCompilationUnits_step pc s in
  failed (snd c) = failed s /\
  (finished_waiting (snd c) <= finished_waiting s)%nat /\
  baseline_compilation_units_ (snd c) = baseline_compilation_units_ s /\
  tiering_compilation_units_ (snd c) = tiering_compilation_units_ s /\
  (pc <> Returned -> fst c = Returned ->
   failed s = true \/ HasCompilationUnitToFinish (snd c) = false).
Proof.
  cbv zeta. destruct pc.
  - destruct (failed s) eqn:F.
    + rewrite (FinishCompilationUnits_step_failed s F). simpl. auto 6.
    + rewrite (FinishCompilationUnits_step_not_failed s F). simpl.
      repeat split; auto. discriminate.
  - destruct (back (finish_units s)) as [u |] eqn:Bk.
    + apply back_Some in Bk. destruct Bk as (v & Bk).
      pose proof (finished_waiting_pop s v u Bk) as Wp.
      destruct (frame_set_finish_units v s) as (E1 & Q1 & Q2).
      rewrite (FinishCompilationUnits_step_unit s v u Bk). simpl.
      split; [unfold failed; now rewrite E1 |]. split; [lia |].
      split; [exact Q1 |]. split; [exact Q2 |]. discriminate.
    + apply back_None in Bk.
      rewrite (FinishCompilationUnits_step_none s Bk). simpl.
      repeat split; auto. intros _ _. right.
      unfold HasCompilationUnitToFinish. now rewrite Bk.
  - destruct (frame_OnFinishedUnit s) as (E2 & F1 & F2 & Q3 & Q4). simpl.
    split; [unfold failed; now rewrite E2 |].
    split; [unfold finished_waiting; rewrite F1, F2; lia |].
    split; [exact Q3 |]. split; [exact Q4 |]. discriminate.
  - simpl. repeat split; auto.
Qed.

Section FinishAlone.

Context {WireBytesRef : Type}.
Variable is_set : WireBytesRef -> bool.
Variable LookupFunctionName : string -> Z -> WireBytesRef.
Variable GetNameOrNull : string -> WireBytesRef -> string.

(** [n] calls of the loop in a row, no other thread between them. *)
Local Abbreviation alone n c :=
  (finish_run is_set LookupFunctionName GetNameOrNull (repeat FinishStep n) c).

Lemma alone_S (n : nat) (pc : FinishPc) (s : CompilationStateImpl) :
  alone (S n) (pc, s) = alone n (FinishCompilationUnits_step pc s).
Proof. reflexivity. Qed.

Lemma alone_Returned (n : nat) (s : CompilationStateImpl) :
  alone n (Returned, s) = (Returned, s).
Proof. induction n as [| n IH]; [reflexivity |]. rewrite alone_S. exact IH. Qed.

Lemma alone_add (n m : nat) (c : FinishPc * CompilationStateImpl) :
  alone (n + m) c = alone m (alone n c).
Proof.
  revert c. induction n as [| n IH]; intros c; [reflexivity |].
  simpl. apply IH.
Qed.

Local Abbreviation returns_within :=
  (returns_within is_set LookupFunctionName GetNameOrNull).

Lemma returns_from_test (w : nat) :
  forall s, (finished_waiting s <= w)%nat ->
  exists s', returns_within (3 * w + 2) AtFailedTest s s' /\
             (failed s = true -> s' = s).
Proof.
  assert (Failed : forall bound s, failed s = true ->
            exists s', returns_within (3 * bound + 2) AtFailedTest s s' /\
                       (failed s = true -> s' = s)).
  { intros bound s F. exists s. split; [| auto]. exists 1%nat.
    rewrite alone_S, (FinishCompilationUnits_step_failed s F).
    split; [lia |]. split; [reflexivity |]. split; [reflexivity |].
    split; [rewrite F; discriminate |]. auto. }
  assert (Empty : forall bound s, failed s = false -> finish_units s = [] ->
            exists s', returns_within (3 * bound + 2) AtFailedTest s s' /\
                       (failed s = true -> s' = s)).
  { intros bound s F E. exists s. split; [| auto]. exists 2%nat.
    rewrite alone_S, (FinishCompilationUnits_step_not_failed s F),
      alone_S, (FinishCompilationUnits_step_none s E).
    split; [lia |]. split; [reflexivity |]. split; [reflexivity |].
    split; [auto |]. auto. }
  assert (Dec : forall s, failed s = true \/ failed s = false)
    by (intros s; destruct (failed s); auto).
  induction w as [| w IH]; intros s W.
  - destruct (Dec s) as [F | F]; [now apply Failed |].
    apply Empty; [exact F |]. apply finish_units_nothing_waiting. lia.
  - destruct (Dec s) as [F | F]; [now apply Failed |].
    destruct (back (finish_units s)) as [u |] eqn:Bk;
      [| apply Empty; [exact F | now apply back_None]].
    apply back_Some in Bk. destruct Bk as (v & Bk).
    pose proof (finished_waiting_pop s v u Bk) as Wp.
    destruct (frame_set_finish_units v s) as (E1 & P1 & P2).
    destruct (frame_OnFinishedUnit (set_finish_units v s))
      as (E2 & Q1 & Q2 & P3 & P4).
    set (s2 := OnFinishedUnit (set_finish_units v s)) in *.
    assert (W2 : finished_waiting s2 = finished_waiting (set_finish_units v s))
      by (unfold finished_waiting; now rewrite Q1, Q2).
    assert (F2 : failed s2 = false)
      by (unfold failed in *; now rewrite E2, E1).
    destruct (IH s2 ltac:(lia))
      as (s' & (n & Hn & R & Fs & D & W' & P5 & P6) & _).
    exists s'. split; [| congruence]. exists (S (S (S n))).
    split; [lia |]. split.
    { rewrite alone_S, (FinishCompilationUnits_step_not_failed s F),
        alone_S, (FinishCompilationUnits_step_unit s v u Bk), alone_S.
      exact R. }
    split; [congruence |].
    split; [intros _; exact (D F2) |].
    split; [lia |]. split; congruence.
Qed.

(** X10 (FinishCompilationUnits): the loop makes its calls one at a time,
    the other threads making theirs in between.  At whatever place of the
    loop its thread is, before the test of [failed()], before
    [GetNextExecutedUnit()] or before [OnFinishedUnit()], and in whatever
    state the other threads have left the compilation state: if no other
    thread calls into the state from then on, the loop returns after at
    most [3 w + 3] of its calls, [w] being the finished units that wait.
    It latches no error; unless an error is latched it returns only with
    the vector it serves empty; entered with an error latched it changes
    nothing; it adds no finished unit and leaves the pending units alone.
    And whatever the other threads do between its calls, each single call
    of the loop latches no error, adds no finished unit, leaves the pending
    units alone, and returns only when it reads a latched error or finds
    the vector it serves empty. *)
Theorem FinishCompilationUnits_left_alone_drains_the_served_vector
    (pc : FinishPc) (s : CompilationStateImpl) :
  pc <> Returned ->
  (exists n s',
     (n <= 3 * finished_waiting s + 3)%nat /\
     alone n (pc, s) = (Returned, s') /\
     (forall m, (n <= m)%nat -> alone m (pc, s) = (Returned, s')) /\
     failed s' = failed s /\
     (failed s = false -> HasCompilationUnitToFinish s' = false) /\
     (pc = AtFailedTest -> failed s = true -> s' = s) /\
     (finished_waiting s' <= finished_waiting s)%nat /\
     baseline_compilation_units_ s' = baseline_compilation_units_ s /\
     tiering_compilation_units_ s' = tiering_compilation_units_ s) /\
  (forall pc1 s1,
     let c := FinishCompilationUnits_step pc1 s1 in
     failed (snd c) = failed s1 /\
     (finished_waiting (snd c) <= finished_waiting s1)%nat /\
     baseline_compilation_units_ (snd c) = baseline_compilation_units_ s1 /\
     tiering_compilation_units_ (snd c) = tiering_compilation_units_ s1 /\
     (pc1 <> Returned -> fst c = Returned ->
      failed s1 = true \/ HasCompilationUnitToFinish (snd c) = false)).
Proof.
  intros NR.
  split; [| intros pc1 s1; exact (FinishCompilationUnits_step_call pc1 s1)].
  assert (Drained : forall s1, finish_units s1 = [] ->
                      HasCompilationUnitToFinish s1 = false)
    by (intros s1 E; unfold HasCompilationUnitToFinish; now rewrite E).
  assert (More : forall n s', alone n (pc, s) = (Returned, s') ->
                   forall m, (n <= m)%nat -> alone m (pc, s) = (Returned, s')).
  { intros n s' R m Hm. replace m with (n + (m - n))%nat by lia.
    rewrite alone_add, R. apply alone_Returned. }
  destruct pc; [| | | now elim NR].
  - (* before the test *)
    destruct (returns_from_test (finished_waiting s) s (le_n _))
      as (s' & (n & Hn & R & Fs & D & W & P1 & P2) & Same).
    exists n, s'. split; [lia |]. split; [exact R |].
    split; [now apply More |]. split; [exact Fs |].
    split; [intros F; apply Drained; auto |].
    split; [intros _; exact Same |]. auto.
  - (* before [GetNextExecutedUnit] *)
    destruct (back (finish_units s)) as [u |] eqn:Bk.
    + apply back_Some in Bk. destruct Bk as (v & Bk).
      pose proof (finished_waiting_pop s v u Bk) as Wp.
      destruct (frame_set_finish_units v s) as (E1 & Q1 & Q2).
      destruct (frame_OnFinishedUnit (set_finish_units v s))
        as (E2 & F1 & F2 & Q3 & Q4).
      set (s2 := OnFinishedUnit (set_finish_units v s)) in *.
      assert (W2 : finished_waiting s2 = finished_waiting (set_finish_units v s))
        by (unfold finished_waiting; now rewrite F1, F2).
      assert (Fl : failed s2 = failed s)
        by (unfold failed; now rewrite E2, E1).
      destruct (returns_from_test (finished_waiting s2) s2 (le_n _))
        as (s' & (n & Hn & R & Fs & D & W & P1 & P2) & _).
      assert (R' : alone (S (S n)) (AtGetNextExecutedUnit, s) = (Returned, s'))
        by (rewrite alone_S, (FinishCompilationUnits_step_unit s v u Bk), alone_S;
            exact R).
      exists (S (S n)), s'. split; [lia |]. split; [exact R' |].
      split; [now apply More |]. split; [congruence |].
      split; [intros F; apply Drained, D; congruence |].
      split; [discriminate |].
      split; [lia |]. split; congruence.
    + apply back_None in Bk.
      assert (R' : alone 1 (AtGetNextExecutedUnit, s) = (Returned, s))
        by (rewrite alone_S, (FinishCompilationUnits_step_none s Bk); reflexivity).
      exists 1%nat, s. split; [lia |]. split; [exact R' |].
      split; [now apply More |]. split; [reflexivity |].
      split; [intros _; now apply Drained |].
      split; [discriminate |]. auto.
  - (* before [OnFinishedUnit] *)
    destruct (frame_OnFinishedUnit s) as (E2 & F1 & F2 & Q3 & Q4).
    set (s2 := OnFinishedUnit s) in *.
    assert (W2 : finished_waiting s2 = finished_waiting s)
      by (unfold finished_waiting; now rewrite F1, F2).
    assert (Fl : failed s2 = failed s) by (unfold failed; now rewrite E2).
    destruct (returns_from_test (finished_waiting s2) s2 (le_n _))
      as (s' & (n & Hn & R & Fs & D & W & P1 & P2) & _).
    assert (R' : alone (S n) (AtOnFinishedUnit, s) = (Returned, s'))
      by (rewrite alone_S; exact R).
    exists (S n), s'. split; [lia |]. split; [exact R' |].
    split; [now apply More |]. split; [congruence |].
    split; [intros F; apply Drained, D; congruence |].
    split; [discriminate |].
    split; [lia |]. split; congruence.
Qed.

End FinishAlone.

Lemma FinishCompilationUnits_left_alone_drains_the_served_vector_witness :
  exists n s',
    (n <= 9)%nat /\
    finish_run sample_is_set sample_LookupFunctionName sample_GetNameOrNull
      (repeat FinishStep n) (AtFailedTest, state_two_finished) =
      (Returned, s') /\
    failed s' = false /\
    HasCompilationUnitToFinish s' = false.
Proof.
  assert (W : finished_waiting state_two_finished = 2%nat)
    by (vm_compute; reflexivity).
  assert (F0 : failed state_two_finished = false) by (vm_compute; reflexivity).
  destruct (FinishCompilationUnits_left_alone_drains_the_served_vector
              sample_is_set sample_LookupFunctionName sample_GetNameOrNull
              AtFailedTest state_two_finished ltac:(discriminate))
    as ((n & s' & Hn & R & _ & F & D & _) & _).
  rewrite W in Hn. rewrite F0 in F.
  exists n, s'. split; [exact Hn |]. split; [exact R |].
  split; [exact F | exact (D F0)].
Defined.

(** With the other threads at work the loop may return with units waiting:
    here an error is latched between its call of [OnFinishedUnit] and its
    next test. *)
Example FinishCompilationUnits_interrupted_by_error :
  let c :=
    finish_run sample_is_set sample_LookupFunctionName sample_GetNameOrNull
      finish_interrupted_by_error (AtFailedTest, state_two_finished) in
  fst c = Returned /\
  failed (snd c) = true /\
  HasCompilationUnitToFinish (snd c) = true.
Proof. vm_compute. auto. Qed.

(** ** The finisher flag *)

Arguments foreground_step {WireBytesRef} is_set LookupFunctionName GetNameOrNull
  deadline_passed sys.
Arguments act {WireBytesRef} is_set LookupFunctionName GetNameOrNull a sys.
Arguments act_all {WireBytesRef} is_set LookupFunctionName GetNameOrNull actions sys.

Lemma filter_finisher_repeat (n : nat) :
  filter is_FinishCompileTask (repeat BackgroundCompileTask n) = [].
Proof. induction n; simpl; auto. Qed.

Lemma filter_finisher_background (l : list Task) :
  filter is_FinishCompileTask
    (filter (fun t => negb (is_BackgroundCompileTask t)) l) =
  filter is_FinishCompileTask l.
Proof.
  induction l as [| t l IH]; [reflexivity |].
  destruct t; simpl; rewrite ?IH; reflexivity.
Qed.

Lemma pending_finishers_push_back (s : CompilationStateImpl) (t : Task) :
  List.length (filter is_FinishCompileTask (push_back (foreground_tasks s) t)) =
  if is_FinishCompileTask t then S (pending_finishers s) else pending_finishers s.
Proof.
  unfold push_back, pending_finishers. rewrite filter_app, length_app. simpl.
  destruct (is_FinishCompileTask t); simpl; lia.
Qed.

(** What the account of the finishers reads of a state. *)
Lemma finisher_view_kept_fields (s s' : CompilationStateImpl) :
  finisher_is_running_ s' = finisher_is_running_ s ->
  foreground_tasks s' = foreground_tasks s ->
  compile_mode_ s' = compile_mode_ s ->
  outstanding_baseline_units_ s' = outstanding_baseline_units_ s ->
  outstanding_tiering_units_ s' = outstanding_tiering_units_ s ->
  baseline_finish_units_ s' = baseline_finish_units_ s ->
  tiering_finish_units_ s' = tiering_finish_units_ s ->
  compile_error_ s' = compile_error_ s ->
  finisher_view_kept s s'.
Proof.
  intros F Q M B T BF TF E.
  unfold finisher_view_kept, pending_finishers, finish_units,
    baseline_compilation_finished, failed.
  rewrite F, Q, M, B, T, BF, TF, E. repeat split; auto.
Qed.

Lemma finisher_view_kept_refl (s : CompilationStateImpl) :
  finisher_view_kept s s.
Proof. apply finisher_view_kept_fields; reflexivity. Qed.

Lemma finisher_view_kept_trans (s1 s2 s3 : CompilationStateImpl) :
  finisher_view_kept s1 s2 -> finisher_view_kept s2 s3 ->
  finisher_view_kept s1 s3.
Proof.
  unfold finisher_view_kept.
  intros (F1 & P1 & U1 & E1) (F2 & P2 & U2 & E2).
  rewrite F2, P2, U2. repeat split; auto.
Qed.

Lemma finisher_view_set_worker_tasks (v : list Task) (s : CompilationStateImpl) :
  finisher_view_kept s (set_worker_tasks v s).
Proof. apply finisher_view_kept_fields; destruct s; reflexivity. Qed.

Lemma finisher_view_set_num_background_tasks (v : Z) (s : CompilationStateImpl) :
  finisher_view_kept s (set_num_background_tasks v s).
Proof. apply finisher_view_kept_fields; destruct s; reflexivity. Qed.

Lemma finisher_view_set_baseline_compilation_units
    (v : list WasmCompilationUnit) (s : CompilationStateImpl) :
  finisher_view_kept s (set_baseline_compilation_units v s).
Proof. apply finisher_view_kept_fields; destruct s; reflexivity. Qed.

Lemma finisher_view_set_tiering_compilation_units
    (v : list WasmCompilationUnit) (s : CompilationStateImpl) :
  finisher_view_kept s (set_tiering_compilation_units v s).
Proof. apply finisher_view_kept_fields; destruct s; reflexivity. Qed.

Lemma finisher_view_set_callbacks (v : list callback_t) (s : CompilationStateImpl) :
  finisher_view_kept s (set_callbacks v s).
Proof. apply finisher_view_kept_fields; destruct s; reflexivity. Qed.

Lemma finisher_view_set_fired (v : list CompilationEvent) (s : CompilationStateImpl) :
  finisher_view_kept s (set_fired v s).
Proof. apply finisher_view_kept_fields; destruct s; reflexivity. Qed.

Lemma finisher_view_set_delivered (v : list Delivery) (s : CompilationStateImpl) :
  finisher_view_kept s (set_delivered v s).
Proof. apply finisher_view_kept_fields; destruct s; reflexivity. Qed.

Lemma finisher_view_set_foreground_tasks (v : list Task) (s : CompilationStateImpl) :
  List.length (filter is_FinishCompileTask v) = pending_finishers s ->
  finisher_view_kept s (set_foreground_tasks v s).
Proof.
  intros P. destruct s. unfold finisher_view_kept, pending_finishers in *.
  simpl in *. repeat split; auto.
Qed.

Lemma finisher_view_set_compile_error (e : CompilationError)
    (s : CompilationStateImpl) :
  finisher_view_kept s (set_compile_error (Some e) s).
Proof. destruct s. unfold finisher_view_kept. simpl. repeat split. Qed.

Create HintDb finisher_view.

#[local] Hint Resolve finisher_view_kept_refl finisher_view_set_worker_tasks
  finisher_view_set_num_background_tasks
  finisher_view_set_baseline_compilation_units
  finisher_view_set_tiering_compilation_units finisher_view_set_callbacks
  finisher_view_set_fired finisher_view_set_delivered
  finisher_view_set_compile_error : finisher_view.

Lemma finisher_view_NotifyOnEvent (event : CompilationEvent)
    (error_result : option VoidResult) (s : CompilationStateImpl) :
  finisher_view_kept s (NotifyOnEvent event error_result s).
Proof.
  unfold NotifyOnEvent. cbv zeta.
  destruct (is_final_event event);
    repeat (eapply finisher_view_kept_trans;
            [| solve [eauto with finisher_view]]);
    auto with finisher_view.
Qed.

Lemma finisher_view_RestartBackgroundTasks (max : Z) (s : CompilationStateImpl) :
  finisher_view_kept s (RestartBackgroundTasks max s).
Proof.
  rewrite RestartBackgroundTasks_eq. cbv zeta.
  destruct (failed s); [auto with finisher_view |].
  destruct (_ =? _); [auto with finisher_view |].
  destruct (0 <? _).
  - eapply finisher_view_kept_trans; [| apply finisher_view_set_worker_tasks].
    auto with finisher_view.
  - eapply finisher_view_kept_trans;
      [apply finisher_view_set_num_background_tasks |].
    apply finisher_view_set_foreground_tasks.
    rewrite filter_app, filter_finisher_repeat, app_nil_r.
    destruct s; reflexivity.
Qed.

Lemma finisher_view_AddCompilationUnits
    (baseline_units tiering_units : list WasmCompilationUnit)
    (s : CompilationStateImpl) :
  finisher_view_kept s (AddCompilationUnits baseline_units tiering_units s).
Proof.
  unfold AddCompilationUnits. cbv zeta.
  eapply finisher_view_kept_trans; [| apply finisher_view_RestartBackgroundTasks].
  eapply finisher_view_kept_trans;
    [| apply finisher_view_set_baseline_compilation_units].
  destruct (CompileMode_eqb _ _); auto with finisher_view.
Qed.

Lemma finisher_view_GetNextCompilationUnit (s : CompilationStateImpl) :
  finisher_view_kept s (snd (GetNextCompilationUnit s)).
Proof.
  unfold GetNextCompilationUnit.
  destruct (empty _); destruct (back _); simpl; auto with finisher_view.
Qed.

Lemma finisher_view_SetError (func_index : Z) (error_result : VoidResult)
    (s : CompilationStateImpl) :
  finisher_view_kept s (SetError func_index error_result s).
Proof.
  unfold SetError. destruct (compile_error_ s) eqn:E; [auto with finisher_view |].
  cbv zeta.
  eapply finisher_view_kept_trans; [apply finisher_view_set_compile_error |].
  apply finisher_view_set_foreground_tasks.
  rewrite pending_finishers_push_back. reflexivity.
Qed.

Lemma finisher_view_CancelAndWait (s : CompilationStateImpl) :
  finisher_view_kept s (background_task_manager_CancelAndWait s).
Proof.
  unfold background_task_manager_CancelAndWait. cbv zeta.
  eapply finisher_view_kept_trans; [| apply finisher_view_set_worker_tasks].
  apply finisher_view_set_foreground_tasks.
  now rewrite filter_finisher_background.
Qed.

Lemma finisher_view_Abort (s : CompilationStateImpl) :
  finisher_view_kept s (Abort s).
Proof.
  unfold Abort. cbv zeta.
  set (s1 := SetError _ _ s).
  set (s2 := background_task_manager_CancelAndWait s1).
  assert (V : finisher_view_kept s s2).
  { eapply finisher_view_kept_trans; [apply finisher_view_SetError |].
    apply finisher_view_CancelAndWait. }
  destruct (negb _); [| exact V].
  eapply finisher_view_kept_trans; [exact V |].
  eapply finisher_view_kept_trans; [| apply finisher_view_set_callbacks].
  apply finisher_view_set_foreground_tasks.
  rewrite pending_finishers_push_back. reflexivity.
Qed.

Lemma finisher_view_OnFinishedUnit_but_units (s : CompilationStateImpl) :
  finisher_is_running_ (OnFinishedUnit s) = finisher_is_running_ s /\
  pending_finishers (OnFinishedUnit s) = pending_finishers s /\
  failed (OnFinishedUnit s) = failed s.
Proof.
  assert (C : forall v s0,
             finisher_is_running_ (set_outstanding_tiering_units v s0) =
               finisher_is_running_ s0 /\
             pending_finishers (set_outstanding_tiering_units v s0) =
               pending_finishers s0 /\
             failed (set_outstanding_tiering_units v s0) = failed s0)
    by (intros v s0; destruct s0; repeat split).
  assert (D : forall v s0,
             finisher_is_running_ (set_outstanding_baseline_units v s0) =
               finisher_is_running_ s0 /\
             pending_finishers (set_outstanding_baseline_units v s0) =
               pending_finishers s0 /\
             failed (set_outstanding_baseline_units v s0) = failed s0)
    by (intros v s0; destruct s0; repeat split).
  assert (N : forall e r s0,
             finisher_is_running_ (NotifyOnEvent e r s0) =
               finisher_is_running_ s0 /\
             pending_finishers (NotifyOnEvent e r s0) = pending_finishers s0 /\
             failed (NotifyOnEvent e r s0) = failed s0).
  { intros e r s0. unfold NotifyOnEvent. cbv zeta.
    destruct (is_final_event e); destruct s0; repeat split. }
  unfold OnFinishedUnit. cbv zeta.
  destruct (is_tiering_unit s).
  - destruct (_ =? 0).
    + destruct (N kFinishedTopTierCompilation None
                  (set_outstanding_tiering_units
                     (SizeT.decr (outstanding_tiering_units_ s)) s))
        as (F & P & E).
      destruct (C (SizeT.decr (outstanding_tiering_units_ s)) s) as (F' & P' & E').
      rewrite F, P, E. auto.
    + apply C.
  - destruct (_ =? 0); [| apply D].
    set (s1 := set_outstanding_baseline_units _ s).
    destruct (D (SizeT.decr (outstanding_baseline_units_ s)) s) as (F' & P' & E').
    fold s1 in F', P', E'.
    destruct (N kFinishedBaselineCompilation None s1) as (F & P & E).
    destruct (negb _).
    + destruct (N kFinishedTopTierCompilation None
                  (NotifyOnEvent kFinishedBaselineCompilation None s1))
        as (F2 & P2 & E2).
      rewrite F2, P2, E2, F, P, E. auto.
    + rewrite F, P, E. auto.
Qed.

Section FinisherFrames.

Context {WireBytesRef : Type}.
Variable is_set : WireBytesRef -> bool.
Variable LookupFunctionName : string -> Z -> WireBytesRef.
Variable GetNameOrNull : string -> WireBytesRef -> string.

(** What a call of another thread, other than [ScheduleUnitForFinishing],
    leaves alone. *)
Lemma other_thread_frame (op : Op) (s : CompilationStateImpl) :
  is_call_of_other_thread op = true ->
  (forall unit tier, op <> OpScheduleUnitForFinishing unit tier) ->
  finisher_view_kept s (step is_set LookupFunctionName GetNameOrNull op s).
Proof.
  intros A N.
  destruct op; try discriminate A; try (exfalso; eapply N; reflexivity);
    cbn [step].
  - apply finisher_view_set_callbacks.
  - apply finisher_view_AddCompilationUnits.
  - apply finisher_view_GetNextCompilationUnit.
  - apply finisher_view_set_num_background_tasks.
  - apply finisher_view_RestartBackgroundTasks.
  - apply finisher_view_Abort.
  - apply finisher_view_SetError.
Qed.

Lemma RunForegroundTask_frame (s : CompilationStateImpl) :
  (forall rest, foreground_tasks s <> FinishCompileTask :: rest) ->
  finisher_view_kept s
    (RunForegroundTask is_set LookupFunctionName GetNameOrNull s).
Proof.
  intros N. unfold RunForegroundTask.
  destruct (foreground_tasks s) as [| t rest] eqn:Q;
    [apply finisher_view_kept_refl |].
  cbv zeta.
  assert (V : is_FinishCompileTask t = false ->
              finisher_view_kept s (set_foreground_tasks rest s)).
  { intros T. apply finisher_view_set_foreground_tasks.
    unfold pending_finishers. rewrite Q. simpl. now rewrite T. }
  destruct t; try (exfalso; eapply N; reflexivity); try (now apply V).
  eapply finisher_view_kept_trans; [now apply V |].
  unfold NotifyFailedTask_Run.
  destruct (GetCompileError _ _ _ _);
    [apply finisher_view_NotifyOnEvent | apply finisher_view_kept_refl].
Qed.

End FinisherFrames.

Lemma ScheduleUnitForFinishing_flag
    (unit : WasmCompilationUnit) (tier : ExecutionTier) (s : CompilationStateImpl) :
  let s' := ScheduleUnitForFinishing unit tier s in
  failed s' = failed s /\
  (finisher_is_running_ s = false -> failed s = false ->
   finisher_is_running_ s' = true /\
   pending_finishers s' = S (pending_finishers s)) /\
  (finisher_is_running_ s = true \/ failed s = true ->
   finisher_is_running_ s' = finisher_is_running_ s /\
   pending_finishers s' = pending_finishers s).
Proof.
  cbv zeta. unfold ScheduleUnitForFinishing. cbv zeta.
  set (s1 := if CompileMode_eqb (compile_mode_ s) kTiering &&
                 ExecutionTier_eqb tier kOptimized
              then _ else _).
  assert (V : finisher_is_running_ s1 = finisher_is_running_ s /\
              foreground_tasks s1 = foreground_tasks s /\
              failed s1 = failed s).
  { subst s1. destruct (_ && _); destruct s; repeat split. }
  destruct V as (F & Q & E). rewrite F, E.
  assert (P1 : pending_finishers s1 = pending_finishers s)
    by (unfold pending_finishers; now rewrite Q).
  assert (W : finisher_is_running_
                (set_finisher_is_running true (ScheduleFinisherTask s1)) = true /\
              pending_finishers
                (set_finisher_is_running true (ScheduleFinisherTask s1)) =
                S (pending_finishers s1) /\
              failed (set_finisher_is_running true (ScheduleFinisherTask s1)) =
                failed s1).
  { unfold ScheduleFinisherTask.
    pose proof (pending_finishers_push_back s1 FinishCompileTask) as P.
    simpl in P. revert P. unfold pending_finishers.
    destruct s1; simpl. intros P. repeat split. exact P. }
  destruct W as (WF & WP & WE).
  destruct (finisher_is_running_ s), (failed s); simpl;
    rewrite ?WF, ?WP, ?WE, ?F, ?E, ?P1;
    repeat split; intros; auto;
    try discriminate; try (now intuition discriminate).
Qed.

Lemma SetFinisherIsRunning_frame (value : bool) (s : CompilationStateImpl) :
  let s' := snd (SetFinisherIsRunning value s) in
  fst (SetFinisherIsRunning value s) = negb (Bool.eqb (finisher_is_running_ s) value) /\
  finisher_is_running_ s' = value /\
  pending_finishers s' = pending_finishers s /\
  finish_units s' = finish_units s /\
  failed s' = failed s.
Proof.
  cbv zeta. unfold SetFinisherIsRunning.
  destruct (Bool.eqb (finisher_is_running_ s) value) eqn:B; simpl.
  - apply Bool.eqb_prop in B. repeat split; auto.
  - destruct s; repeat split.
Qed.

Lemma GetNextExecutedUnit_frame (s : CompilationStateImpl) :
  let s' := snd (GetNextExecutedUnit s) in
  finisher_is_running_ s' = finisher_is_running_ s /\
  pending_finishers s' = pending_finishers s /\
  failed s' = failed s.
Proof.
  cbv zeta. unfold GetNextExecutedUnit.
  destruct (back (finish_units s)); simpl; [| repeat split].
  unfold set_finish_units.
  destruct (baseline_compilation_finished s); destruct s; repeat split.
Qed.

Lemma ScheduleFinisherTask_frame (s : CompilationStateImpl) :
  finisher_is_running_ (ScheduleFinisherTask s) = finisher_is_running_ s /\
  pending_finishers (ScheduleFinisherTask s) = S (pending_finishers s) /\
  finish_units (ScheduleFinisherTask s) = finish_units s /\
  failed (ScheduleFinisherTask s) = failed s.
Proof.
  unfold ScheduleFinisherTask.
  pose proof (pending_finishers_push_back s FinishCompileTask) as P.
  simpl in P. revert P. unfold pending_finishers.
  destruct s; simpl. intros P. repeat split. exact P.
Qed.

Lemma take_finisher_frame (rest : list Task) (s : CompilationStateImpl) :
  foreground_tasks s = FinishCompileTask :: rest ->
  let s' := set_foreground_tasks rest s in
  finisher_is_running_ s' = finisher_is_running_ s /\
  pending_finishers s = S (pending_finishers s') /\
  finish_units s' = finish_units s /\
  failed s' = failed s.
Proof.
  destruct s. unfold pending_finishers. simpl. intros ->. simpl. repeat split.
Qed.

Lemma HasCompilationUnitToFinish_false (s : CompilationStateImpl) :
  HasCompilationUnitToFinish s = false -> finish_units s = [].
Proof.
  unfold HasCompilationUnitToFinish. destruct (finish_units s); [auto | discriminate].
Qed.

(** A step that leaves the flag and the number of finishers keeps the
    account. *)
Lemma finisher_accounted_transfer (s s' : CompilationStateImpl)
    (fg fg' : Foreground) :
  finisher_accounted (mkSystem s fg) ->
  finisher_is_running_ s' = finisher_is_running_ s ->
  (pending_finishers s' + holds_flag fg' = pending_finishers s + holds_flag fg)%nat ->
  (failed s = true -> failed s' = true) ->
  (fg' = Finishing AtEntryFailed -> failed s' = true) ->
  (failed s' = false -> finish_units s' <> [] ->
   finisher_is_running_ s' = true \/
   fg' = Finishing AtHasUnit \/ fg' = Finishing AtSetFlag) ->
  finisher_accounted (mkSystem s' fg').
Proof.
  unfold finisher_accounted, finishers. simpl.
  intros (K1 & K2 & K3 & M & L) F P E M' L'.
  rewrite F, P.
  split; [exact K1 |]. split; [exact K2 |]. split.
  - intros NF. apply K3. destruct (failed s); [| reflexivity].
    rewrite E in NF; [discriminate | reflexivity].
  - split; [exact M' |]. rewrite <- F. exact L'.
Qed.

(** The same when the step keeps the foreground thread where it is and
    keeps the view. *)
Lemma finisher_accounted_view_kept (s s' : CompilationStateImpl)
    (fg : Foreground) :
  finisher_accounted (mkSystem s fg) ->
  finisher_view_kept s s' ->
  finisher_accounted (mkSystem s' fg).
Proof.
  intros I (F & P & U & E).
  apply (finisher_accounted_transfer s s' fg fg I F); [now rewrite P | exact E | |].
  - intros ->. destruct I as (_ & _ & _ & M & _). apply E. now apply M.
  - intros NF NE. rewrite F, U in *.
    destruct I as (_ & _ & _ & _ & L). cbn [sys_state sys_foreground] in L.
    apply L; [| exact NE].
    destruct (failed s); [| reflexivity].
    rewrite E in NF; [discriminate | reflexivity].
Qed.

(** While a finisher holds the flag the flag is set. *)
Lemma finisher_accounted_holder (s : CompilationStateImpl) (fg : Foreground) :
  finisher_accounted (mkSystem s fg) ->
  holds_flag fg = 1%nat ->
  finisher_is_running_ s = true /\ pending_finishers s = 0%nat.
Proof.
  unfold finisher_accounted, finishers. simpl.
  intros (K1 & K2 & _) H. rewrite H in *. split; [apply K2 |]; lia.
Qed.

(** With the flag clear there is no finisher. *)
Lemma finisher_accounted_flag_clear (s : CompilationStateImpl) (fg : Foreground) :
  finisher_accounted (mkSystem s fg) ->
  finisher_is_running_ s = false ->
  pending_finishers s = 0%nat /\ holds_flag fg = 0%nat.
Proof.
  unfold finisher_accounted, finishers. simpl.
  intros (K1 & K2 & _) Fl.
  destruct (Nat.eq_dec (pending_finishers s + holds_flag fg) 1) as [One |];
    [apply K2 in One; congruence | lia].
Qed.

Section FinisherAccount.

Context {WireBytesRef : Type}.
Variable is_set : WireBytesRef -> bool.
Variable LookupFunctionName : string -> Z -> WireBytesRef.
Variable GetNameOrNull : string -> WireBytesRef -> string.

Lemma finisher_accounted_other_thread (op : Op) (s : CompilationStateImpl)
    (fg : Foreground) :
  is_call_of_other_thread op = true ->
  finisher_accounted (mkSystem s fg) ->
  finisher_accounted
    (mkSystem (step is_set LookupFunctionName GetNameOrNull op s) fg).
Proof.
  intros A I.
  assert (D : (exists unit tier, op = OpScheduleUnitForFinishing unit tier) \/
              (forall unit tier, op <> OpScheduleUnitForFinishing unit tier)).
  { destruct op; try (right; intros; discriminate). left; eauto. }
  destruct D as [(unit & tier & ->) | N];
    [| apply (finisher_accounted_view_kept s _ fg I);
       now apply other_thread_frame].
  cbn [step].
  destruct (ScheduleUnitForFinishing_flag unit tier s) as (E & New & Old).
  destruct (finisher_is_running_ s) eqn:Fl.
  - destruct Old as (F & P); [now left |].
    apply (finisher_accounted_transfer s _ fg fg I).
    + congruence.
    + now rewrite P.
    + intros; congruence.
    + intros ->. destruct I as (_ & _ & _ & M & _). rewrite E. now apply M.
    + intros _ _. left. congruence.
  - destruct (failed s) eqn:Fs.
    + destruct Old as (F & P); [now right |].
      apply (finisher_accounted_transfer s _ fg fg I).
      * congruence.
      * now rewrite P.
      * intros; congruence.
      * intros; congruence.
      * intros NF. congruence.
    + destruct New as (F & P); auto.
      destruct (finisher_accounted_flag_clear s fg I Fl) as (P0 & H0).
      unfold finisher_accounted, finishers. simpl.
      rewrite F, P, P0, H0, E.
      split; [lia |]. split; [reflexivity |]. split; [reflexivity |].
      split; [| now left].
      intros ->. discriminate H0.
Qed.

Lemma finisher_accounted_finisher_step (pc : FinisherPc) (deadline_passed : bool)
    (s : CompilationStateImpl) :
  finisher_accounted (mkSystem s (Finishing pc)) ->
  finisher_accounted (finisher_step pc deadline_passed s).
Proof.
  intros I.
  destruct pc; cbn [finisher_step].
  - (* AtEntry *)
    destruct (finisher_accounted_holder _ _ I eq_refl) as (Fl & P0).
    destruct (failed s) eqn:Fs;
      apply (finisher_accounted_transfer s s _ _ I);
      solve [ reflexivity | auto | discriminate ].
  - (* AtEntryFailed *)
    destruct (finisher_accounted_holder _ _ I eq_refl) as (Fl & P0).
    destruct (SetFinisherIsRunning_frame false s) as (_ & F & P & U & E).
    destruct I as (_ & _ & _ & M & _). specialize (M eq_refl).
    cbn [sys_state] in M.
    unfold finisher_accounted, finishers. simpl. rewrite F, P, E, P0, M.
    repeat split; intros; try discriminate; try lia.
  - (* AtRestart *)
    destruct (finisher_accounted_holder _ _ I eq_refl) as (Fl & P0).
    destruct (finisher_view_RestartBackgroundTasks SizeT.max s) as (F & P & U & E).
    apply (finisher_accounted_transfer s _ _ _ I).
    + exact F.
    + now rewrite P.
    + exact E.
    + discriminate.
    + intros _ _. left. congruence.
  - (* AtGetNext *)
    destruct (finisher_accounted_holder _ _ I eq_refl) as (Fl & P0).
    destruct (GetNextExecutedUnit_frame s) as (F & P & E).
    destruct (GetNextExecutedUnit s) as [[unit |] s'] eqn:G; simpl in F, P, E;
      (apply (finisher_accounted_transfer s _ _ _ I);
       [ exact F | now rewrite P | intros; congruence | discriminate
       | intros _ _; left; congruence ]).
  - (* AtClearFlag *)
    destruct (finisher_accounted_holder _ _ I eq_refl) as (Fl & P0).
    destruct (SetFinisherIsRunning_frame false s) as (_ & F & P & U & E).
    unfold finisher_accounted, finishers. simpl. rewrite F, P, E, P0.
    repeat split; intros; try discriminate; try lia. auto.
  - (* AtHasUnit *)
    destruct (HasCompilationUnitToFinish s) eqn:H.
    + apply (finisher_accounted_transfer s s _ _ I);
        solve [ reflexivity | auto | discriminate ].
    + apply (finisher_accounted_transfer s s _ _ I);
        try solve [ reflexivity | auto | discriminate ].
      intros _ NE. now apply HasCompilationUnitToFinish_false in H.
  - (* AtSetFlag *)
    destruct (SetFinisherIsRunning_frame true s) as (C & F & P & U & E).
    destruct (SetFinisherIsRunning true s) as [changed s'] eqn:G.
    simpl in C, F, P, U, E.
    destruct changed.
    + assert (Fl : finisher_is_running_ s = false)
        by (destruct (finisher_is_running_ s); [discriminate | reflexivity]).
      destruct (finisher_accounted_flag_clear _ _ I Fl) as (P0 & _).
      unfold finisher_accounted, finishers. simpl. rewrite F, P, P0.
      repeat split; intros; try discriminate; try lia.
    + assert (Fl : finisher_is_running_ s = true)
        by (destruct (finisher_is_running_ s); [reflexivity | discriminate]).
      apply (finisher_accounted_transfer s _ _ _ I).
      * congruence.
      * now rewrite P.
      * intros; congruence.
      * discriminate.
      * intros _ _. now left.
  - (* AtFailedCheck *)
    destruct (finisher_accounted_holder _ _ I eq_refl) as (Fl & P0).
    destruct (failed s) eqn:Fs.
    + unfold finisher_accounted, finishers. simpl. rewrite Fs, P0, Fl.
      repeat split; intros; try discriminate; try lia.
    + apply (finisher_accounted_transfer s s _ _ I);
        solve [ reflexivity | auto | discriminate ].
  - (* AtOnFinished *)
    destruct (finisher_accounted_holder _ _ I eq_refl) as (Fl & P0).
    destruct (finisher_view_OnFinishedUnit_but_units s) as (F & P & E).
    apply (finisher_accounted_transfer s _ _ _ I).
    + exact F.
    + now rewrite P.
    + intros; congruence.
    + discriminate.
    + intros _ _. left. congruence.
  - (* AtDeadline *)
    destruct (finisher_accounted_holder _ _ I eq_refl) as (Fl & P0).
    destruct deadline_passed.
    + destruct (ScheduleFinisherTask_frame s) as (F & P & U & E).
      apply (finisher_accounted_transfer s _ _ _ I).
      * exact F.
      * rewrite P. simpl. lia.
      * intros; congruence.
      * discriminate.
      * intros _ _. left. congruence.
    + apply (finisher_accounted_transfer s s _ _ I);
        solve [ reflexivity | auto | discriminate ].
Qed.

Lemma finisher_accounted_act (a : Action) (sys : System) :
  is_allowed_action a = true ->
  finisher_accounted sys ->
  finisher_accounted (act is_set LookupFunctionName GetNameOrNull a sys).
Proof.
  intros A I. destruct sys as [s fg]. destruct a as [op | deadline_passed].
  - now apply finisher_accounted_other_thread.
  - destruct fg as [| pc]; [| now apply finisher_accounted_finisher_step].
    cbn [act foreground_step sys_foreground sys_state].
    destruct (foreground_tasks s) as [| t rest] eqn:Q.
    + apply (finisher_accounted_view_kept s _ Idle I).
      apply RunForegroundTask_frame. rewrite Q. discriminate.
    + assert (D : t = FinishCompileTask \/
                  forall rest0, foreground_tasks s <> FinishCompileTask :: rest0)
        by (rewrite Q; destruct t; auto; right; discriminate).
      destruct D as [-> | N].
      * destruct (take_finisher_frame rest s Q) as (F & P & U & E).
        apply (finisher_accounted_transfer s _ _ _ I).
        -- exact F.
        -- rewrite P. simpl. lia.
        -- intros; congruence.
        -- discriminate.
        -- intros _ _. left. rewrite F.
           destruct I as (K1 & K2 & _). apply K2.
           revert K1. unfold finishers. simpl. rewrite P. lia.
      * destruct t;
          try (exfalso; eapply N; rewrite Q; reflexivity);
          (apply (finisher_accounted_view_kept s _ Idle I);
           now apply RunForegroundTask_frame).
Qed.

End FinisherAccount.

Section FinisherSchedules.

Context {WireBytesRef : Type}.
Variable is_set : WireBytesRef -> bool.
Variable LookupFunctionName : string -> Z -> WireBytesRef.
Variable GetNameOrNull : string -> WireBytesRef -> string.

Lemma finisher_accounted_act_all (actions : list Action) (sys : System) :
  forallb is_allowed_action actions = true ->
  finisher_accounted sys -> finisher_accounted
    (act_all is_set LookupFunctionName GetNameOrNull actions sys).
Proof.
  revert sys. induction actions as [| a actions IH]; intros sys A I; [exact I |].
  simpl in A. apply andb_prop in A. destruct A as (A1 & A2).
  simpl. apply IH; [exact A2 |].
  now apply finisher_accounted_act.
Qed.

Lemma finisher_accounted_start (s : CompilationStateImpl) :
  finisher_is_running_ s = false ->
  pending_finishers s = 0%nat ->
  finish_units s = [] ->
  finisher_accounted (mkSystem s Idle).
Proof.
  intros F P U. unfold finisher_accounted, finishers. simpl.
  rewrite F, P, U. repeat split; intros; try discriminate; try lia.
  congruence.
Qed.

(** X11 (FinishCompileTask::RunInternal, ScheduleUnitForFinishing,
    SetFinisherIsRunning, ScheduleFinisherTask): from a state with the
    finisher flag clear, no finisher task posted and no unit to finish, and
    along every interleaving of the calls of other threads with the single
    steps of the foreground thread, there is never more than one finisher
    (a finisher task in the foreground queue, or the running finisher
    before it clears the flag); while there is one the flag is set; and the
    flag is set without a finisher only after an error was latched. *)
Theorem never_two_finishers (actions : list Action) (s : CompilationStateImpl) :
  finisher_is_running_ s = false ->
  pending_finishers s = 0%nat ->
  finish_units s = [] ->
  forallb is_allowed_action actions = true ->
  let sys :=
    act_all is_set LookupFunctionName GetNameOrNull actions (mkSystem s Idle) in
  (finishers sys <= 1)%nat /\
  (finishers sys = 1%nat -> finisher_is_running_ (sys_state sys) = true) /\
  (finisher_is_running_ (sys_state sys) = true ->
   finishers sys = 1%nat \/ failed (sys_state sys) = true).
Proof.
  intros F P U A sys.
  assert (I : finisher_accounted sys)
    by (apply finisher_accounted_act_all; [exact A |];
        now apply finisher_accounted_start).
  destruct I as (K1 & K2 & K3 & _).
  split; [exact K1 |]. split; [exact K2 |].
  intros Fl. destruct (failed (sys_state sys)); [now right | left; now apply K3].
Qed.

(** X12 (FinishCompileTask::RunInternal, ScheduleUnitForFinishing,
    HasCompilationUnitToFinish): under the same conditions, whenever no
    error is latched and a unit waits on the vector the finisher serves, a
    finisher task is waiting in the foreground queue or the foreground
    thread is inside one: no finished unit is left without a finisher. *)
Theorem finished_unit_has_a_finisher (actions : list Action)
    (s : CompilationStateImpl) :
  finisher_is_running_ s = false ->
  pending_finishers s = 0%nat ->
  finish_units s = [] ->
  forallb is_allowed_action actions = true ->
  let sys :=
    act_all is_set LookupFunctionName GetNameOrNull actions (mkSystem s Idle) in
  failed (sys_state sys) = false ->
  finish_units (sys_state sys) <> [] ->
  pending_finishers (sys_state sys) = 1%nat \/ sys_foreground sys <> Idle.
Proof.
  intros F P U A sys NF NE.
  assert (I : finisher_accounted sys)
    by (apply finisher_accounted_act_all; [exact A |];
        now apply finisher_accounted_start).
  destruct I as (K1 & K2 & K3 & _ & L).
  destruct (L NF NE) as [Fl | [E | E]].
  - specialize (K3 NF Fl). unfold finishers in K3.
    destruct (sys_foreground sys) as [| pc]; [left; simpl in K3; lia |].
    right. discriminate.
  - right. rewrite E. discriminate.
  - right. rewrite E. discriminate.
Qed.

End FinisherSchedules.

Lemma never_two_finishers_witness :
  let sys :=
    act_all sample_is_set sample_LookupFunctionName sample_GetNameOrNull
      schedule_one_unit_finished
      (mkSystem (SetNumberOfFunctionsToCompile 1 regular_state) Idle) in
  (finishers sys <= 1)%nat /\
  (finishers sys = 1%nat -> finisher_is_running_ (sys_state sys) = true) /\
  (finisher_is_running_ (sys_state sys) = true ->
   finishers sys = 1%nat \/ failed (sys_state sys) = true).
Proof.
  apply (never_two_finishers sample_is_set sample_LookupFunctionName
           sample_GetNameOrNull schedule_one_unit_finished
           (SetNumberOfFunctionsToCompile 1 regular_state));
    reflexivity.
Defined.

Lemma finished_unit_has_a_finisher_witness :
  let sys :=
    act_all sample_is_set sample_LookupFunctionName sample_GetNameOrNull
      schedule_one_unit_handed_back
      (mkSystem (SetNumberOfFunctionsToCompile 1 regular_state) Idle) in
  finish_units (sys_state sys) = [mkUnit 0 kBaseline] /\
  (pending_finishers (sys_state sys) = 1%nat \/ sys_foreground sys <> Idle).
Proof.
  split; [reflexivity |].
  apply (finished_unit_has_a_finisher sample_is_set sample_LookupFunctionName
           sample_GetNameOrNull schedule_one_unit_handed_back
           (SetNumberOfFunctionsToCompile 1 regular_state));
    try reflexivity.
  discriminate.
Defined.

(** ** Streaming compilation *)

Lemma queues_RestartBackgroundTasks (max : Z) (s : CompilationStateImpl) :
  compile_mode_ (RestartBackgroundTasks max s) = compile_mode_ s /\
  baseline_compilation_units_ (RestartBackgroundTasks max s) =
    baseline_compilation_units_ s /\
  tiering_compilation_units_ (RestartBackgroundTasks max s) =
    tiering_compilation_units_ s.
Proof.
  rewrite RestartBackgroundTasks_eq. cbv zeta.
  destruct (failed s); [auto |].
  destruct (_ =? _); [auto |].
  destruct (0 <? _); destruct s; repeat split.
Qed.

Lemma queues_AddCompilationUnits
    (baseline_units tiering_units : list WasmCompilationUnit)
    (s : CompilationStateImpl) :
  let s' := AddCompilationUnits baseline_units tiering_units s in
  compile_mode_ s' = compile_mode_ s /\
  baseline_compilation_units_ s' =
    baseline_compilation_units_ s ++ baseline_units /\
  tiering_compilation_units_ s' =
    match compile_mode_ s with
    | kTiering => tiering_compilation_units_ s ++ tiering_units
    | kRegular => tiering_compilation_units_ s
    end.
Proof.
  cbv zeta. unfold AddCompilationUnits. cbv zeta.
  match goal with
  | |- context [RestartBackgroundTasks ?m ?x] =>
      destruct (queues_RestartBackgroundTasks m x) as (M & B & T)
  end.
  rewrite M, B, T.
  destruct s as [mode err bcu tcu fin nbg bfu tfu cbs mbg ob ot flag wb fg wk fi de].
  destruct mode; repeat split.
Qed.

(** The units for the functions [start], ..., [start + n - 1] as the builder
    makes them in the mode of [s]. *)
Local Abbreviation baseline_units_for default_tier s start n :=
  (map (fun i => mkUnit i match compile_mode_ s with
                          | kTiering => kBaseline
                          | kRegular => default_tier
                          end)
       (indices_from start n)).

Local Abbreviation tiering_units_for s start n :=
  (match compile_mode_ s with
   | kTiering => map (fun i => mkUnit i kOptimized) (indices_from start n)
   | kRegular => []
   end).

Lemma stream_account (default_tier : ExecutionTier) (a : Z)
    (calls : list StreamingCall) :
  forall (j : nat) (b : CompilationUnitBuilder) (s : CompilationStateImpl),
  0 <= a ->
  a + Z.of_nat j + Z.of_nat (function_bodies calls) < 2 ^ 32 ->
  (compile_mode_ s = kRegular -> tiering_units_ b = []) ->
  exists b' s',
    stream default_tier a calls (mkProcessor (Some b) (Z.of_nat j)) s =
      Some (mkProcessor (Some b')
              (Z.of_nat (j + function_bodies calls)), s') /\
    compile_mode_ s' = compile_mode_ s /\
    baseline_compilation_units_ s' ++ baseline_units_ b' =
      baseline_compilation_units_ s ++ baseline_units_ b ++
      baseline_units_for default_tier s (a + Z.of_nat j) (function_bodies calls) /\
    tiering_compilation_units_ s' ++ tiering_units_ b' =
      tiering_compilation_units_ s ++ tiering_units_ b ++
      tiering_units_for s (a + Z.of_nat j) (function_bodies calls) /\
    (compile_mode_ s = kRegular -> tiering_units_ b' = []).
Proof.
  induction calls as [| c calls IH]; intros j b s A B R.
  - exists b, s. unfold function_bodies. simpl.
    rewrite Nat.add_0_r, !app_nil_r.
    split; [reflexivity |]. split; [reflexivity |]. split; [reflexivity |].
    split; [| exact R].
    destruct (compile_mode_ s); now rewrite ?app_nil_r.
  - destruct c.
    + (* ProcessFunctionBody *)
      assert (FB : function_bodies (CallProcessFunctionBody :: calls) =
                   S (function_bodies calls)) by reflexivity.
      rewrite FB in *.
      cbn [stream]. unfold ProcessFunctionBody. cbn [compilation_unit_builder_
        next_function_]. cbv zeta.
      rewrite (uint32_small (Z.of_nat j + a)) by lia.
      rewrite (uint32_small (Z.of_nat j + 1)) by lia.
      replace (Z.of_nat j + 1) with (Z.of_nat (S j)) by lia.
      replace (Z.of_nat j + a) with (a + Z.of_nat j) by lia.
      set (b1 := AddUnit default_tier (a + Z.of_nat j) b s).
      destruct (IH (S j) b1 s A) as (b' & s' & E & M & QB & QT & R').
      * lia.
      * intros Reg. subst b1. unfold AddUnit. rewrite Reg. simpl. auto.
      * exists b', s'. rewrite E.
        replace (S j + function_bodies calls)%nat
          with (j + S (function_bodies calls))%nat by lia.
        split; [reflexivity |]. split; [exact M |].
        rewrite QB, QT. rewrite !indices_from_S.
        replace (a + Z.of_nat (S j)) with (a + Z.of_nat j + 1) by lia.
        split; [| split; [| exact R']];
          subst b1; unfold AddUnit, push_back;
          destruct (compile_mode_ s); simpl;
          rewrite <- ?app_assoc; simpl; reflexivity.
    + (* OnFinishedChunk *)
      assert (FB : function_bodies (CallOnFinishedChunk :: calls) =
                   function_bodies calls) by reflexivity.
      rewrite FB in *.
      cbn [stream]. unfold OnFinishedChunk, CommitCompilationUnits.
      cbn [compilation_unit_builder_ next_function_]. unfold Commit.
      destruct (empty (baseline_units_ b) && empty (tiering_units_ b)) eqn:Em.
      * apply (IH j b s A B R).
      * destruct (queues_AddCompilationUnits (baseline_units_ b)
                    (tiering_units_ b) s) as (M1 & B1 & T1).
        set (s1 := AddCompilationUnits (baseline_units_ b) (tiering_units_ b) s)
          in *.
        destruct (IH j (Clear b) s1 A B) as (b' & s' & E & M & QB & QT & R');
          [reflexivity |].
        exists b', s'. rewrite E, M, M1, QB, QT, B1, T1, M1.
        split; [reflexivity |]. split; [reflexivity |].
        unfold Clear. simpl. rewrite <- !app_assoc.
        split; [reflexivity |].
        split; [| intros Reg; apply R'; congruence].
        destruct (compile_mode_ s) eqn:Mode; simpl; rewrite <- ?app_assoc;
          try reflexivity.
        rewrite (R eq_refl). reflexivity.
Qed.

Lemma stream_app (default_tier : ExecutionTier) (a : Z)
    (calls1 calls2 : list StreamingCall) :
  forall (p : AsyncStreamingProcessor) (s : CompilationStateImpl),
  stream default_tier a (calls1 ++ calls2) p s =
  match stream default_tier a calls1 p s with
  | Some (p', s') => stream default_tier a calls2 p' s'
  | None => None
  end.
Proof.
  induction calls1 as [| c calls1 IH]; intros p s; [reflexivity |].
  destruct c; cbn [app stream].
  - destruct (ProcessFunctionBody default_tier a p s); [apply IH | reflexivity].
  - destruct (OnFinishedChunk p s) as [[p' s'] |]; [apply IH | reflexivity].
Qed.

(** X13 (AsyncStreamingProcessor::ProcessFunctionBody, OnFinishedChunk,
    CommitCompilationUnits; CompilationUnitBuilder): however the function
    bodies of a code section are cut into chunks, once the last chunk has
    ended the streaming processor has added to the pending baseline units
    one unit for each of the functions [a], ..., [a + n - 1] ([a] the number
    of imported functions, [n] the number of bodies), in this order, and in
    tiering mode one optimized unit for each to the pending tiering units;
    the builder is empty again and [next_function_] is [n]. *)
Theorem streaming_adds_each_function_once
    (default_tier : ExecutionTier) (a : Z) (calls : list StreamingCall)
    (p : AsyncStreamingProcessor) (s : CompilationStateImpl) :
  0 <= a ->
  a + Z.of_nat (function_bodies calls) < 2 ^ 32 ->
  compilation_unit_builder_ p = Some (mkBuilder [] []) ->
  next_function_ p = 0 ->
  exists s',
    stream default_tier a (calls ++ [CallOnFinishedChunk]) p s =
      Some (mkProcessor (Some (mkBuilder [] []))
              (Z.of_nat (function_bodies calls)), s') /\
    baseline_compilation_units_ s' =
      baseline_compilation_units_ s ++
      baseline_units_for default_tier s a (function_bodies calls) /\
    tiering_compilation_units_ s' =
      tiering_compilation_units_ s ++
      tiering_units_for s a (function_bodies calls).
Proof.
  intros A B PB PN. destruct p as [pb pn]. simpl in PB, PN. subst pb pn.
  destruct (stream_account default_tier a calls 0 (mkBuilder [] []) s A)
    as (b' & s' & E & M & QB & QT & R); [simpl; lia | reflexivity |].
  simpl in E, QB, QT. replace (a + 0) with a in * by lia.
  rewrite stream_app, E.
  cbn [stream]. unfold OnFinishedChunk, CommitCompilationUnits.
  cbn [compilation_unit_builder_ next_function_]. unfold Commit.
  destruct (empty (baseline_units_ b') && empty (tiering_units_ b')) eqn:Em.
  - apply andb_prop in Em. destruct Em as (EB & ET).
    destruct b' as [bb bt]. simpl in *.
    destruct bb; [| discriminate]. destruct bt; [| discriminate].
    rewrite !app_nil_r in *. exists s'. repeat split; assumption.
  - destruct (queues_AddCompilationUnits (baseline_units_ b')
                (tiering_units_ b') s') as (M1 & B1 & T1).
    eexists. split; [reflexivity |].
    rewrite B1, T1, QB. split; [reflexivity |].
    rewrite M. destruct (compile_mode_ s) eqn:Mode.
    + rewrite (R eq_refl), !app_nil_r in QT. now rewrite app_nil_r.
    + exact QT.
Qed.

Lemma streaming_adds_each_function_once_witness :
  exists s',
    stream kBaseline 2 (three_bodies_chunk_after_first ++ [CallOnFinishedChunk])
      (mkProcessor (Some (mkBuilder [] [])) 0) tiering_state =
      Some (mkProcessor (Some (mkBuilder [] [])) 3, s') /\
    baseline_compilation_units_ s' =
      [mkUnit 2 kBaseline; mkUnit 3 kBaseline; mkUnit 4 kBaseline] /\
    tiering_compilation_units_ s' =
      [mkUnit 2 kOptimized; mkUnit 3 kOptimized; mkUnit 4 kOptimized].
Proof.
  exact (streaming_adds_each_function_once kBaseline 2
           three_bodies_chunk_after_first
           (mkProcessor (Some (mkBuilder [] [])) 0) tiering_state
           ltac:(lia) ltac:(simpl; lia) eq_refl eq_refl).
Defined.

(** ** The cache of the JS-to-wasm wrappers *)

Arguments sig {FunctionSig} w.
Arguments imported {FunctionSig} w.
Arguments mkFunction {FunctionSig} sig imported.
Arguments export_table {FunctionSig} w.
Arguments functions {FunctionSig} w.
Arguments mkModule {FunctionSig} export_table functions.
Arguments CacheKey_eqb {FunctionSig} FunctionSig_eqb a b.
Arguments find {FunctionSig} FunctionSig_eqb {Code} key m.
Arguments assign {FunctionSig} FunctionSig_eqb {Code} key v m.
Arguments subscript {FunctionSig} FunctionSig_eqb {Code} key m.
Arguments mkIsolate {FunctionSig} compiled_js_to_wasm_wrappers.
Arguments compiled_js_to_wasm_wrappers {FunctionSig} i.
Arguments mkCache {FunctionSig Code} cache_.
Arguments cache_ {FunctionSig Code} j.
Arguments GetOrCompileJSToWasmWrapper {FunctionSig} FunctionSig_eqb {Code}
  CompileJSToWasmWrapper isolate sig is_import c.
Arguments FixedArray_set {Code} array index value.
Arguments CompileJsToWasmWrappers_loop {FunctionSig} FunctionSig_eqb {Code}
  CompileJSToWasmWrapper exports module js_to_wasm_cache wrapper_index
  export_wrappers isolate.
Arguments CompileJsToWasmWrappers {FunctionSig} FunctionSig_eqb {Code}
  CompileJSToWasmWrapper isolate module export_wrappers.
Arguments exported_functions {FunctionSig} module.
Arguments key_of {FunctionSig} function.
Arguments cache_holds {FunctionSig} FunctionSig_eqb {Code}
  CompileJSToWasmWrapper m log.

Lemma set_nth_Some {A : Type} (l : list A) (i : nat) (v : A) :
  (i < List.length l)%nat ->
  exists l', set_nth l i v = Some l' /\
             List.length l' = List.length l /\
             nth_error l' i = Some v /\
             (forall j, j <> i -> nth_error l' j = nth_error l j).
Proof.
  revert i. induction l as [| x l IH]; intros i H; [simpl in H; lia |].
  destruct i as [| i].
  - exists (v :: l). repeat split. intros [| j] J; [congruence | reflexivity].
  - destruct (IH i) as (l' & E & L & N & O); [simpl in H; lia |].
    exists (x :: l'). simpl. rewrite E.
    split; [reflexivity |]. split; [now rewrite L |]. split; [exact N |].
    intros [| j] J; [reflexivity |]. simpl. apply O. congruence.
Qed.

Section WrapperCache.

Context {FunctionSig Code : Type}.
Variable FunctionSig_eqb : FunctionSig -> FunctionSig -> bool.
Variable CompileJSToWasmWrapper : FunctionSig -> bool -> Code.
Hypothesis FunctionSig_eqb_eq :
  forall a b, FunctionSig_eqb a b = true <-> a = b.

Local Abbreviation key := (bool * FunctionSig)%type.
Local Abbreviation find := (@find FunctionSig FunctionSig_eqb Code).
Local Abbreviation assign := (@assign FunctionSig FunctionSig_eqb Code).
Local Abbreviation cache_holds :=
  (@cache_holds FunctionSig FunctionSig_eqb Code CompileJSToWasmWrapper).

Lemma CacheKey_eqb_eq (a b : key) :
  CacheKey_eqb FunctionSig_eqb a b = true <-> a = b.
Proof.
  unfold CacheKey_eqb. destruct a as [ai asig], b as [bi bsig]. simpl.
  rewrite andb_true_iff, Bool.eqb_true_iff, FunctionSig_eqb_eq.
  split; [intros (-> & ->); reflexivity | intros E; inversion E; auto].
Qed.

Lemma CacheKey_eqb_refl (a : key) : CacheKey_eqb FunctionSig_eqb a a = true.
Proof. now apply CacheKey_eqb_eq. Qed.

Lemma CacheKey_eqb_neq (a b : key) :
  a <> b -> CacheKey_eqb FunctionSig_eqb a b = false.
Proof.
  intros N. destruct (CacheKey_eqb FunctionSig_eqb a b) eqn:E; [| reflexivity].
  apply CacheKey_eqb_eq in E. contradiction.
Qed.

Lemma key_eq_dec (a b : key) : a = b \/ a <> b.
Proof.
  destruct (CacheKey_eqb FunctionSig_eqb a b) eqn:E.
  - left. now apply CacheKey_eqb_eq.
  - right. intros ->. rewrite CacheKey_eqb_refl in E. discriminate.
Qed.

Lemma find_app_None (k : key) (m m' : list (key * option Code)) :
  find k m = None -> find k (m ++ m') = find k m'.
Proof.
  induction m as [| [k' v'] m IH]; [reflexivity |]. simpl.
  destruct (CacheKey_eqb FunctionSig_eqb k k'); [discriminate | exact IH].
Qed.

Lemma find_app_Some (k : key) (m m' : list (key * option Code)) (v : option Code) :
  find k m = Some v -> find k (m ++ m') = Some v.
Proof.
  induction m as [| [k' v'] m IH]; [discriminate |]. simpl.
  destruct (CacheKey_eqb FunctionSig_eqb k k'); [auto | exact IH].
Qed.

Lemma find_assign_same (k : key) (v : option Code) (m : list (key * option Code)) :
  find k m <> None -> find k (assign k v m) = Some v.
Proof.
  induction m as [| [k' v'] m IH]; [intros H; now elim H |]. simpl.
  destruct (CacheKey_eqb FunctionSig_eqb k k') eqn:E; simpl; rewrite E; auto.
Qed.

Lemma find_assign_other (k k0 : key) (v : option Code)
    (m : list (key * option Code)) :
  k0 <> k -> find k0 (assign k v m) = find k0 m.
Proof.
  intros N. induction m as [| [k' v'] m IH]; [reflexivity |]. simpl.
  destruct (CacheKey_eqb FunctionSig_eqb k k') eqn:E; simpl.
  - apply CacheKey_eqb_eq in E. subst k'.
    now rewrite (CacheKey_eqb_neq k0 k N).
  - now rewrite IH.
Qed.

Lemma In_key_dec (k : key) (log : list key) : In k log \/ ~ In k log.
Proof.
  induction log as [| x l IH]; [now right |].
  destruct (key_eq_dec x k) as [-> | N]; [left; now left |].
  destruct IH as [I | I]; [left; now right |].
  right. intros [E | I']; contradiction.
Qed.

Lemma GetOrCompileJSToWasmWrapper_holds (base log : list key)
    (m : list (key * option Code)) (s : FunctionSig) (is_import : bool) :
  cache_holds m log ->
  exists m' log',
    GetOrCompileJSToWasmWrapper FunctionSig_eqb CompileJSToWasmWrapper
      (mkIsolate (base ++ log)) s is_import (mkCache m) =
    (CompileJSToWasmWrapper s is_import, mkCache m', mkIsolate (base ++ log')) /\
    cache_holds m' log' /\
    (forall k, In k log' <-> In k log \/ k = (is_import, s)).
Proof.
  intros (ND & H).
  unfold GetOrCompileJSToWasmWrapper. cbv zeta. cbn [cache_].
  set (k := (is_import, s)).
  destruct (In_key_dec k log) as [I | I].
  - destruct (H k) as (Hit & _). specialize (Hit I).
    unfold subscript. rewrite Hit. cbv iota. rewrite Hit.
    exists m, log. split; [reflexivity |]. split; [split; assumption |].
    intros k0. split; [auto |]. intros [J | ->]; auto.
  - destruct (H k) as (_ & Miss). specialize (Miss I).
    assert (F1 : find k (m ++ [(k, None)]) = Some None).
    { rewrite (find_app_None k m [(k, None)] Miss). simpl.
      now rewrite CacheKey_eqb_refl. }
    unfold subscript. rewrite Miss. cbv iota.
    unfold CacheKey, Handle_Code in *. rewrite F1.
    exists (assign k (Some (CompileJSToWasmWrapper s is_import))
              (m ++ [(k, None)])), (log ++ [k]).
    cbn [compiled_js_to_wasm_wrappers]. rewrite app_assoc.
    split; [reflexivity |]. split.
    + split.
      * apply NoDup_app; [exact ND | repeat constructor; auto | ].
        intros x Ix [<- | []]. contradiction.
      * intros k0. rewrite in_app_iff. simpl.
        destruct (key_eq_dec k0 k) as [-> | N].
        -- split; [| intros C; elim C; right; now left].
           intros _. apply find_assign_same. rewrite F1. discriminate.
        -- rewrite (find_assign_other k k0 _ _ N).
           split.
           ++ intros [J | [J | []]]; [| congruence].
              apply find_app_Some. now apply H.
           ++ intros J. rewrite find_app_None by (apply H; tauto).
              simpl. now rewrite (CacheKey_eqb_neq k0 k N).
    + intros k0. rewrite in_app_iff. simpl. intuition.
Qed.

Lemma CompileJsToWasmWrappers_loop_holds (module : WasmModule FunctionSig)
    (base : list key) (exports : list WasmExport) :
  forall (exported : list (WasmFunction FunctionSig))
         (m : list (key * option Code)) (log : list key)
         (export_wrappers : list (option Code)) (n : nat),
  cache_holds m log ->
  map (fun exp => nth_error (functions module) (Z.to_nat (index exp)))
      (filter (fun exp => ImportExportKindCode_eqb (kind exp) kExternalFunction)
              exports) =
    map Some exported ->
  (n + List.length exported <= List.length export_wrappers)%nat ->
  exists export_wrappers' log',
    CompileJsToWasmWrappers_loop FunctionSig_eqb CompileJSToWasmWrapper
      exports module (mkCache m) (Z.of_nat n) export_wrappers
      (mkIsolate (base ++ log)) =
    Some (export_wrappers', mkIsolate (base ++ log')) /\
    NoDup log' /\
    (forall k, In k log' <-> In k log \/ In k (map key_of exported)) /\
    List.length export_wrappers' = List.length export_wrappers /\
    (forall i f, nth_error exported i = Some f ->
       nth_error export_wrappers' (n + i) =
       Some (Some (CompileJSToWasmWrapper (sig f) (imported f)))) /\
    (forall i, (i < n \/ n + List.length exported <= i)%nat ->
       nth_error export_wrappers' i = nth_error export_wrappers i).
Proof.
  induction exports as [| exp exports IH];
    intros exported m log export_wrappers n C E L.
  - destruct exported; [| discriminate].
    exists export_wrappers, log. simpl.
    split; [reflexivity |]. split; [apply C |].
    split; [intros k; tauto |]. split; [reflexivity |].
    split; [intros [| i] f; discriminate | auto].
  - cbn [CompileJsToWasmWrappers_loop]. cbn [filter] in E.
    destruct (ImportExportKindCode_eqb (kind exp) kExternalFunction);
      cbn [negb]; [| now apply IH].
    cbn [map] in E. destruct exported as [| f exported]; [discriminate |].
    cbn [map] in E. injection E as E0 E.
    rewrite E0.
    destruct (GetOrCompileJSToWasmWrapper_holds base log m (sig f) (imported f) C)
      as (m1 & log1 & G & C1 & I1).
    rewrite G.
    unfold FixedArray_set.
    replace (Z.of_nat n <? 0) with false by (symmetry; apply Z.ltb_ge; lia).
    rewrite Nat2Z.id.
    destruct (set_nth_Some export_wrappers n
                (Some (CompileJSToWasmWrapper (sig f) (imported f))))
      as (arr1 & S1 & L1 & N1 & O1); [simpl in L; lia |].
    rewrite S1.
    replace (Z.of_nat n + 1) with (Z.of_nat (S n)) by lia.
    destruct (IH exported m1 log1 arr1 (S n) C1 E) as
      (arr' & log' & R & ND & I' & L' & W & U); [simpl in L; lia |].
    exists arr', log'. split; [exact R |]. split; [exact ND |].
    split; [| split; [congruence |]; split].
    + intros k. rewrite I', I1. simpl. unfold key_of at 1.
      split; [intros [[J | ->] | J] | intros [J | [<- | J]]]; auto.
    + intros [| i] g Hg.
      * simpl in Hg. injection Hg as <-.
        rewrite Nat.add_0_r, U by lia. exact N1.
      * simpl in Hg. replace (n + S i)%nat with (S n + i)%nat by lia.
        now apply W.
    + intros i Hi. simpl in Hi. rewrite U by lia. apply O1. lia.
Qed.

(** X14 (CompileJsToWasmWrappers, JSToWasmWrapperCache): for a module whose
    function exports refer to the functions [exported] (in the order of the
    export table) and an array with a slot for each of them, the slot [i]
    receives the wrapper for the signature and the import flag of the [i]-th
    exported function, the other slots and the length of the array are
    left, and the compiler is called once for each pair of an import flag
    and a signature that occurs among the exported functions, and for no
    other. *)
Theorem CompileJsToWasmWrappers_compiles_each_signature_once
    (isolate : Isolate FunctionSig) (module : WasmModule FunctionSig)
    (export_wrappers : list (option Code))
    (exported : list (WasmFunction FunctionSig)) :
  exported_functions module = map Some exported ->
  (List.length exported <= List.length export_wrappers)%nat ->
  exists export_wrappers' log,
    CompileJsToWasmWrappers FunctionSig_eqb CompileJSToWasmWrapper
      isolate module export_wrappers =
    Some (export_wrappers',
          mkIsolate (compiled_js_to_wasm_wrappers isolate ++ log)) /\
    NoDup log /\
    (forall k, In k log <-> In k (map key_of exported)) /\
    List.length export_wrappers' = List.length export_wrappers /\
    (forall i f, nth_error exported i = Some f ->
       nth_error export_wrappers' i =
       Some (Some (CompileJSToWasmWrapper (sig f) (imported f)))) /\
    (forall i, (List.length exported <= i)%nat ->
       nth_error export_wrappers' i = nth_error export_wrappers i).
Proof.
  intros E L. unfold CompileJsToWasmWrappers.
  assert (C : cache_holds [] []).
  { split; [constructor |]. intros k. split; [intros [] | reflexivity]. }
  destruct isolate as [base].
  destruct (CompileJsToWasmWrappers_loop_holds module base (export_table module)
              exported [] [] export_wrappers 0 C E L)
    as (arr' & log' & R & ND & I & L' & W & U).
  rewrite app_nil_r in R. exists arr', log'.
  split; [exact R |]. split; [exact ND |].
  split; [intros k; rewrite I; simpl; tauto |].
  split; [exact L' |]. split; [exact W |].
  intros i Hi. apply U. right. exact Hi.
Qed.

End WrapperCache.

Lemma CompileJsToWasmWrappers_compiles_each_signature_once_witness :
  exists export_wrappers' log,
    CompileJsToWasmWrappers Z.eqb sample_CompileJSToWasmWrapper
      (mkIsolate []) sample_module [None; None; None; None] =
    Some (export_wrappers', mkIsolate ([] ++ log)) /\
    NoDup log /\
    (forall k, In k log <-> In k [(false, 7); (false, 7); (false, 9)]) /\
    List.length export_wrappers' = 4%nat /\
    (forall i f,
       nth_error [mkFunction 7 false; mkFunction 7 false; mkFunction 9 false] i =
         Some f ->
       nth_error export_wrappers' i =
       Some (Some (sample_CompileJSToWasmWrapper (sig f) (imported f)))) /\
    (forall i, (3 <= i)%nat ->
       nth_error export_wrappers' i = nth_error [None; None; None; None] i).
Proof.
  exact (CompileJsToWasmWrappers_compiles_each_signature_once
           Z.eqb sample_CompileJSToWasmWrapper Z.eqb_eq
           (mkIsolate []) sample_module [None; None; None; None]
           [mkFunction 7 false; mkFunction 7 false; mkFunction 9 false]
           eq_refl ltac:(simpl; lia)).
Defined.
